(** * DepthFlow API: execution and arbitration core

    A shallow embedding of the Python sources
      - [app/tasks/processing.py]            (retry classifier, task executor),
      - [app/services/gpu_resource_manager.py] (lease counter),
      - [app/services/monitoring.py]         (metrics recorder),
      - [app/services/health_monitor.py]     (health supervisor),
      - [app/api/routes.py]                  (task table, cancel endpoint),
      - [app/api/dependencies.py], [app/config.py] (request checks),
    followed by the properties the design document states about them and
    by further properties of the code.

    Conventions.
      - A Python [str] is a Rocq [string] holding its UTF-8 bytes.  UTF-8 is
        self-synchronising, so [needle in hay] on code points and on bytes
        agree for well-formed strings.
      - A Python [int] is a [Z]; a Python [float] is the rational [Q] it
        stands for.  The quotients and products that the recorder computes
        ([failed / total], the share of an error type) are rounded to the
        nearest binary64 value by [float.nearest]; the readings of sensors
        and clocks are inputs, and the arithmetic on them is exact.
      - A [datetime] is the number of seconds since [datetime.min], a
        [timedelta] a number of seconds; where Python raises OverflowError
        for a value out of range the functions of [datetime] return [None].
      - A [dict] with string keys is a [gmap string _]; a dict with a fixed
        set of keys is a record, with an [option] field for a key that may be
        absent.
      - [datetime.now()], [time.time()] and the external collaborators (the
        accelerator probe, the image validator, the renderer, the file
        system) are inputs of the functions that call them. *)

From Stdlib Require Import ZArith QArith Lia Bool Ascii.
From Stdlib Require DecimalString.
From stdpp Require Import gmap strings list sorting.

Open Scope string_scope.
Open Scope list_scope.

(* ===================================================================== *)
(** * Part I: the program                                                 *)
(* ===================================================================== *)

(** ** Python strings *)

(** [hay.startswith(needle)]. *)
Definition py_startswith (needle hay : string) : bool := String.prefix needle hay.

(** [needle in hay] for two [str]. *)
Fixpoint py_in (needle hay : string) : bool :=
  if py_startswith needle hay then true
  else match hay with
       | EmptyString => false
       | String _ rest => py_in needle rest
       end.

(** [s.endswith(suffix)]. *)
Definition py_endswith (suffix s : string) : bool :=
  let n := String.length suffix in
  let k := String.length s in
  (n <=? k)%nat && String.eqb (String.substring (k - n) n s) suffix.

(** One byte of [str.lower()]: the ASCII capitals move to their small
    letters.  Bytes of multi-byte sequences are kept, which is what Python
    does for every character without a lower-case form (all the CJK text of
    the sources); cased letters outside ASCII are not modelled. *)
Definition lower_byte (c : ascii) : ascii :=
  let n := nat_of_ascii c in
  if (65 <=? n)%nat && (n <=? 90)%nat then ascii_of_nat (n + 32) else c.

Fixpoint lower (s : string) : string :=
  match s with
  | EmptyString => EmptyString
  | String c rest => String (lower_byte c) (lower rest)
  end.

(** Truthiness of a [str]: only the empty string is falsy. *)
Definition str_truthy (s : string) : bool :=
  match s with EmptyString => false | String _ _ => true end.

(** Truthiness of an [Optional[str]]. *)
Definition opt_str_truthy (o : option string) : bool :=
  match o with None => false | Some s => str_truthy s end.

(** An exception value, as far as the sources look at it:
    [type(e).__name__] and [str(e)]. *)
Record PyExc := mkExc { exc_type : string; exc_str : string }.

Definition Exception (msg : string) : PyExc := mkExc "Exception" msg.
Definition RuntimeError (msg : string) : PyExc := mkExc "RuntimeError" msg.

(** The outcome of a call that may raise. *)
Inductive Result (A : Type) : Type :=
| Ok (a : A)
| Raise (e : PyExc).
Arguments Ok {A} a.
Arguments Raise {A} e.

(** [collections.deque(maxlen=n).append(x)]: the oldest entries fall out on
    the left once the length would exceed [n]. *)
Definition deque_append {A} (maxlen : nat) (x : A) (d : list A) : list A :=
  let d' := d ++ [x] in drop (length d' - maxlen) d'.

(** [deque(items, maxlen=n)]: keeps the last [n] items. *)
Definition deque_of {A} (maxlen : nat) (items : list A) : list A :=
  drop (length items - maxlen) items.

(** [s.lstrip(chars)] for ASCII [chars]: the leading characters that occur
    in [chars] are dropped. *)
Fixpoint py_lstrip (chars : list ascii) (s : string) : string :=
  match s with
  | EmptyString => EmptyString
  | String c rest =>
      if existsb (Ascii.eqb c) chars then py_lstrip chars rest else s
  end.

(** [s.rfind(c)] for a one-character ASCII [c]: the index of the last
    occurrence, [None] where Python answers -1. *)
Fixpoint py_rfind (c : ascii) (s : string) : option nat :=
  match s with
  | EmptyString => None
  | String a rest =>
      match py_rfind c rest with
      | Some i => Some (S i)
      | None => if Ascii.eqb a c then Some 0%nat else None
      end
  end.

(** [s.isascii()]. *)
Fixpoint py_isascii (s : string) : bool :=
  match s with
  | EmptyString => true
  | String c rest => (nat_of_ascii c <? 128)%nat && py_isascii rest
  end.

(** [x in l] for a list of [str]. *)
Definition py_in_list (x : string) (l : list string) : bool :=
  existsb (String.eqb x) l.

(* --------------------------------------------------------------------- *)
(** ** [os.path] on POSIX, as far as the sources call it                  *)
(* --------------------------------------------------------------------- *)

Module os_path.

(** Some character of [s] is not a dot. *)
Fixpoint has_non_dot (s : string) : bool :=
  match s with
  | EmptyString => false
  | String c rest => negb (Ascii.eqb c ".") || has_non_dot rest
  end.

(** [os.path.splitext(p)]: the extension starts at the last dot of the last
    path component, unless that component has nothing but dots before it.
    The dot and the slash are single bytes that occur in no multi-byte
    sequence, so the cuts are the same on bytes and on code points. *)
Definition splitext (p : string) : string * string :=
  match py_rfind "." p with
  | None => (p, "")
  | Some dotIndex =>
      let filenameIndex :=
        match py_rfind "/" p with None => 0%nat | Some sepIndex => S sepIndex end in
      if (filenameIndex <=? dotIndex)%nat
         && has_non_dot (String.substring filenameIndex
                                          (dotIndex - filenameIndex) p)
      then (String.substring 0 dotIndex p,
            String.substring dotIndex (String.length p - dotIndex) p)
      else (p, "")
  end.

End os_path.

(* --------------------------------------------------------------------- *)
(** ** Python floats and datetimes, as far as the sources use them        *)
(* --------------------------------------------------------------------- *)

Module float.

(** The integer nearest to [n / d] for [0 <= n] and [0 < d], a tie going to
    the even one. *)
Definition round_half_even (n d : Z) : Z :=
  let q := (n / d)%Z in
  let r := (n mod d)%Z in
  if (2 * r <? d)%Z then q
  else if (d <? 2 * r)%Z then (q + 1)%Z
  else if Z.even q then q else (q + 1)%Z.

(** The binary64 value nearest to [n / d] for [0 < n] and [0 < d]: with
    [2^e <= n / d < 2^(e+1)] the result is a multiple of [2^(e-52)], and of
    [2^-1074] for a subnormal one.  Values from [2^1024] on, where Python
    overflows, are outside the model. *)
Definition nearest_pos (n d : Z) : Q :=
  let e0 := (Z.log2 n - Z.log2 d)%Z in
  let e := if (n * 2 ^ Z.max 0 (- e0) <? d * 2 ^ Z.max 0 e0)%Z
           then (e0 - 1)%Z else e0 in
  let k := Z.max (e - 52) (-1074) in
  let m := round_half_even (n * 2 ^ Z.max 0 (- k)) (d * 2 ^ Z.max 0 k) in
  Qmake (m * 2 ^ Z.max 0 k) (Z.to_pos (2 ^ Z.max 0 (- k))).

(** The float nearest to the rational [q]: what a decimal literal denotes
    and what an arithmetic operation returns for the exact result [q]. *)
Definition nearest (q : Q) : Q :=
  let r := Qred q in
  match Qnum r with
  | Z0 => 0%Q
  | Zpos n => nearest_pos (Zpos n) (Zpos (Qden r))
  | Zneg n => Qopp (nearest_pos (Zpos n) (Zpos (Qden r)))
  end.

(** [a / b] on two [int]s, [b] not 0: the quotient, correctly rounded
    (Python raises OverflowError for a quotient of [2^1024] or more). *)
Definition truediv (a b : Z) : Q := nearest (inject_Z a / inject_Z b)%Q.

(** [x * y] on two floats. *)
Definition mul (x y : Q) : Q := nearest (x * y)%Q.

End float.

Module datetime.

(** [timedelta(days=days, hours=hours)], in seconds.  A [timedelta] holds
    fewer than 10^9 days either way; the constructor raises OverflowError
    otherwise. *)
Definition timedelta (days hours : Z) : option Z :=
  let seconds := (days * 86400 + hours * 3600)%Z in
  if ((-999999999 <=? seconds / 86400) && (seconds / 86400 <=? 999999999))%Z
  then Some seconds else None.

(** The seconds from [datetime.min], 0001-01-01 00:00:00, to the end of
    [datetime.max], the last microsecond of the year 9999. *)
Definition span : Z := (3652059 * 86400)%Z.

(** [t - delta] on a [datetime] and a [timedelta]; OverflowError when the
    result leaves the years 1 to 9999. *)
Definition sub (t : Q) (delta : Z) : option Q :=
  let r := (t - inject_Z delta)%Q in
  if Qle_bool 0 r && negb (Qle_bool (inject_Z span) r) then Some r else None.

(** [datetime.now() - timedelta(days=days, hours=hours)]. *)
Definition ago (now : Q) (days hours : Z) : option Q :=
  match timedelta days hours with
  | Some delta => sub now delta
  | None => None
  end.

End datetime.

(* --------------------------------------------------------------------- *)
(** ** [app/tasks/processing.py]: the retry classifier                    *)
(* --------------------------------------------------------------------- *)

Module classifier.

Definition non_retryable_errors : list string :=
  [ "無效的圖片檔案";
    "檔案格式不支援";
    "檔案損壞";
    "parameter_validation_error";
    "invalid_file_format";
    "file_too_large" ].

Definition retryable_errors : list string :=
  [ "gpu";
    "memory";
    "timeout";
    "connection";
    "temporary";
    "資源不足";
    "服務器忙碌";
    "processing failed" ].

(** [for k in keys: if k in s: return True] ... [False] after the loop. *)
Fixpoint any_in (keys : list string) (s : string) : bool :=
  match keys with
  | [] => false
  | k :: more => if py_in k s then true else any_in more s
  end.

(** [should_retry_error(error)], on [str(error)]. *)
Definition should_retry_error (error : PyExc) : bool :=
  let error_str := lower (exc_str error) in
  if any_in non_retryable_errors error_str then false
  else if any_in retryable_errors error_str then true
  else true.

(** The classifier as the design document words it (section 4.2.4), kept
    apart from the code's for the comparison: fatal when the message
    contains one of the six listed phrases, otherwise retryable. *)
Definition spec_fatal_phrases : list string :=
  [ "invalid image file";
    "unsupported file format";
    "corrupt file";
    "parameter validation error";
    "invalid file format";
    "file too large" ].

Definition spec_retryable_phrases : list string :=
  [ "gpu"; "memory"; "timeout"; "connection"; "temporary";
    "resource exhausted"; "busy"; "processing failed" ].

Definition spec_classify_retryable (m : string) : bool :=
  if any_in spec_fatal_phrases m then false
  else if any_in spec_retryable_phrases m then true
  else true.

End classifier.

(* --------------------------------------------------------------------- *)
(** ** [app/services/gpu_resource_manager.py]                             *)
(* --------------------------------------------------------------------- *)

Module gpu.

(** [@dataclass GPUStatus]: one reading of the accelerator probe. *)
Record GPUStatus := mkGPUStatus {
  available : bool;
  memory_total : Z;
  memory_used : Z;
  memory_free : Z;
  memory_percent : Q;
  temperature : option Q;
  utilization : option Q
}.

(** The fields of [GPUResourceManager] that its methods read or write.
    [_lock] is not a field here: a block [async with self._lock] is one
    atomic transition of the model. *)
Record GPUResourceManager := mkManager {
  max_concurrent_tasks : Z;
  memory_threshold : Q;
  active_tasks : Z;
  _gpu_available : option bool;
  _last_gpu_check : option Q
}.

(** [GPUResourceManager.__init__]. *)
Definition __init__ (max_concurrent_tasks : Z) (memory_threshold : Q)
  : GPUResourceManager :=
  mkManager max_concurrent_tasks memory_threshold 0 None None.

(** The module-level instance [gpu_manager = GPUResourceManager()]. *)
Definition gpu_manager : GPUResourceManager := __init__ 3 (8 # 10).

Definition set_active (n : Z) (self : GPUResourceManager) : GPUResourceManager :=
  mkManager (max_concurrent_tasks self) (memory_threshold self) n
            (_gpu_available self) (_last_gpu_check self).

(** [is_gpu_available]: the availability bit, re-read when the cached one
    is older than 30 seconds.  [probe] is what [get_gpu_status] returns. *)
Definition is_gpu_available (now : Q) (probe : GPUStatus)
           (self : GPUResourceManager) : bool * GPUResourceManager :=
  let stale := match _last_gpu_check self with
               | None => true
               | Some t => negb (Qle_bool (now - t) 30)
               end in
  if stale
  then (available probe,
        mkManager (max_concurrent_tasks self) (memory_threshold self)
                  (active_tasks self) (Some (available probe)) (Some now))
  else (match _gpu_available self with Some b => b | None => false end, self).

(** The dictionary returned by [check_gpu_memory]: either the two-key
    [{"available": False, "error": ...}] or the full reading. *)
Inductive GpuMemory :=
| GpuMissing
| GpuReading (status : GPUStatus) (memory_available : bool).

(** [check_gpu_memory].  [memory_usage_percent] is the exact quotient;
    Python rounds it to a float, which can move a share just below the
    threshold onto it and never across it. *)
Definition check_gpu_memory (self : GPUResourceManager) (probe : GPUStatus)
  : GpuMemory :=
  if negb (available probe) then GpuMissing
  else
    let memory_usage_percent := (memory_percent probe / 100)%Q in
    GpuReading probe
      (negb (Qle_bool (memory_threshold self) memory_usage_percent)).

(** [d.get("available", False)], [d.get("memory_percent", 0)],
    [d.get("temperature")] on that dictionary. *)
Definition get_available (d : GpuMemory) : bool :=
  match d with GpuMissing => false | GpuReading _ _ => true end.
Definition get_memory_percent (d : GpuMemory) : Q :=
  match d with GpuMissing => 0 | GpuReading s _ => memory_percent s end.
Definition get_temperature (d : GpuMemory) : option Q :=
  match d with GpuMissing => None | GpuReading s _ => temperature s end.

(** The dictionary returned by [can_process_task]. *)
Inductive Admission :=
| CanProcess (active : Z) (gpu_status : GpuMemory)
| CannotProcess (reason : string).

Definition can_process (a : Admission) : bool :=
  match a with CanProcess _ _ => true | CannotProcess _ => false end.

(** [can_process_task]: one critical section, read-only. *)
Definition can_process_task (self : GPUResourceManager) (probe : GPUStatus)
  : Admission :=
  if (active_tasks self >=? max_concurrent_tasks self)%Z
  then CannotProcess "達到最大併發任務限制"
  else
    match check_gpu_memory self probe with
    | GpuMissing => CannotProcess "GPU 不可用"
    | GpuReading st false => CannotProcess "GPU 記憶體不足"
    | GpuReading st true =>
        CanProcess (active_tasks self) (GpuReading st true)
    end.

(** The second critical section of [acquire_gpu_slot]:
    [self.active_tasks += 1]. *)
Definition slot_take (self : GPUResourceManager) : GPUResourceManager :=
  set_active (active_tasks self + 1)%Z self.

(** The critical section of its [finally]: [self.active_tasks -= 1]. *)
Definition slot_give_back (self : GPUResourceManager) : GPUResourceManager :=
  set_active (active_tasks self - 1)%Z self.

(** *** Concurrent callers of [acquire_gpu_slot]

    A caller runs the three critical sections of [acquire_gpu_slot] in
    order: the admission check of [can_process_task], the increment, and
    the decrement of the [finally].  [step] runs the next critical section
    of one caller, and [run] a sequence of such steps with any caller free
    to run between any two critical sections. *)
Inductive Phase :=
| Waiting      (* has not yet called [can_process_task] *)
| Checked      (* passed the check, lock released, not yet incremented *)
| Holding      (* incremented, running the guarded body *)
| Left         (* rejected, or released *).

#[global] Instance Phase_eq_dec : EqDecision Phase.
Proof. solve_decision. Defined.

Record Pool := mkPool {
  manager : GPUResourceManager;
  callers : list Phase
}.

(** One scheduling decision: caller [who] runs its next critical section;
    [probe] is the accelerator reading it gets if that section is the
    admission check. *)
Record Turn := mkTurn { who : nat; probe_seen : GPUStatus }.

Definition step (t : Turn) (p : Pool) : Pool :=
  match callers p !! who t with
  | None => p
  | Some Waiting =>
      if can_process (can_process_task (manager p) (probe_seen t))
      then mkPool (manager p) (<[who t := Checked]> (callers p))
      else mkPool (manager p) (<[who t := Left]> (callers p))
  | Some Checked =>
      mkPool (slot_take (manager p)) (<[who t := Holding]> (callers p))
  | Some Holding =>
      mkPool (slot_give_back (manager p)) (<[who t := Left]> (callers p))
  | Some Left => p
  end.

Definition run (schedule : list Turn) (p : Pool) : Pool :=
  foldl (fun p t => step t p) p schedule.

(** [n] callers arriving at a fresh manager of capacity [c]. *)
Definition start (c : Z) (threshold : Q) (n : nat) : Pool :=
  mkPool (__init__ c threshold) (replicate n Waiting).

Definition count_phase (ph : Phase) (l : list Phase) : nat :=
  length (filter (fun x => x = ph) l).

(** *** The callers on the event loop

    The callers are the background tasks of the API process
    (the route [process_image] hands [process_image_task] to FastAPI's
    [BackgroundTasks]): coroutines of its one asyncio event loop, which
    runs another coroutine only where the running one suspends.  An [await] of
    a coroutine that does not suspend runs it to its end, and
    [async with self._lock] suspends only when the lock is held.
    [get_gpu_status] has no [await], so [check_gpu_memory] and the body of
    [can_process_task] never suspend; the increment and the decrement
    sections have no [await] either.  The lock is therefore free whenever
    the loop switches, no [async with self._lock] ever waits, and
    [cleanup_gpu_memory] has no [await]: a caller that enters
    [acquire_gpu_slot] runs through the check and, when admitted, through
    the increment up to the [yield] without a switch.  It suspends in the
    guarded body, and runs the decrement when it is resumed for the last
    time.

    [resume] is one turn of the loop: the caller runs its next critical
    section and, when that was a passed check, the increment as well. *)
Definition resume (t : Turn) (p : Pool) : Pool :=
  let p := step t p in
  match callers p !! who t with
  | Some Checked => step t p
  | _ => p
  end.

Definition run_loop (schedule : list Turn) (p : Pool) : Pool :=
  foldl (fun p t => resume t p) p schedule.

(** [resume] in closed form, for a pool in which no caller is between the
    check and the increment. *)
Definition step_atomic (t : Turn) (p : Pool) : Pool :=
  match callers p !! who t with
  | Some Waiting =>
      if can_process (can_process_task (manager p) (probe_seen t))
      then mkPool (slot_take (manager p)) (<[who t := Holding]> (callers p))
      else mkPool (manager p) (<[who t := Left]> (callers p))
  | Some Holding =>
      mkPool (slot_give_back (manager p)) (<[who t := Left]> (callers p))
  | _ => p
  end.

End gpu.

(* --------------------------------------------------------------------- *)
(** ** [app/services/monitoring.py]                                       *)
(* --------------------------------------------------------------------- *)

Module monitoring.

(** [@dataclass MetricsData]; times are seconds. *)
Record MetricsData := mkMetric {
  timestamp : Q;
  metric_name : string;
  value : Q;
  tags : list (string * string)
}.

(** [@dataclass ErrorEvent]. *)
Record ErrorEvent := mkErrorEvent {
  e_timestamp : Q;
  error_type : string;
  error_message : string;
  task_id : option string;
  stack_trace : string;
  context : list (string * string)
}.

(** The dictionary [self.task_stats], whose five keys are fixed. *)
Record TaskStats := mkStats {
  total_tasks : Z;
  completed_tasks : Z;
  failed_tasks : Z;
  retried_tasks : Z;
  average_processing_time : Q
}.

Record MonitoringService := mkService {
  max_metrics_history : nat;
  max_error_history : nat;
  metrics_history : list MetricsData;          (* deque(maxlen=...) *)
  error_history : list ErrorEvent;             (* deque(maxlen=...) *)
  counters : gmap string Q;                    (* defaultdict(int) *)
  gauges : gmap string Q;                      (* defaultdict(float) *)
  performance_timers : gmap string Q;
  error_counts : gmap string Z;                (* defaultdict(int) *)
  error_rates : gmap string (list Q);          (* defaultdict(deque(100)) *)
  task_stats : TaskStats;
  processing_times : list Q                    (* deque(maxlen=100) *)
}.

(** [MonitoringService.__init__]. *)
Definition __init__ (max_metrics_history max_error_history : nat)
  : MonitoringService :=
  mkService max_metrics_history max_error_history [] [] ∅ ∅ ∅ ∅ ∅
            (mkStats 0 0 0 0 0) [].

(** The module-level instance [monitoring_service = MonitoringService()]. *)
Definition monitoring_service : MonitoringService := __init__ 1000 500.

(** Field assignments. *)
Definition set_metrics_history v (s : MonitoringService) :=
  mkService (max_metrics_history s) (max_error_history s) v (error_history s)
    (counters s) (gauges s) (performance_timers s) (error_counts s)
    (error_rates s) (task_stats s) (processing_times s).
Definition set_error_history v (s : MonitoringService) :=
  mkService (max_metrics_history s) (max_error_history s) (metrics_history s) v
    (counters s) (gauges s) (performance_timers s) (error_counts s)
    (error_rates s) (task_stats s) (processing_times s).
Definition set_counters v (s : MonitoringService) :=
  mkService (max_metrics_history s) (max_error_history s) (metrics_history s)
    (error_history s) v (gauges s) (performance_timers s) (error_counts s)
    (error_rates s) (task_stats s) (processing_times s).
Definition set_gauges v (s : MonitoringService) :=
  mkService (max_metrics_history s) (max_error_history s) (metrics_history s)
    (error_history s) (counters s) v (performance_timers s) (error_counts s)
    (error_rates s) (task_stats s) (processing_times s).
Definition set_performance_timers v (s : MonitoringService) :=
  mkService (max_metrics_history s) (max_error_history s) (metrics_history s)
    (error_history s) (counters s) (gauges s) v (error_counts s)
    (error_rates s) (task_stats s) (processing_times s).
Definition set_error_counts v (s : MonitoringService) :=
  mkService (max_metrics_history s) (max_error_history s) (metrics_history s)
    (error_history s) (counters s) (gauges s) (performance_timers s) v
    (error_rates s) (task_stats s) (processing_times s).
Definition set_error_rates v (s : MonitoringService) :=
  mkService (max_metrics_history s) (max_error_history s) (metrics_history s)
    (error_history s) (counters s) (gauges s) (performance_timers s)
    (error_counts s) v (task_stats s) (processing_times s).
Definition set_task_stats v (s : MonitoringService) :=
  mkService (max_metrics_history s) (max_error_history s) (metrics_history s)
    (error_history s) (counters s) (gauges s) (performance_timers s)
    (error_counts s) (error_rates s) v (processing_times s).
Definition set_processing_times v (s : MonitoringService) :=
  mkService (max_metrics_history s) (max_error_history s) (metrics_history s)
    (error_history s) (counters s) (gauges s) (performance_timers s)
    (error_counts s) (error_rates s) (task_stats s) v.

(** [record_metric]. *)
Definition record_metric (now : Q) (metric_name : string) (value : Q)
           (tags : list (string * string)) (self : MonitoringService)
  : MonitoringService :=
  let metric := mkMetric now metric_name value tags in
  let self := set_metrics_history
                (deque_append (max_metrics_history self) metric
                              (metrics_history self)) self in
  if py_endswith "_count" metric_name
  then set_counters
         (<[metric_name := (default 0%Q (counters self !! metric_name) + value)%Q]>
            (counters self)) self
  else set_gauges (<[metric_name := value]> (gauges self)) self.

(** [record_error]; [stack] is the text of [traceback.format_exc()].  The
    counter of failed tasks moves under [if task_id:]. *)
Definition record_error (now : Q) (error : PyExc) (task_id : option string)
           (context : list (string * string)) (stack : string)
           (self : MonitoringService) : MonitoringService :=
  let error_event :=
    mkErrorEvent now (exc_type error) (exc_str error) task_id stack context in
  let self := set_error_history
                (deque_append (max_error_history self) error_event
                              (error_history self)) self in
  let ty := error_type error_event in
  let self := set_error_counts
                (<[ty := (default 0 (error_counts self !! ty) + 1)%Z]>
                   (error_counts self)) self in
  let self := set_error_rates
                (<[ty := deque_append 100 now
                           (default [] (error_rates self !! ty))]>
                   (error_rates self)) self in
  if opt_str_truthy task_id
  then
    let st := task_stats self in
    set_task_stats
      (mkStats (total_tasks st) (completed_tasks st) (failed_tasks st + 1)
               (retried_tasks st) (average_processing_time st)) self
  else self.

(** [start_timer]; [t] is [time.time()]. *)
Definition start_timer (t : Q) (timer_name : string) (self : MonitoringService)
  : MonitoringService :=
  set_performance_timers (<[timer_name := t]> (performance_timers self)) self.

(** [stop_timer]: the elapsed time and the new state. *)
Definition stop_timer (t now : Q) (timer_name : string)
           (self : MonitoringService) : Q * MonitoringService :=
  match performance_timers self !! timer_name with
  | None => (0%Q, self)
  | Some t0 =>
      let elapsed := (t - t0)%Q in
      let self := set_performance_timers
                    (delete timer_name (performance_timers self)) self in
      (elapsed, record_metric now (timer_name +:+ "_duration") elapsed [] self)
  end.

Definition sum_Q (l : list Q) : Q := foldl Qplus 0%Q l.

(** [record_task_completed]. *)
Definition record_task_completed (now : Q) (task_id : string)
           (processing_time : Q) (self : MonitoringService)
  : MonitoringService :=
  let st := task_stats self in
  let self := set_task_stats
                (mkStats (total_tasks st) (completed_tasks st + 1)
                         (failed_tasks st) (retried_tasks st)
                         (average_processing_time st)) self in
  let self := set_processing_times
                (deque_append 100 processing_time (processing_times self))
                self in
  let self :=
    match processing_times self with
    | [] => self
    | _ :: _ =>
        let st := task_stats self in
        set_task_stats
          (mkStats (total_tasks st) (completed_tasks st) (failed_tasks st)
                   (retried_tasks st)
                   (sum_Q (processing_times self)
                    / inject_Z (Z.of_nat (length (processing_times self))))%Q)
          self
    end in
  let self := record_metric now "task_processing_time" processing_time
                            [("task_id", task_id)] self in
  record_metric now "task_completed_count" 1 [] self.

(** [str(n)] for an [int]. *)
Definition str_of_int (n : Z) : string :=
  DecimalString.NilEmpty.string_of_int (Z.to_int n).

(** [record_task_retry]. *)
Definition record_task_retry (now : Q) (task_id : string) (retry_count : Z)
           (self : MonitoringService) : MonitoringService :=
  let st := task_stats self in
  let self := set_task_stats
                (mkStats (total_tasks st) (completed_tasks st)
                         (failed_tasks st) (retried_tasks st + 1)
                         (average_processing_time st)) self in
  record_metric now "task_retry_count" 1
    [("task_id", task_id); ("retry_count", str_of_int retry_count)] self.

(** [_calculate_system_health].  [failure_rate] is a float, the rounded
    quotient of the two counters, and [0.5] and [0.2] are the floats that
    these literals denote.  The counters are taken small enough for the
    division not to overflow. *)
Definition _calculate_system_health (self : MonitoringService) : string :=
  let total_tasks := total_tasks (task_stats self) in
  let failed_tasks := failed_tasks (task_stats self) in
  if (total_tasks =? 0)%Z then "unknown"
  else
    let failure_rate := float.truediv failed_tasks total_tasks in
    if negb (Qle_bool failure_rate (float.nearest (5 # 10))) then "critical"
    else if negb (Qle_bool failure_rate (float.nearest (2 # 10))) then "warning"
    else "healthy".

(** The dictionary returned by [get_metrics_summary]. *)
Record Summary := mkSummary {
  s_timestamp : Q;
  s_task_stats : TaskStats;
  s_error_counts : gmap string Z;
  s_error_rates_5min : gmap string nat;
  s_recent_metrics : gmap string Q;
  s_active_timers : gset string;
  system_health : string
}.

(** The loop over the last 50 samples: a sample replaces the entry of its
    name when there is none or when it is strictly newer. *)
Definition newest (acc : gmap string (Q * Q)) (m : MetricsData)
  : gmap string (Q * Q) :=
  match acc !! metric_name m with
  | None => <[metric_name m := (value m, timestamp m)]> acc
  | Some (_, ts) =>
      if negb (Qle_bool (timestamp m) ts)
      then <[metric_name m := (value m, timestamp m)]> acc
      else acc
  end.

(** [get_metrics_summary]; it reads the state and changes nothing.  The
    order of [active_timers] is not kept. *)
Definition get_metrics_summary (now : Q) (self : MonitoringService) : Summary :=
  let error_rates_5min :=
    (fun timestamps : list Q =>
       length (List.filter (fun ts => negb (Qle_bool 300 (now - ts)))
                           timestamps))
      <$> error_rates self in
  let history := metrics_history self in
  let recent_metrics :=
    foldl newest ∅ (drop (length history - 50) history) in
  mkSummary now (task_stats self) (error_counts self) error_rates_5min
            (fst <$> recent_metrics) (dom (performance_timers self))
            (_calculate_system_health self).

(** [clear_old_data]: the recorder after the call.  The first line,
    [cutoff_time = datetime.now() - timedelta(days=days)], raises
    OverflowError when the cutoff is out of range; nothing has been
    assigned by then, and the recorder is as it was. *)
Definition clear_old_data (now : Q) (days : Z) (self : MonitoringService)
  : MonitoringService :=
  match datetime.ago now days 0 with
  | None => self
  | Some cutoff_time =>
      let self := set_metrics_history
                    (deque_of (max_metrics_history self)
                       (List.filter (fun m => Qle_bool cutoff_time (timestamp m))
                                    (metrics_history self))) self in
      let self := set_error_history
                    (deque_of (max_error_history self)
                       (List.filter (fun e => Qle_bool cutoff_time (e_timestamp e))
                                    (error_history self))) self in
      set_error_rates
        ((fun timestamps : list Q =>
            deque_of 100
              (List.filter (fun ts => negb (Qle_bool 3600 (now - ts))) timestamps))
           <$> error_rates self) self
  end.

(** One value of [report["error_types"]]. *)
Record TypeReport := mkTypeReport {
  count : nat;
  percentage : Q;
  latest_error : option string
}.

(** One entry of [report["recent_errors"]]; the time is kept as a number
    where the source prints it with [isoformat]. *)
Record RecentError := mkRecent {
  re_timestamp : Q;
  re_type : string;
  re_message : string;
  re_task_id : option string
}.

(** The dictionary returned by [get_error_report]. *)
Record ErrorReport := mkReport {
  time_range : string;
  total_errors : nat;
  error_types : gmap string TypeReport;
  recent_errors : list RecentError
}.

(** [errors_by_type[error.error_type].append(error)]. *)
Definition group_by_type (acc : gmap string (list ErrorEvent))
           (error : ErrorEvent) : gmap string (list ErrorEvent) :=
  <[error_type error := default [] (acc !! error_type error) ++ [error]]> acc.

(** [sorted(errors, key=lambda x: x.timestamp, reverse=True)].  Python's
    sort is stable, also in reverse: an entry goes behind every entry
    placed before it that is not older. *)
Fixpoint insert_newest_first (x : ErrorEvent) (l : list ErrorEvent)
  : list ErrorEvent :=
  match l with
  | [] => [x]
  | y :: rest =>
      if negb (Qle_bool (e_timestamp x) (e_timestamp y))
      then x :: y :: rest
      else y :: insert_newest_first x rest
  end.

Definition sorted_newest_first (l : list ErrorEvent) : list ErrorEvent :=
  foldl (fun acc x => insert_newest_first x acc) [] l.

Definition recent_view (error : ErrorEvent) : RecentError :=
  mkRecent (e_timestamp error) (error_type error) (error_message error)
           (task_id error).

(** [get_error_report]; it reads the state and changes nothing.  [None]
    stands for the OverflowError of its first line, raised when the cutoff
    [datetime.now() - timedelta(hours=hours)] is out of range.  The order
    of the keys of [error_types] is not kept. *)
Definition get_error_report (now : Q) (hours : Z) (self : MonitoringService)
  : option ErrorReport :=
  match datetime.ago now 0 hours with
  | None => None
  | Some cutoff_time =>
      let recent_errors :=
        List.filter (fun error => Qle_bool cutoff_time (e_timestamp error))
                    (error_history self) in
      let errors_by_type := foldl group_by_type ∅ recent_errors in
      Some
        (mkReport
           ("過去 " +:+ str_of_int hours +:+ " 小時")
           (length recent_errors)
           ((fun errors =>
               mkTypeReport
                 (length errors)
                 (match recent_errors with
                  | [] => 0%Q
                  | _ :: _ =>
                      float.mul
                        (float.truediv (Z.of_nat (length errors))
                                       (Z.of_nat (length recent_errors)))
                        100
                  end)
                 (error_message <$> last errors))
              <$> errors_by_type)
           (recent_view <$> take 10 (sorted_newest_first recent_errors)))
  end.

(** A call of one of the state-changing methods, with its arguments and
    the clock readings it makes. *)
Inductive Call :=
| RecordMetric (now : Q) (name : string) (value : Q) (tags : list (string * string))
| RecordError (now : Q) (error : PyExc) (task_id : option string)
              (context : list (string * string)) (stack : string)
| StartTimer (t : Q) (name : string)
| StopTimer (t now : Q) (name : string)
| RecordTaskCompleted (now : Q) (task_id : string) (processing_time : Q)
| RecordTaskRetry (now : Q) (task_id : string) (retry_count : Z)
| ClearOldData (now : Q) (days : Z).

Definition call (c : Call) (self : MonitoringService) : MonitoringService :=
  match c with
  | RecordMetric now n v tg => record_metric now n v tg self
  | RecordError now e tid ctx stack => record_error now e tid ctx stack self
  | StartTimer t n => start_timer t n self
  | StopTimer t now n => snd (stop_timer t now n self)
  | RecordTaskCompleted now tid pt => record_task_completed now tid pt self
  | RecordTaskRetry now tid rc => record_task_retry now tid rc self
  | ClearOldData now days => clear_old_data now days self
  end.

Definition calls (cs : list Call) (self : MonitoringService) : MonitoringService :=
  foldl (fun s c => call c s) self cs.

(** The health tag as the design document words it (section 4.3):
    below 0.2 healthy, below 0.5 warning, otherwise critical, and unknown
    without tasks. *)
Definition spec_health_tag (total failed : Z) : string :=
  if (total =? 0)%Z then "unknown"
  else
    let ratio := (inject_Z failed / inject_Z total)%Q in
    if negb (Qle_bool (2 # 10) ratio) then "healthy"
    else if negb (Qle_bool (5 # 10) ratio) then "warning"
    else "critical".

End monitoring.

(* --------------------------------------------------------------------- *)
(** ** [app/services/health_monitor.py]                                   *)
(* --------------------------------------------------------------------- *)

Module health.

(** [@dataclass HealthStatus]. *)
Record HealthStatus := mkHealth {
  timestamp : Q;
  overall_status : string;
  issues : list string;
  recommendations : list string;
  cpu_usage : Q;
  memory_usage : Q;
  gpu_available : bool;
  gpu_memory_usage : Q;
  gpu_temperature : option Q;
  active_tasks : Z;
  failed_tasks_count : Z;
  stuck_tasks_count : Z
}.

(** [HealthStatus(cpu_usage=..., ...)]: the other fields take their
    defaults. *)
Definition new_status (now cpu memory : Q) (gpu_ok : bool) (gpu_mem : Q)
           (gpu_temp : option Q) : HealthStatus :=
  mkHealth now "healthy" [] [] cpu memory gpu_ok gpu_mem gpu_temp 0 0 0.

(** [health_status.issues.append(i)] followed by
    [health_status.recommendations.append(r)]. *)
Definition report (i r : string) (h : HealthStatus) : HealthStatus :=
  mkHealth (timestamp h) (overall_status h) (issues h ++ [i])
           (recommendations h ++ [r]) (cpu_usage h) (memory_usage h)
           (gpu_available h) (gpu_memory_usage h) (gpu_temperature h)
           (active_tasks h) (failed_tasks_count h) (stuck_tasks_count h).

Definition set_overall_status (v : string) (h : HealthStatus) : HealthStatus :=
  mkHealth (timestamp h) v (issues h) (recommendations h) (cpu_usage h)
           (memory_usage h) (gpu_available h) (gpu_memory_usage h)
           (gpu_temperature h) (active_tasks h) (failed_tasks_count h)
           (stuck_tasks_count h).

(** What one cycle reads from [psutil] and from the accelerator. *)
Record Readings := mkReadings {
  now : Q;
  cpu_percent : Q;
  memory_percent : Q;
  disk_used : Z;
  disk_total : Z;
  gpu_status : gpu.GpuMemory
}.

Section Formatting.

(** [format(x, ".1f")], the text Python prints for a number with one
    decimal.  Nothing is assumed of it. *)
Variable fmt_1f : Q -> string.

(** [_check_resource_issues]; the quotient [used / total] raises
    [ZeroDivisionError] on an empty disk. *)
Definition _check_resource_issues (health_status : HealthStatus)
           (cpu_percent memory_percent : Q) (disk_used disk_total : Z)
  : Result HealthStatus :=
  let health_status :=
    if negb (Qle_bool cpu_percent 90)
    then report ("CPU 使用率過高: " +:+ fmt_1f cpu_percent +:+ "%")
                "考慮增加 CPU 資源或優化程式碼" health_status
    else health_status in
  let health_status :=
    if negb (Qle_bool memory_percent 85)
    then report ("記憶體使用率過高: " +:+ fmt_1f memory_percent +:+ "%")
                "考慮增加記憶體或優化記憶體使用" health_status
    else health_status in
  if (disk_total =? 0)%Z
  then Raise (mkExc "ZeroDivisionError" "division by zero")
  else
    let disk_percent :=
      (inject_Z disk_used / inject_Z disk_total * 100)%Q in
    Ok (if negb (Qle_bool disk_percent 90)
        then report ("磁碟空間不足: " +:+ fmt_1f disk_percent +:+ "%")
                    "清理磁碟空間或增加儲存容量" health_status
        else health_status).

(** [_check_gpu_issues]. *)
Definition _check_gpu_issues (health_status : HealthStatus)
           (gpu_status : gpu.GpuMemory) : HealthStatus :=
  if negb (gpu.get_available gpu_status)
  then report "GPU 不可用" "檢查 GPU 驅動程式和 CUDA 安裝" health_status
  else
    let gpu_memory_percent := gpu.get_memory_percent gpu_status in
    let health_status :=
      if negb (Qle_bool gpu_memory_percent 90)
      then report ("GPU 記憶體使用率過高: " +:+ fmt_1f gpu_memory_percent
                                             +:+ "%")
                  "清理 GPU 記憶體或減少併發任務" health_status
      else health_status in
    match gpu.get_temperature gpu_status with
    | Some gpu_temperature =>
        if negb (Qeq_bool gpu_temperature 0)
           && negb (Qle_bool gpu_temperature 85)
        then report ("GPU 溫度過高: " +:+ fmt_1f gpu_temperature +:+ "°C")
                    "檢查 GPU 散熱或減少工作負載" health_status
        else health_status
    | None => health_status
    end.

(** [_check_task_issues]: its body is [pass]. *)
Definition _check_task_issues (health_status : HealthStatus) : HealthStatus :=
  health_status.

Definition critical_keywords : list string := ["不可用"; "不足"; "過高"].
Definition warning_keywords : list string := ["警告"; "注意"].

(** [any(keyword in issue for keyword in keywords)]. *)
Definition mentions (keywords : list string) (issue : string) : bool :=
  existsb (fun keyword => py_in keyword issue) keywords.

(** [_determine_overall_status]. *)
Definition _determine_overall_status (health_status : HealthStatus)
  : HealthStatus :=
  let has_critical := existsb (mentions critical_keywords)
                              (issues health_status) in
  let has_warning := existsb (mentions warning_keywords)
                             (issues health_status) in
  if has_critical then set_overall_status "critical" health_status
  else if has_warning
          || match issues health_status with [] => false | _ => true end
       then set_overall_status "warning" health_status
       else set_overall_status "healthy" health_status.

(** The remediation hooks [_auto_recovery] calls. *)
Inductive Recovery := CleanupGpuMemory | CleanupStuckTasks.

Definition _auto_recovery (health_status : HealthStatus) : list Recovery :=
  (if existsb (py_in "GPU 記憶體") (issues health_status)
   then [CleanupGpuMemory] else [])
  ++ (if existsb (py_in "任務") (issues health_status)
      then [CleanupStuckTasks] else []).

(** [_perform_health_check]: the snapshot it has built when it reaches
    [_auto_recovery], with the hooks it then calls; [None] when an
    exception ended the cycle early (it is logged and swallowed). *)
Definition _perform_health_check (r : Readings)
  : option (HealthStatus * list Recovery) :=
  let health_status :=
    new_status (now r) (cpu_percent r) (memory_percent r)
               (gpu.get_available (gpu_status r))
               (gpu.get_memory_percent (gpu_status r))
               (gpu.get_temperature (gpu_status r)) in
  match _check_resource_issues health_status (cpu_percent r)
                               (memory_percent r) (disk_used r)
                               (disk_total r) with
  | Raise _ => None
  | Ok health_status =>
      let health_status := _check_gpu_issues health_status (gpu_status r) in
      let health_status := _check_task_issues health_status in
      let health_status := _determine_overall_status health_status in
      Some (health_status, _auto_recovery health_status)
  end.

(** [get_health_status]: it runs a cycle, whose snapshot it does not keep,
    reads the sensors again and answers with a new [HealthStatus] built
    from the second readings. *)
Definition get_health_status (first second : Readings) : HealthStatus :=
  let _ := _perform_health_check first in
  new_status (now second) (cpu_percent second) (memory_percent second)
             (gpu.get_available (gpu_status second))
             (gpu.get_memory_percent (gpu_status second))
             (gpu.get_temperature (gpu_status second)).

End Formatting.

End health.

(* --------------------------------------------------------------------- *)
(** ** The task table ([tasks_db] of [app/api/routes.py])                 *)
(* --------------------------------------------------------------------- *)

Module tasks.

(** [class TaskStatus(str, Enum)] of [app/models/schemas.py]; the task
    dictionaries hold the five strings. *)
Inductive TaskStatus := PENDING | PROCESSING | COMPLETED | FAILED | CANCELLED.

#[global] Instance TaskStatus_eq_dec : EqDecision TaskStatus.
Proof. solve_decision. Defined.

(** One entry of [task['retry_history']]. *)
Record RetryEntry := mkRetry {
  attempt : Z;
  error : string;
  r_timestamp : Q
}.

(** A task dictionary.  The keys written by the upload route are always
    there; the keys only the executor writes are optional. *)
Record Task := mkTask {
  task_id : string;
  status : TaskStatus;
  created_at : Q;
  updated_at : Q;
  progress : Z;
  message : string;
  parameters : gmap string string;
  file_path : string;
  webhook_url : option string;
  retry_count : option Z;
  max_retries : option Z;
  retry_history : option (list RetryEntry);
  result_path : option string;
  error_message : option string;
  metadata : option (Z * Q)              (* output_size, processing_time *)
}.

(** The dictionary the upload route stores under a new id. *)
Definition new_task (task_id : string) (now : Q)
           (parameters : gmap string string) (file_path : string)
           (webhook_url : option string) : Task :=
  mkTask task_id PENDING now now 0 "任務已建立，等待處理" parameters file_path
         webhook_url None None None None None None.

(** Item assignments [task[key] = v]. *)
Definition set_status v (t : Task) :=
  mkTask (task_id t) v (created_at t) (updated_at t) (progress t) (message t)
    (parameters t) (file_path t) (webhook_url t) (retry_count t)
    (max_retries t) (retry_history t) (result_path t) (error_message t)
    (metadata t).
Definition set_updated_at v (t : Task) :=
  mkTask (task_id t) (status t) (created_at t) v (progress t) (message t)
    (parameters t) (file_path t) (webhook_url t) (retry_count t)
    (max_retries t) (retry_history t) (result_path t) (error_message t)
    (metadata t).
Definition set_progress v (t : Task) :=
  mkTask (task_id t) (status t) (created_at t) (updated_at t) v (message t)
    (parameters t) (file_path t) (webhook_url t) (retry_count t)
    (max_retries t) (retry_history t) (result_path t) (error_message t)
    (metadata t).
Definition set_message v (t : Task) :=
  mkTask (task_id t) (status t) (created_at t) (updated_at t) (progress t) v
    (parameters t) (file_path t) (webhook_url t) (retry_count t)
    (max_retries t) (retry_history t) (result_path t) (error_message t)
    (metadata t).
Definition set_retry_count v (t : Task) :=
  mkTask (task_id t) (status t) (created_at t) (updated_at t) (progress t)
    (message t) (parameters t) (file_path t) (webhook_url t) (Some v)
    (max_retries t) (retry_history t) (result_path t) (error_message t)
    (metadata t).
Definition set_retry_history v (t : Task) :=
  mkTask (task_id t) (status t) (created_at t) (updated_at t) (progress t)
    (message t) (parameters t) (file_path t) (webhook_url t) (retry_count t)
    (max_retries t) (Some v) (result_path t) (error_message t) (metadata t).
Definition set_result_path v (t : Task) :=
  mkTask (task_id t) (status t) (created_at t) (updated_at t) (progress t)
    (message t) (parameters t) (file_path t) (webhook_url t) (retry_count t)
    (max_retries t) (retry_history t) (Some v) (error_message t) (metadata t).
Definition set_error_message v (t : Task) :=
  mkTask (task_id t) (status t) (created_at t) (updated_at t) (progress t)
    (message t) (parameters t) (file_path t) (webhook_url t) (retry_count t)
    (max_retries t) (retry_history t) (result_path t) (Some v) (metadata t).
Definition set_metadata v (t : Task) :=
  mkTask (task_id t) (status t) (created_at t) (updated_at t) (progress t)
    (message t) (parameters t) (file_path t) (webhook_url t) (retry_count t)
    (max_retries t) (retry_history t) (result_path t) (error_message t)
    (Some v).

(** [task.get('retry_count', 0)], [task.get('max_retries', 3)] and the
    list under ['retry_history'] (empty when the key is absent). *)
Definition get_retry_count (t : Task) : Z := default 0%Z (retry_count t).
Definition get_max_retries (t : Task) : Z := default 3%Z (max_retries t).
Definition get_retry_history (t : Task) : list RetryEntry :=
  default [] (retry_history t).

(** [task["status"] in ["completed", "failed", "cancelled"]]. *)
Definition ended (s : TaskStatus) : bool :=
  match s with
  | COMPLETED | FAILED | CANCELLED => true
  | PENDING | PROCESSING => false
  end.

End tasks.

(* --------------------------------------------------------------------- *)
(** ** The process: the module-level singletons, a clock and a journal    *)
(* --------------------------------------------------------------------- *)

(** What the program did, in order.  The lease and executor lines are the
    [logger] calls of the sources; [EvStatus] records an assignment to
    [task['status']], [EvSleep] a call of [asyncio.sleep], [EvCleanupFiles]
    a call of [cleanup_task_files], [EvWebhook] a call of
    [send_webhook_notification]. *)
Inductive Event :=
| EvLeaseRejected (task_id : string) (error_msg : string)
| EvLeaseTaken (task_id : string) (active : Z)
| EvLeaseGivenBack (task_id : string) (active : Z)
| EvStart (task_id : string)
| EvNotFound (task_id : string)
| EvStatus (task_id : string) (s : tasks.TaskStatus)
| EvTaskFailed (task_id : string) (e : PyExc)
| EvSleep (delay : Z)
| EvCleanupFiles (task_id : string)
| EvWebhook (task_id : string).

Record World := mkWorld {
  gpu_manager : gpu.GPUResourceManager;
  monitoring_service : monitoring.MonitoringService;
  tasks_db : gmap string tasks.Task;
  clock : Q;
  journal : list Event
}.

Definition set_gpu_manager v (w : World) :=
  mkWorld v (monitoring_service w) (tasks_db w) (clock w) (journal w).
Definition set_monitoring_service v (w : World) :=
  mkWorld (gpu_manager w) v (tasks_db w) (clock w) (journal w).
Definition set_tasks_db v (w : World) :=
  mkWorld (gpu_manager w) (monitoring_service w) v (clock w) (journal w).
Definition set_clock v (w : World) :=
  mkWorld (gpu_manager w) (monitoring_service w) (tasks_db w) v (journal w).
Definition emit (e : Event) (w : World) :=
  mkWorld (gpu_manager w) (monitoring_service w) (tasks_db w) (clock w)
          (journal w ++ [e]).

(** The process right after start-up, at time [t0]. *)
Definition boot (t0 : Q) : World :=
  mkWorld gpu.gpu_manager monitoring.monitoring_service ∅ t0 [].

(** A mutation of the dictionary stored under [task_id].  Every holder of
    the task (the executor's local [task], a route's [tasks_db.get]) has the
    same object, and no code removes or replaces an entry, so a mutation
    through any of them is a mutation of the entry. *)
Definition mutate_task (task_id : string) (f : tasks.Task -> tasks.Task)
           (w : World) : World :=
  set_tasks_db (alter f task_id (tasks_db w)) w.

(** [task['status'] = s], journalled. *)
Definition assign_status (task_id : string) (s : tasks.TaskStatus) (w : World)
  : World :=
  emit (EvStatus task_id s) (mutate_task task_id (tasks.set_status s) w).

(** A method call on the monitoring singleton. *)
Definition monitor (c : monitoring.Call) (w : World) : World :=
  set_monitoring_service (monitoring.call c (monitoring_service w)) w.

(* --------------------------------------------------------------------- *)
(** ** [app/api/routes.py]: the cancel endpoint                           *)
(* --------------------------------------------------------------------- *)

Module routes.

(** [HTTPException(status_code, detail=ErrorResponse(error=...))]. *)
Definition HTTPException (code : Z) (error : string) : PyExc :=
  mkExc "HTTPException" (monitoring.str_of_int code +:+ " " +:+ error).

(** [cancel_task], the handler of [DELETE /task/{task_id}]. *)
Definition cancel_task (task_id : string) (w : World) : Result string * World :=
  match tasks_db w !! task_id with
  | None => (Raise (HTTPException 404 "task_not_found"), w)
  | Some task =>
      if tasks.ended (tasks.status task)
      then (Raise (HTTPException 400 "task_not_cancellable"), w)
      else
        let w := assign_status task_id tasks.CANCELLED w in
        let w := mutate_task task_id (tasks.set_updated_at (clock w)) w in
        let w := mutate_task task_id (tasks.set_message "任務已取消") w in
        (Ok "任務已成功取消", w)
  end.

(** A request that another client sends while the executor is suspended.
    Cancelling is the only route that changes an existing task. *)
Inductive Request := DeleteTask (task_id : string).

Definition serve (r : Request) (w : World) : World :=
  match r with DeleteTask task_id => snd (cancel_task task_id w) end.

Definition serve_all (rs : list Request) (w : World) : World :=
  foldl (fun w r => serve r w) w rs.

End routes.

(* --------------------------------------------------------------------- *)
(** ** [GPUResourceManager.acquire_gpu_slot] on the singleton             *)
(* --------------------------------------------------------------------- *)

(** [async with gpu_manager.acquire_gpu_slot(task_id): body].  The context
    manager checks admission and raises before anything else when the check
    fails; otherwise it increments, runs the body inside [try], and
    decrements in [finally] whatever the body did.  [cleanup_gpu_memory],
    called before the body, swallows its own errors and has no state. *)
Definition acquire_gpu_slot {A} (task_id : string) (probe : gpu.GPUStatus)
           (body : World -> Result A * World) (w : World) : Result A * World :=
  match gpu.can_process_task (gpu_manager w) probe with
  | gpu.CannotProcess reason =>
      let error_msg := "無法取得 GPU 槽位: " +:+ reason in
      (Raise (RuntimeError error_msg), emit (EvLeaseRejected task_id error_msg) w)
  | gpu.CanProcess _ _ =>
      let w := set_gpu_manager (gpu.slot_take (gpu_manager w)) w in
      let w := emit (EvLeaseTaken task_id (gpu.active_tasks (gpu_manager w))) w in
      let '(r, w) := body w in
      let w := set_gpu_manager (gpu.slot_give_back (gpu_manager w)) w in
      let w := emit (EvLeaseGivenBack task_id (gpu.active_tasks (gpu_manager w))) w in
      (r, w)
  end.

(* --------------------------------------------------------------------- *)
(** ** [app/tasks/processing.py]: the executor                            *)
(* --------------------------------------------------------------------- *)

(** The errors of an invocation are the three the function raises or
    receives by its own text: the refused image, the refused lease and
    the renderer's [False].  [get_file_info], the recorder, the webhook
    POST and [cleanup_task_files] are taken to return normally (the last
    two catch their own errors). *)

Module processing.

Import tasks.

Definition should_retry_error := classifier.should_retry_error.

(** What the renderer does between its call and its return. *)
Inductive RenderStep :=
| Progress (percent : Z) (message : string)
    (* [await progress_callback(percent, message)] *)
| Suspended (seconds : Q) (requests : list routes.Request)
    (* the renderer waits for its subprocess; the event loop serves
       [requests] meanwhile *).

(** What one invocation of [process_image_task] meets outside itself. *)
Record Attempt := mkAttempt {
  image_valid : bool;                    (* [file_handler.validate_image] *)
  probe : gpu.GPUStatus;                 (* the reading at the admission check *)
  render_steps : list RenderStep;
  render_success : bool;                 (* what [process_image] returns *)
  output_size : option Z;                (* [get_file_info(output_path)] *)
  webhook_requests : list routes.Request;(* served during the webhook POST *)
  sleep_requests : list routes.Request;  (* served during the backoff sleep *)
  stack : string                         (* [traceback.format_exc()] *)
}.

(** [file_handler.get_output_path], with the configured output folder. *)
Definition get_output_path (task_id format : string) : string :=
  "./storage/outputs/" +:+ task_id +:+ "_output." +:+ format.

(** The closure [update_progress]. *)
Definition update_progress (task_id : string) (progress : Z) (message : string)
           (w : World) : World :=
  let w := mutate_task task_id (set_progress progress) w in
  let w := mutate_task task_id (set_message message) w in
  mutate_task task_id (set_updated_at (clock w)) w.

Definition render_step (task_id : string) (w : World) (s : RenderStep) : World :=
  match s with
  | Progress p m => update_progress task_id p m w
  | Suspended seconds requests =>
      routes.serve_all requests (set_clock (clock w + seconds)%Q w)
  end.

(** [depthflow_service.process_image(..., progress_callback=update_progress)];
    it catches every exception and answers with a boolean. *)
Definition process_image (task_id : string) (a : Attempt) (w : World)
  : Result bool * World :=
  (Ok (render_success a), foldl (render_step task_id) w (render_steps a)).

(** The body of [async with gpu_manager.acquire_gpu_slot(task_id)]. *)
Definition gpu_work (task_id : string) (a : Attempt) (w : World)
  : Result bool * World :=
  let w := mutate_task task_id (set_message "開始 GPU 處理...") w in
  let w := update_progress task_id 20 "開始 GPU 處理..." w in
  process_image task_id a w.

(** The [try] block of [process_image_task]. *)
Definition try_block (task_id file_path : string)
           (parameters : gmap string string) (task_start_time : Q)
           (a : Attempt) (w : World) : Result unit * World :=
  let w := assign_status task_id PROCESSING w in
  let w := mutate_task task_id (set_updated_at (clock w)) w in
  let w := mutate_task task_id (set_message "正在處理圖片...") w in
  if negb (image_valid a) then (Raise (Exception "無效的圖片檔案"), w)
  else
    let output_format := default "mp4" (parameters !! "output_format") in
    let output_path := get_output_path task_id output_format in
    let w := mutate_task task_id (set_message "等待 GPU 資源...") w in
    let w := update_progress task_id 10 "等待 GPU 資源..." w in
    let '(r, w) :=
      acquire_gpu_slot task_id (probe a) (gpu_work task_id a) w in
    match r with
    | Raise e => (Raise e, w)
    | Ok false => (Raise (Exception "DepthFlow 處理失敗"), w)
    | Ok true =>
        let w := assign_status task_id COMPLETED w in
        let w := mutate_task task_id (set_progress 100) w in
        let w := mutate_task task_id (set_message "處理完成") w in
        let w := mutate_task task_id (set_result_path output_path) w in
        let w := mutate_task task_id (set_updated_at (clock w)) w in
        let processing_time := (clock w - task_start_time)%Q in
        let w := match output_size a with
                 | Some size =>
                     mutate_task task_id (set_metadata (size, processing_time)) w
                 | None => w
                 end in
        let w := monitor (monitoring.RecordTaskCompleted (clock w) task_id
                                                         processing_time) w in
        let w := match tasks_db w !! task_id with
                 | Some task =>
                     if opt_str_truthy (webhook_url task)
                     then routes.serve_all (webhook_requests a)
                                           (emit (EvWebhook task_id) w)
                     else w
                 | None => w
                 end in
        (Ok tt, w)
    end.

(** [delay = min(60 * (2 ** (retry_count - 1)), 300)].  For
    [retry_count >= 1], which is what the executor passes whenever the
    stored count is not negative, the power is an integer. *)
Definition retry_delay (retry_count : Z) : Z :=
  Z.min (60 * 2 ^ (retry_count - 1)) 300.

(** The [except Exception as e] block, up to the point where it either
    calls [process_image_task] again ([true]) or is done ([false]). *)
Definition except_block (task_id file_path : string)
           (parameters : gmap string string) (a : Attempt) (e : PyExc)
           (w : World) : bool * World :=
  let w := emit (EvTaskFailed task_id e) w in
  let w := monitor (monitoring.RecordError (clock w) e (Some task_id)
                      [("operation", "image_processing");
                       ("file_path", file_path)] (stack a)) w in
  match tasks_db w !! task_id with
  | None => (false, w)
  | Some task =>
      let retry_count := get_retry_count task in
      let max_retries := get_max_retries task in
      if (retry_count <? max_retries)%Z && should_retry_error e
      then
        let retry_count := (retry_count + 1)%Z in
        let w := mutate_task task_id (set_retry_count retry_count) w in
        let w := assign_status task_id PENDING w in
        let w := mutate_task task_id
                   (set_message ("處理失敗，準備重試 ("
                                 +:+ monitoring.str_of_int retry_count +:+ "/"
                                 +:+ monitoring.str_of_int max_retries +:+ ")"))
                   w in
        let w := mutate_task task_id (set_updated_at (clock w)) w in
        let w := mutate_task task_id
                   (fun t => set_retry_history
                               (get_retry_history t
                                ++ [mkRetry retry_count (exc_str e) (clock w)])
                               t) w in
        let w := monitor (monitoring.RecordTaskRetry (clock w) task_id
                                                     retry_count) w in
        let delay := retry_delay retry_count in
        let w := emit (EvSleep delay) w in
        let w := routes.serve_all (sleep_requests a)
                   (set_clock (clock w + inject_Z delay)%Q w) in
        (true, w)
      else
        let w := assign_status task_id FAILED w in
        let w := mutate_task task_id (set_message "處理失敗") w in
        let w := mutate_task task_id (set_error_message (exc_str e)) w in
        let w := mutate_task task_id (set_updated_at (clock w)) w in
        let w := monitor (monitoring.RecordMetric (clock w) "task_failed_count"
                                                  1 [("task_id", task_id)]) w in
        (false, emit (EvCleanupFiles task_id) w)
  end.

(** The exit of the [performance_monitor("image_processing")] wrapper when
    the wrapped coroutine returns. *)
Definition monitor_exit (w : World) : World :=
  let w := monitor (monitoring.StopTimer (clock w) (clock w)
                                         "image_processing_operation") w in
  monitor (monitoring.RecordMetric (clock w) "image_processing_success_count"
                                   1 []) w.

(** [process_image_task], as decorated.  Each invocation takes the next
    [Attempt] of the script; the retry is the recursive call.  [None]
    means that the script ended before the executor did. *)
Fixpoint process_image_task (task_id file_path : string)
         (parameters : gmap string string) (script : list Attempt) (w : World)
  : option World :=
  match script with
  | [] => None
  | a :: script =>
      let w := monitor (monitoring.StartTimer (clock w)
                                              "image_processing_operation") w in
      let w := emit (EvStart task_id) w in
      match tasks_db w !! task_id with
      | None => Some (monitor_exit (emit (EvNotFound task_id) w))
      | Some _ =>
          let task_start_time := clock w in
          let w := monitor (monitoring.RecordMetric (clock w)
                              "task_started_count" 1 [("task_id", task_id)]) w in
          match try_block task_id file_path parameters task_start_time a w with
          | (Ok _, w) => Some (monitor_exit w)
          | (Raise e, w) =>
              match except_block task_id file_path parameters a e w with
              | (true, w) =>
                  match process_image_task task_id file_path parameters
                                           script w with
                  | Some w => Some (monitor_exit w)
                  | None => None
                  end
              | (false, w) => Some (monitor_exit w)
              end
          end
      end
  end.

(** [celery_process_image_task] of [setup_celery_tasks]: the wrapper runs
    the executor with a new empty dictionary in the place of the task
    table; the table of the process is not what it passes. *)
Definition celery_process_image_task (task_id file_path : string)
           (parameters : gmap string string) (script : list Attempt)
           (w : World) : option World :=
  set_tasks_db (tasks_db w)
    <$> process_image_task task_id file_path parameters script
                           (set_tasks_db ∅ w).

(** The upload route, after its checks: store the new task. *)
Definition submit (task_id : string) (parameters : gmap string string)
           (file_path : string) (webhook_url : option string) (w : World)
  : World :=
  set_tasks_db (<[task_id := new_task task_id (clock w) parameters file_path
                                     webhook_url]> (tasks_db w)) w.

(** The status of a task, as [GET /task/{task_id}] reports it. *)
Definition status_of (task_id : string) (w : World) : option TaskStatus :=
  status <$> tasks_db w !! task_id.

(** The journal entries about the status of [task_id], in order. *)
Definition status_writes (task_id : string) (j : list Event) : list TaskStatus :=
  omap (fun e => match e with
                 | EvStatus t s => if decide (t = task_id) then Some s else None
                 | _ => None
                 end) j.

(** The delays of the backoff sleeps, in order. *)
Definition sleeps (j : list Event) : list Z :=
  omap (fun e => match e with EvSleep d => Some d | _ => None end) j.

(** The number of invocations of the executor for [task_id]. *)
Definition invocations (task_id : string) (j : list Event) : nat :=
  length (omap (fun e => match e with
                         | EvStart t =>
                             if decide (t = task_id) then Some tt else None
                         | _ => None
                         end) j).

End processing.

(* --------------------------------------------------------------------- *)
(** ** [app/config.py] and [app/api/dependencies.py]                      *)
(* --------------------------------------------------------------------- *)

Module config.

(** The fields of [Settings] that the request checks read. *)
Record Settings := mkSettings {
  api_prefix : string;
  max_upload_size : Z;
  allowed_extensions : list string;
  api_key_enabled : bool;
  api_key : string
}.

(** The defaults of the class, which [.env] may override. *)
Definition settings : Settings :=
  mkSettings "/api/v1" 10485760 ["jpg"; "jpeg"; "png"] false
             "your-secret-api-key".

End config.

Module dependencies.

(** [HTTPException(status_code=401, detail={"error": error, ...})]. *)
Definition Unauthorized (error : string) : PyExc :=
  mkExc "HTTPException" ("401 " +:+ error).

(** [verify_api_key]; [x_api_key] is the header [X-API-Key]. *)
Definition verify_api_key (settings : config.Settings)
           (x_api_key : option string) : Result (option string) :=
  if negb (config.api_key_enabled settings) then Ok None
  else if negb (opt_str_truthy x_api_key)
       then Raise (Unauthorized "missing_api_key")
       else if negb (bool_decide (x_api_key = Some (config.api_key settings)))
            then Raise (Unauthorized "invalid_api_key")
            else Ok x_api_key.

(** [validate_file_extension]. *)
Definition validate_file_extension (settings : config.Settings)
           (filename : option string) : bool :=
  if negb (opt_str_truthy filename) then false
  else
    let extension :=
      py_lstrip ["."%char] (lower (snd (os_path.splitext (default "" filename)))) in
    py_in_list extension (config.allowed_extensions settings).

(** [validate_file_size]. *)
Definition validate_file_size (settings : config.Settings) (file_size : Z)
  : bool :=
  (file_size <=? config.max_upload_size settings)%Z.

End dependencies.



(* --------------------------------------------------------------------- *)
(** ** Vocabulary of the properties                                        *)
(* --------------------------------------------------------------------- *)

(** A recorder whose counters read [total] and [failed]. *)
Definition recorder_with (total failed : Z) : monitoring.MonitoringService :=
  monitoring.set_task_stats (monitoring.mkStats total 0 failed 0 0)
                            monitoring.monitoring_service.

(** Every issue of the snapshot names a critical keyword. *)
Definition all_critical (h : health.HealthStatus) : Prop :=
  Forall (fun issue => health.mentions health.critical_keywords issue = true)
         (health.issues h).

(** A cycle that meets a busy processor and a missing accelerator. *)
Definition busy_readings : health.Readings :=
  health.mkReadings 0 95 40 (50 * 1024) (100 * 1024) gpu.GpuMissing.

(** The number of increments and of decrements the journal records for a
    task. *)
Definition acquisitions (task_id : string) (j : list Event) : nat :=
  length (omap (fun e => match e with
                         | EvLeaseTaken t _ =>
                             if decide (t = task_id) then Some tt else None
                         | _ => None
                         end) j).

Definition releases (task_id : string) (j : list Event) : nat :=
  length (omap (fun e => match e with
                         | EvLeaseGivenBack t _ =>
                             if decide (t = task_id) then Some tt else None
                         | _ => None
                         end) j).

(** A reading of a present accelerator with memory to spare. *)
Definition idle_probe : gpu.GPUStatus :=
  gpu.mkGPUStatus true 1000 100 900 10 None None.

(** Two callers, each given two turns in alternation.  Under [gpu.run],
    with capacity 1, both run the admission check before either
    increments: each check sees [active_tasks = 0 < 1] and passes, and the
    two increments leave [active_tasks = 2]. *)
Definition both_check_first : list gpu.Turn :=
  [ gpu.mkTurn 0 idle_probe; gpu.mkTurn 1 idle_probe;
    gpu.mkTurn 0 idle_probe; gpu.mkTurn 1 idle_probe ].

(** Two callers arriving one after the other. *)
Definition two_arrivals : list gpu.Turn :=
  [ gpu.mkTurn 0 idle_probe; gpu.mkTurn 1 idle_probe ].

(** The error that an attempt without success raises in the [try] block
    of the executor: the RuntimeError of [acquire_gpu_slot] when admission
    is refused, with the reason of [can_process_task] in its text, and the
    executor's own exception when the renderer reports a failure. *)
Definition error_of (m : gpu.GPUResourceManager) (a : processing.Attempt)
  : PyExc :=
  match gpu.can_process_task m (processing.probe a) with
  | gpu.CannotProcess reason => RuntimeError ("無法取得 GPU 槽位: " +:+ reason)
  | gpu.CanProcess _ _ => Exception "DepthFlow 處理失敗"
  end.

(** A task dictionary with the keys that every writer assigns (status,
    time of update, progress, message) blanked: what is left is written by
    the retry and completion code of the executor only. *)
Definition core (t : tasks.Task) : tasks.Task :=
  tasks.set_status tasks.PENDING
    (tasks.set_updated_at 0%Q
       (tasks.set_progress 0%Z (tasks.set_message "" t))).

Definition task_core (task_id : string) (w : World) : option tasks.Task :=
  core <$> tasks_db w !! task_id.

(** Journal entries that say nothing on the outcome of a task: the lease
    lines, the webhook call, and the statuses "processing" and
    "cancelled". *)
Definition routine (e : Event) : bool :=
  match e with
  | EvLeaseRejected _ _ | EvLeaseTaken _ _ | EvLeaseGivenBack _ _
  | EvWebhook _ => true
  | EvStatus _ tasks.PROCESSING | EvStatus _ tasks.CANCELLED => true
  | _ => false
  end.

(** The journal without its routine entries. *)
Definition decisive (j : list Event) : list Event :=
  List.filter (fun e => negb (routine e)) j.

(** The counters of completed, failed and retried tasks. *)
Definition counts_of (s : monitoring.MonitoringService) : Z * Z * Z :=
  let st := monitoring.task_stats s in
  (monitoring.completed_tasks st, monitoring.failed_tasks st,
   monitoring.retried_tasks st).

Definition counts (w : World) : Z * Z * Z := counts_of (monitoring_service w).

(** An attempt that ends in a retryable error in a state whose manager is
    [m]: the image is valid, and the lease is refused or the renderer
    answers [False]. *)
Definition doomed (m : gpu.GPUResourceManager) (a : processing.Attempt) : bool :=
  processing.image_valid a
  && (negb (gpu.can_process (gpu.can_process_task m (processing.probe a)))
      || negb (processing.render_success a)).

(** An attempt that succeeds in a state whose manager is [m]. *)
Definition lucky (m : gpu.GPUResourceManager) (a : processing.Attempt) : bool :=
  processing.image_valid a
  && gpu.can_process (gpu.can_process_task m (processing.probe a))
  && processing.render_success a.

(** The decisive journal of an executor that meets the errors [errors] one
    after the other and retries after each of them. *)
Fixpoint retried_run (task_id : string) (retry_count : Z) (errors : list PyExc)
  : list Event :=
  match errors with
  | [] => []
  | e :: more =>
      [EvStart task_id; EvTaskFailed task_id e;
       EvStatus task_id tasks.PENDING;
       EvSleep (processing.retry_delay (retry_count + 1))]
      ++ retried_run task_id (retry_count + 1) more
  end.

(** The entries of the retry history that the errors [errors] leave, the
    first of them being attempt [retry_count + 1]. *)
Fixpoint history_of (retry_count : Z) (errors : list PyExc)
  : list (Z * string) :=
  match errors with
  | [] => []
  | e :: more =>
      ((retry_count + 1)%Z, exc_str e) :: history_of (retry_count + 1) more
  end.

Definition history_view (t : tasks.Task) : list (Z * string) :=
  map (fun r => (tasks.attempt r, tasks.error r)) (tasks.get_retry_history t).

(** The number of times the journal records the status "failed" for a
    task. *)
Definition failed_writes (task_id : string) (j : list Event) : nat :=
  length (List.filter (fun s => bool_decide (s = tasks.FAILED))
                      (processing.status_writes task_id j)).

(** The retry numbers [from], [from + 1], ... ([n] of them). *)
Fixpoint retry_numbers (from : Z) (n : nat) : list Z :=
  match n with
  | O => []
  | S k => from :: retry_numbers (from + 1) k
  end.

(** The number of tasks of the table whose status is "failed". *)
Definition failed_in_table (w : World) : nat :=
  length (List.filter
            (fun kt => bool_decide (tasks.status (snd kt) = tasks.FAILED))
            (map_to_list (tasks_db w))).

(** Sample attempts: the renderer answers [False]; the accelerator is
    missing; the renderer succeeds; the renderer succeeds while a client
    cancels the task "job-1" during the wait for the rendering subprocess. *)
Definition render_fails : processing.Attempt :=
  processing.mkAttempt true idle_probe
    [processing.Progress 20 "使用 CLI 模式處理"] false None [] [] "".

Definition no_accelerator : processing.Attempt :=
  processing.mkAttempt true (gpu.mkGPUStatus false 0 0 0 0 None None)
    [] false None [] [] "".

Definition render_succeeds : processing.Attempt :=
  processing.mkAttempt true idle_probe
    [processing.Progress 50 "執行 DepthFlow CLI";
     processing.Progress 90 "CLI 處理完成"] true (Some 4096%Z) [] [] "".

Definition cancelled_while_rendering : processing.Attempt :=
  processing.mkAttempt true idle_probe
    [processing.Progress 50 "執行 DepthFlow CLI";
     processing.Suspended 30 [routes.DeleteTask "job-1"];
     processing.Progress 90 "CLI 處理完成"] true (Some 4096%Z) [] [] "".

(** The renderer answers [False] and the task is cancelled during the
    backoff sleep that follows. *)
Definition cancelled_while_sleeping : processing.Attempt :=
  processing.mkAttempt true idle_probe [] false None []
    [routes.DeleteTask "job-1"] "".

(** The image does not validate. *)
Definition invalid_image : processing.Attempt :=
  processing.mkAttempt false idle_probe [] false None [] [] "".

(** The process with the single task "job-1" just uploaded. *)
Definition one_job : World :=
  processing.submit "job-1" ∅ "./storage/uploads/job-1_original.png" None
                    (boot 0).

Definition run_job (script : list processing.Attempt) (w : World)
  : option World :=
  processing.process_image_task "job-1" "./storage/uploads/job-1_original.png"
                                ∅ script w.

(** The process with the single task "job-5", which allows five retries. *)
Definition five_retries_job : World :=
  set_tasks_db
    (<["job-5" := tasks.mkTask "job-5" tasks.PENDING 0 0 0 "任務已建立，等待處理"
                   ∅ "./storage/uploads/job-5_original.png" None None
                   (Some 5%Z) None None None None]> ∅)
    (boot 0).


(** A write that only touches the blanked keys. *)
Definition benign (f : tasks.Task -> tasks.Task) : Prop :=
  forall t, core (f t) = core t.


(** What a request served in between may change: the blanked keys of tasks
    that have not ended, and routine journal entries. *)
Record undisturbed (w w' : World) : Prop := mkUndisturbed {
  und_gpu : gpu_manager w' = gpu_manager w;
  und_mon : monitoring_service w' = monitoring_service w;
  und_core : forall task_id, task_core task_id w' = task_core task_id w;
  und_journal : decisive (journal w') = decisive (journal w)
}.


(** The capacities are the ones given at construction and both histories
    are within them. *)
Definition ring_inv (max_metrics max_errors : nat)
           (self : monitoring.MonitoringService) : Prop :=
  monitoring.max_metrics_history self = max_metrics
  /\ monitoring.max_error_history self = max_errors
  /\ length (monitoring.metrics_history self) <= max_metrics
  /\ length (monitoring.error_history self) <= max_errors.



(** *** The recorder *)

(** A metric is a counter exactly when its name ends in "_count". *)
Definition metric_kinds (self : monitoring.MonitoringService) : Prop :=
  (forall name, is_Some (monitoring.counters self !! name) ->
                py_endswith "_count" name = true)
  /\ (forall name, is_Some (monitoring.gauges self !! name) ->
                   py_endswith "_count" name = false).

(** Kinds of calls: a completion, a retry, an error recorded with a task
    id that is neither [None] nor empty, an error of the type [ty]. *)
Definition is_completion (c : monitoring.Call) : bool :=
  match c with monitoring.RecordTaskCompleted _ _ _ => true | _ => false end.

Definition is_retry (c : monitoring.Call) : bool :=
  match c with monitoring.RecordTaskRetry _ _ _ => true | _ => false end.

Definition is_task_error (c : monitoring.Call) : bool :=
  match c with
  | monitoring.RecordError _ _ task_id _ _ => opt_str_truthy task_id
  | _ => false
  end.

Definition is_error_of (ty : string) (c : monitoring.Call) : bool :=
  match c with
  | monitoring.RecordError _ e _ _ _ => bool_decide (exc_type e = ty)
  | _ => false
  end.

(** The number of calls of a kind in a sequence. *)
Definition how_many (p : monitoring.Call -> bool) (cs : list monitoring.Call)
  : Z := Z.of_nat (length (List.filter p cs)).

(** The windows [deque(maxlen=100)] are within their length. *)
Definition windows_inv (self : monitoring.MonitoringService) : Prop :=
  (forall ty l, monitoring.error_rates self !! ty = Some l -> length l <= 100)
  /\ length (monitoring.processing_times self) <= 100.

(** The samples the summary looks at: the last 50 of the history. *)
Definition window_50 (self : monitoring.MonitoringService)
  : list monitoring.MetricsData :=
  drop (length (monitoring.metrics_history self) - 50)
       (monitoring.metrics_history self).

(** What the loop of the summary has found after the samples [seen]: for
    every name, a sample of that name than which none is newer. *)
Definition newest_ok (seen : list monitoring.MetricsData)
           (acc : gmap string (Q * Q)) : Prop :=
  forall name,
    match acc !! name with
    | None => forall m, m ∈ seen -> monitoring.metric_name m <> name
    | Some (v, ts) =>
        (exists m, m ∈ seen /\ monitoring.metric_name m = name
                   /\ monitoring.value m = v /\ monitoring.timestamp m = ts)
        /\ (forall m, m ∈ seen -> monitoring.metric_name m = name ->
                      (monitoring.timestamp m <= ts)%Q)
    end.

(** The errors of the last [hours] hours, oldest first. *)
Definition recent_errors_of (now : Q) (hours : Z)
           (self : monitoring.MonitoringService) : list monitoring.ErrorEvent :=
  List.filter (fun error => Qle_bool (now - inject_Z (hours * 3600))%Q
                                     (monitoring.e_timestamp error))
              (monitoring.error_history self).

(** Those of them that have the type [ty]. *)
Definition of_type (ty : string) (l : list monitoring.ErrorEvent)
  : list monitoring.ErrorEvent :=
  List.filter (fun e => bool_decide (monitoring.error_type e = ty)) l.

(** [a] may stand before [b] in a list that is sorted newest first. *)
Definition not_older (a b : monitoring.ErrorEvent) : Prop :=
  (monitoring.e_timestamp b <= monitoring.e_timestamp a)%Q.

Definition listed_before (a b : monitoring.RecentError) : Prop :=
  (monitoring.re_timestamp b <= monitoring.re_timestamp a)%Q.

(** *** The accelerator and the health cycle *)

(** The cached availability is absent or older than 30 seconds at [now]. *)
Definition check_is_due (now : Q) (self : gpu.GPUResourceManager) : Prop :=
  match gpu._last_gpu_check self with
  | None => True
  | Some t => (30 < now - t)%Q
  end.

(** Every issue has its recommendation, and there are at most [n]. *)
Definition paired (h : health.HealthStatus) (n : nat) : Prop :=
  length (health.issues h) = length (health.recommendations h)
  /\ length (health.issues h) <= n.

(** A cycle on a machine whose accelerator memory is 96 % in use. *)
Definition hot_card_readings : health.Readings :=
  health.mkReadings 0 20 40 (50 * 1024) (100 * 1024)
    (gpu.GpuReading (gpu.mkGPUStatus true 1000 960 40 96 None None) false).

(** *** Whole runs of the executor *)

(** How the last invocation of a run ends. *)
Inductive Verdict := Completed | Failed (e : PyExc).

(** The decisive journal of that last invocation. *)
Definition closing (task_id : string) (v : Verdict) : list Event :=
  match v with
  | Completed => [EvStart task_id; EvStatus task_id tasks.COMPLETED]
  | Failed e => [EvStart task_id; EvTaskFailed task_id e;
                 EvStatus task_id tasks.FAILED; EvCleanupFiles task_id]
  end.

Definition final_status (v : Verdict) : tasks.TaskStatus :=
  match v with Completed => tasks.COMPLETED | Failed _ => tasks.FAILED end.

Definition completions_of (v : Verdict) : Z :=
  match v with Completed => 1 | Failed _ => 0 end.

Definition failures_of (v : Verdict) : Z :=
  match v with Completed => 0 | Failed _ => 1 end.

(** The retries a task has left. *)
Definition budget (t : tasks.Task) : Z :=
  Z.max 0 (tasks.get_max_retries t - tasks.get_retry_count t).

(** The number of times the journal records the status "completed" for a
    task, and the number of calls of [cleanup_task_files] for it. *)
Definition completed_writes (task_id : string) (j : list Event) : nat :=
  length (List.filter (fun s => bool_decide (s = tasks.COMPLETED))
                      (processing.status_writes task_id j)).

Definition cleanups (task_id : string) (j : list Event) : nat :=
  length (omap (fun e => match e with
                         | EvCleanupFiles t =>
                             if decide (t = task_id) then Some tt else None
                         | _ => None
                         end) j).

(** A script in which every kind of attempt occurs, and the task
    dictionary of "job-1" as uploaded. *)
Definition mixed_script : list processing.Attempt :=
  [render_fails; no_accelerator; render_succeeds; invalid_image].

Definition job_1 : tasks.Task :=
  tasks.new_task "job-1" 0 ∅ "./storage/uploads/job-1_original.png" None.

(** A recorder's day: a sample and an error ten days before the clock
    reading 63900000000 (in the year 2025), and a sample and two errors
    within its last hour. *)
Definition ten_days_of_calls : list monitoring.Call :=
  [ monitoring.RecordMetric 63899136000 "queue_count" 1 [];
    monitoring.RecordError 63899136000 (RuntimeError "無法取得 GPU 槽位: GPU 不可用")
                           (Some "job-1") [] "";
    monitoring.RecordMetric 63899999000 "queue_count" 2 [];
    monitoring.RecordError 63899999100 (Exception "DepthFlow 處理失敗")
                           (Some "job-2") [] "";
    monitoring.RecordError 63899999200 (RuntimeError "無法取得 GPU 槽位: GPU 記憶體不足")
                           (Some "job-3") [] "" ].



(* ===================================================================== *)
(** * Part II: properties                                                 *)
(* ===================================================================== *)

(** ** Substring search *)

Lemma py_startswith_refl_app (needle rest : string) :
  py_startswith needle (needle +:+ rest) = true.
Proof.
  unfold py_startswith.
  induction needle as [|c needle IH]; simpl.
  - by destruct rest.
  - destruct (ascii_dec c c); [exact IH | congruence].
Qed.

Lemma py_startswith_app (needle hay rest : string) :
  py_startswith needle hay = true ->
  py_startswith needle (hay +:+ rest) = true.
Proof.
  unfold py_startswith. revert hay.
  induction needle as [|c needle IH]; intros hay H.
  - by destruct (hay +:+ rest).
  - destruct hay as [|d hay]; simpl in *; [done|].
    destruct (ascii_dec c d); [by apply IH | done].
Qed.

Lemma py_in_unfold (needle hay : string) :
  py_in needle hay =
  if py_startswith needle hay then true
  else match hay with
       | EmptyString => false
       | String _ rest => py_in needle rest
       end.
Proof. by destruct hay. Qed.

Lemma py_in_app_l (needle hay rest : string) :
  py_in needle hay = true -> py_in needle (hay +:+ rest) = true.
Proof.
  induction hay as [|c hay IH]; intros H.
  - rewrite py_in_unfold in H.
    destruct (py_startswith needle "") eqn:E; [|done].
    rewrite py_in_unfold.
    by rewrite (py_startswith_app needle "" rest E).
  - rewrite py_in_unfold in H. rewrite py_in_unfold.
    destruct (py_startswith needle (String c hay)) eqn:E.
    + by rewrite (py_startswith_app _ _ rest E).
    + destruct (py_startswith needle (String c hay +:+ rest)); [done|].
      simpl. by apply IH.
Qed.

Lemma py_in_app_r (needle hay rest : string) :
  py_in needle rest = true -> py_in needle (hay +:+ rest) = true.
Proof.
  intros H. induction hay as [|c hay IH]; [exact H|].
  rewrite py_in_unfold.
  destruct (py_startswith needle (String c hay +:+ rest)); [done | exact IH].
Qed.

Lemma py_in_here (needle rest : string) :
  py_in needle (needle +:+ rest) = true.
Proof. rewrite py_in_unfold. by rewrite py_startswith_refl_app. Qed.

(** A needle that occurs in a literal occurs in every string built around
    the literal. *)
Lemma py_in_framed (needle before lit after : string) :
  py_in needle lit = true ->
  py_in needle (before +:+ lit +:+ after) = true.
Proof. intros H. apply py_in_app_r. by apply py_in_app_l. Qed.

Lemma any_in_spec (keys : list string) (s : string) :
  classifier.any_in keys s = true <->
  exists k, In k keys /\ py_in k s = true.
Proof.
  induction keys as [|k keys IH]; simpl.
  - split; [done | by intros (k & [] & _)].
  - destruct (py_in k s) eqn:E.
    + split; [|done]. intros _. exists k. by split; [left|].
    + rewrite IH. split.
      * intros (k' & Hin & Hk). exists k'. by split; [right|].
      * intros (k' & [->|Hin] & Hk); [congruence|]. by exists k'.
Qed.

(* --------------------------------------------------------------------- *)
(** ** C4: the retry classifier                                           *)
(* --------------------------------------------------------------------- *)

(** C4, counterexample: the phrases of the design document are not the
    strings of the code: a
    message made of the document's phrase "file too large" is fatal by the
    document and retried by [should_retry_error], whose list holds
    "file_too_large". *)
Lemma C4_documented_phrase_is_retried :
  classifier.spec_classify_retryable "file too large" = false
  /\ classifier.should_retry_error (Exception "file too large") = true.
Proof. split; reflexivity. Qed.

(** The same for every one of the six phrases of the document, and the
    lower-casing makes the code's own keywords match in capitals too. *)
Lemma documented_phrases_all_retried :
  Forall (fun m => classifier.should_retry_error (Exception m) = true)
         classifier.spec_fatal_phrases
  /\ classifier.should_retry_error (Exception "FILE_TOO_LARGE") = false.
Proof. split; [repeat constructor | reflexivity]. Qed.

(** C4, as the code has it: [should_retry_error] answers [False] exactly
    when the lower-cased message contains one of the six strings of
    [non_retryable_errors] (three Chinese phrases and the three identifiers
    parameter_validation_error, invalid_file_format, file_too_large), and
    [True] for every other message, whether or not a keyword of
    [retryable_errors] occurs in it; the verdict depends on the message
    alone. *)
Theorem C4_should_retry_error_verdict (e : PyExc) :
  (classifier.should_retry_error e = false <->
     exists k, In k classifier.non_retryable_errors
               /\ py_in k (lower (exc_str e)) = true)
  /\ (classifier.should_retry_error e = true <->
        forall k, In k classifier.non_retryable_errors ->
                  py_in k (lower (exc_str e)) = false)
  /\ classifier.should_retry_error e
     = negb (classifier.any_in classifier.non_retryable_errors
                               (lower (exc_str e)))
  /\ classifier.should_retry_error e
     = classifier.should_retry_error (Exception (exc_str e)).
Proof.
  assert (Hdef : classifier.should_retry_error e
                 = negb (classifier.any_in classifier.non_retryable_errors
                                           (lower (exc_str e)))).
  { unfold classifier.should_retry_error.
    destruct (classifier.any_in classifier.non_retryable_errors _); [done|].
    by destruct (classifier.any_in classifier.retryable_errors _). }
  repeat split; try exact Hdef.
  - rewrite Hdef. intros H. apply any_in_spec.
    by destruct (classifier.any_in _ _).
  - rewrite Hdef. intros H. apply any_in_spec in H. by rewrite H.
  - rewrite Hdef. intros H k Hin.
    destruct (py_in k (lower (exc_str e))) eqn:E; [|done].
    assert (classifier.any_in classifier.non_retryable_errors
                              (lower (exc_str e)) = true) as Hany
        by (apply any_in_spec; eauto).
    by rewrite Hany in H.
  - rewrite Hdef. intros H.
    destruct (classifier.any_in _ _) eqn:E; [|done].
    apply any_in_spec in E as (k & Hin & Hk). by rewrite (H k Hin) in Hk.
Qed.

(* --------------------------------------------------------------------- *)
(** ** Rounding to the nearest float                                      *)
(* --------------------------------------------------------------------- *)

Section FloatRounding.
Local Open Scope Z_scope.

(** [round_half_even n d] is within one half of [n / d]. *)
Lemma round_half_even_spec (n d : Z) :
  0 < d ->
  - d <= 2 * (float.round_half_even n d * d - n) <= d.
Proof.
  intros Hd. unfold float.round_half_even.
  pose proof (Z.div_mod n d ltac:(lia)) as Hdm.
  pose proof (Z.mod_pos_bound n d Hd) as Hr.
  set (q := n / d) in *. set (r := n mod d) in *.
  destruct (2 * r <? d) eqn:E1; [apply Z.ltb_lt in E1; nia|].
  apply Z.ltb_ge in E1.
  destruct (d <? 2 * r) eqn:E2; [apply Z.ltb_lt in E2; nia|].
  apply Z.ltb_ge in E2.
  destruct (Z.even q); nia.
Qed.

(** The exponent that [nearest_pos] picks is not above the quotient. *)
Lemma binade_lower (n d : Z) :
  0 < n -> 0 < d ->
  let e0 := Z.log2 n - Z.log2 d in
  let e := if n * 2 ^ Z.max 0 (- e0) <? d * 2 ^ Z.max 0 e0 then e0 - 1 else e0 in
  e0 - 1 <= e /\ d * 2 ^ Z.max 0 e <= n * 2 ^ Z.max 0 (- e).
Proof.
  intros Hn Hd e0 e.
  destruct (Z.log2_spec n Hn) as [Hn1 Hn2].
  destruct (Z.log2_spec d Hd) as [Hd1 Hd2].
  pose proof (Z.log2_nonneg n) as Ha. pose proof (Z.log2_nonneg d) as Hb.
  set (a := Z.log2 n) in *. set (b := Z.log2 d) in *.
  unfold e. destruct (_ <? _) eqn:E.
  - split; [lia|]. clear E.
    (* d < 2^(b+1), 2^a <= n, e0 - 1 = a - b - 1 *)
    destruct (Z.max_spec 0 (e0 - 1)) as [[H1 ->]|[H1 ->]];
    destruct (Z.max_spec 0 (- (e0 - 1))) as [[H2 ->]|[H2 ->]]; try lia.
    + (* e0 - 1 > 0 *)
      rewrite Z.mul_1_r.
      apply Z.le_trans with (2 ^ (b + 1) * 2 ^ (e0 - 1)).
      * apply Z.mul_le_mono_nonneg_r; [apply Z.pow_nonneg; lia | lia].
      * rewrite <- Z.pow_add_r by lia. unfold e0.
        replace (b + 1 + (a - b - 1)) with a by lia. exact Hn1.
    + (* e0 - 1 <= 0 *)
      rewrite Z.mul_1_r.
      apply Z.le_trans with (2 ^ (b + 1)); [lia|].
      apply Z.le_trans with (2 ^ a * 2 ^ (- (e0 - 1))).
      * rewrite <- Z.pow_add_r by lia. unfold e0.
        replace (a + - (a - b - 1)) with (b + 1) by lia. lia.
      * apply Z.mul_le_mono_nonneg_r; [apply Z.pow_nonneg; lia | lia].
    + assert (2 ^ (b + 1) = 2 ^ a) by (f_equal; lia). simpl (2 ^ 0). lia.
  - split; [lia|]. apply Z.ltb_ge in E. exact E.
Qed.

(** A normal result [m * B / P] of [nearest_pos n d]: it is within half a
    unit [B / P] of [n / d], and [n / d] is at least [2^52] units. *)
Lemma nearest_pos_spec (n d : Z) :
  0 < n -> 0 < d -> Z.log2 d - Z.log2 n <= 1020 ->
  exists m P B : Z,
    0 < P /\ 0 < B
    /\ float.nearest_pos n d = Qmake (m * B) (Z.to_pos P)
    /\ - (d * B) <= 2 * (m * (d * B) - n * P) <= d * B
    /\ 2 ^ 52 * (d * B) <= n * P.
Proof.
  intros Hn Hd Hlog. unfold float.nearest_pos.
  destruct (binade_lower n d Hn Hd) as [He Hlow].
  cbv zeta in He, Hlow.
  set (e0 := Z.log2 n - Z.log2 d) in *.
  set (e := if _ <? _ then _ else _) in *.
  rewrite (Z.max_l (e - 52) (-1074)) by lia.
  set (k := e - 52).
  set (P := 2 ^ Z.max 0 (- k)). set (B := 2 ^ Z.max 0 k).
  assert (0 < P) as HP by (apply Z.pow_pos_nonneg; lia).
  assert (0 < B) as HB by (apply Z.pow_pos_nonneg; lia).
  exists (float.round_half_even (n * P) (d * B)), P, B.
  split; [exact HP|]. split; [exact HB|]. split; [reflexivity|].
  split.
  - pose proof (round_half_even_spec (n * P) (d * B) ltac:(nia)) as H. lia.
  - unfold P, B, k.
    destruct (Z_lt_le_dec e 0) as [Hneg|Hpos].
    + rewrite (Z.max_l 0 e) in Hlow by lia.
      rewrite (Z.max_r 0 (- e)) in Hlow by lia.
      rewrite (Z.max_l 0 (e - 52)) by lia.
      rewrite (Z.max_r 0 (- (e - 52))) by lia.
      replace (- (e - 52)) with (52 + - e) by lia.
      rewrite Z.pow_add_r by lia. simpl (2 ^ 0) in *. nia.
    + rewrite (Z.max_r 0 e) in Hlow by lia.
      rewrite (Z.max_l 0 (- e)) in Hlow by lia.
      simpl (2 ^ 0) in Hlow.
      destruct (Z_lt_le_dec e 52) as [Hlt|Hge].
      * rewrite (Z.max_l 0 (e - 52)) by lia.
        rewrite (Z.max_r 0 (- (e - 52))) by lia.
        simpl (2 ^ 0).
        assert (2 ^ 52 = 2 ^ e * 2 ^ (- (e - 52))) as ->.
        { rewrite <- Z.pow_add_r by lia. f_equal. lia. }
        assert (0 < 2 ^ (- (e - 52))) by (apply Z.pow_pos_nonneg; lia).
        nia.
      * rewrite (Z.max_r 0 (e - 52)) by lia.
        rewrite (Z.max_l 0 (- (e - 52))) by lia.
        simpl (2 ^ 0).
        assert (2 ^ e = 2 ^ 52 * 2 ^ (e - 52)) as Hsplit.
        { rewrite <- Z.pow_add_r by lia. f_equal. lia. }
        rewrite Hsplit in Hlow. nia.
Qed.

Lemma Qred_den_le (q : Q) : Zpos (Qden (Qred q)) <= Zpos (Qden q).
Proof.
  destruct q as [a b]. unfold Qred.
  pose proof (Z.ggcd_correct_divisors a (Zpos b)) as H.
  pose proof (Z.ggcd_gcd a (Zpos b)) as Hg.
  pose proof (Z.gcd_nonneg a (Zpos b)) as Hg0.
  destruct (Z.ggcd a (Zpos b)) as [g [aa bb]]. simpl in *.
  destruct H as [_ Hb]. rewrite <- Hg in Hg0. clear Hg.
  assert (0 < g) by (destruct g; lia).
  assert (0 < bb) by nia.
  rewrite Z2Pos.id by lia. nia.
Qed.

Lemma truediv_unfold (f t : Z) :
  0 < f -> 0 < t ->
  exists n d : Z,
    0 < n /\ 0 < d /\ d <= t /\ n * t = f * d
    /\ float.truediv f t = float.nearest_pos n d.
Proof.
  intros Hf Ht. unfold float.truediv, float.nearest.
  set (q := (inject_Z f / inject_Z t)%Q).
  assert (Hq : (q == f # Z.to_pos t)%Q).
  { unfold q. rewrite Qmake_Qdiv. rewrite Z2Pos.id by lia. reflexivity. }
  assert (Hdq : Zpos (Qden q) <= t).
  { unfold q. destruct t as [|t|t]; try lia. unfold Qdiv, Qinv, inject_Z. simpl. lia. }
  pose proof (Qred_den_le q) as Hden.
  assert (Hred : (Qred q == f # Z.to_pos t)%Q)
    by (etransitivity; [apply Qred_correct | exact Hq]).
  clearbody q. destruct (Qred q) as [n d]. simpl in *.
  unfold Qeq in Hred. simpl in Hred. rewrite Z2Pos.id in Hred by lia.
  destruct n as [|n|n]; try nia.
  exists (Zpos n), (Zpos d). repeat split; try lia.
Qed.

(** [nearest] does not depend on how the rational is written. *)
Lemma nearest_proper (q q' : Q) : (q == q')%Q -> float.nearest q = float.nearest q'.
Proof. intros H. unfold float.nearest. rewrite (Qred_complete _ _ H). reflexivity.
Qed.

(** The literals [0.5] and [0.2]: the first is exact, the second is
    [(2^54 + 1) / (5 * 2^54)], a little above one fifth. *)
Lemma half_literal : float.nearest (5 # 10) = 4503599627370496 # 9007199254740992.
Proof. vm_compute. reflexivity. Qed.

Lemma fifth_literal : float.nearest (2 # 10) = 7205759403792794 # 36028797018963968.
Proof. vm_compute. reflexivity. Qed.

(** What the two bounds of [nearest_pos_spec] give for a quotient [n / d]
    with [d < 2^52] on either side of one half and of one fifth. *)
Section Rounded.
Variables n d m P B : Z.
Hypothesis Hn : 0 < n.
Hypothesis Hd : 0 < d.
Hypothesis HP : 0 < P.
Hypothesis HB : 0 < B.
Hypothesis Hround : - (d * B) <= 2 * (m * (d * B) - n * P) <= d * B.
Hypothesis Hbinade : 2 ^ 52 * (d * B) <= n * P.
Hypothesis Hsmall : d < 2 ^ 52.

Lemma rel_low : (2 ^ 53 - 1) * (n * P) <= 2 ^ 53 * (m * (d * B)).
Proof. lia. Qed.

Lemma rel_high : 2 ^ 53 * (m * (d * B)) <= (2 ^ 53 + 1) * (n * P).
Proof. lia. Qed.

Lemma above_half : d < 2 * n -> P < 2 * (m * B).
Proof.
  intros H. pose proof rel_low as R.
  destruct (Z_lt_le_dec P (2 * (m * B))) as [|C]; [assumption|exfalso].
  assert (2 ^ 53 * (m * (d * B)) <= 2 ^ 52 * (d * P)) as H1.
  { replace (2 ^ 53 * (m * (d * B))) with (2 ^ 52 * (d * (2 * (m * B)))) by ring.
    apply Z.mul_le_mono_nonneg_l; [lia|].
    apply Z.mul_le_mono_nonneg_l; lia. }
  assert ((2 ^ 53 - 1) * n <= 2 ^ 52 * d) as H2.
  { apply Z.mul_le_mono_pos_r with P; [exact HP|]. lia. }
  lia.
Qed.

Lemma below_half : 2 * n < d -> 2 * (m * B) <= P.
Proof.
  intros H. pose proof rel_high as R.
  destruct (Z_lt_le_dec P (2 * (m * B))) as [C|]; [exfalso|assumption].
  assert (2 ^ 52 * (d * P) < 2 ^ 53 * (m * (d * B))) as H1.
  { replace (2 ^ 53 * (m * (d * B))) with (2 ^ 52 * (d * (2 * (m * B)))) by ring.
    apply Z.mul_lt_mono_pos_l; [lia|].
    apply Z.mul_lt_mono_pos_l; lia. }
  assert (2 ^ 52 * d < (2 ^ 53 + 1) * n) as H2.
  { apply Z.mul_lt_mono_pos_r with P; [exact HP|]. lia. }
  lia.
Qed.

Lemma below_fifth : 5 * n < d -> 5 * (m * B) <= P.
Proof.
  intros H. pose proof rel_high as R.
  destruct (Z_lt_le_dec P (5 * (m * B))) as [C|]; [exfalso|assumption].
  assert (2 ^ 53 * (d * P) < 5 * (2 ^ 53 * (m * (d * B)))) as H1.
  { replace (5 * (2 ^ 53 * (m * (d * B)))) with (2 ^ 53 * (d * (5 * (m * B)))) by ring.
    apply Z.mul_lt_mono_pos_l; [lia|].
    apply Z.mul_lt_mono_pos_l; lia. }
  assert (2 ^ 53 * d < 5 * (2 ^ 53 + 1) * n) as H2.
  { apply Z.mul_lt_mono_pos_r with P; [exact HP|]. lia. }
  lia.
Qed.

Lemma above_fifth : d < 5 * n -> (2 ^ 54 + 1) * P < 5 * 2 ^ 54 * (m * B).
Proof.
  intros H.
  apply Z.mul_lt_mono_pos_r with d; [exact Hd|].
  destruct (Z_lt_le_dec (4 * n) d) as [Hq|Hq].
  - (* the quotient is below 1/4: the spacing is at most 2^-55 *)
    assert (2 ^ 54 * B < P) as Hu.
    { apply Z.mul_lt_mono_pos_r with d; [exact Hd|].
      apply Z.mul_lt_mono_pos_r with 4; [lia|].
      assert (4 * n * P < d * P) by (apply Z.mul_lt_mono_pos_r; lia).
      lia. }
    assert (d * (2 ^ 54 * B) <= d * (P - 1)) as Hu'
        by (apply Z.mul_le_mono_nonneg_l; lia).
    assert ((d + 1) * P <= 5 * n * P) as Hn5
        by (apply Z.mul_le_mono_nonneg_r; lia).
    assert (7 * (d * P) <= 7 * (2 ^ 52 * P)) as Hd7.
    { apply Z.mul_le_mono_nonneg_l; [lia|].
      apply Z.mul_le_mono_nonneg_r; lia. }
    lia.
  - pose proof rel_low as R.
    assert (d * P <= 4 * n * P) as Hn4
        by (apply Z.mul_le_mono_nonneg_r; lia).
    assert (0 < d * P) by (apply Z.mul_pos_pos; lia).
    lia.
Qed.
End Rounded.

(** The quotient of two counters, the divisor below [2^52]. *)
Lemma truediv_rounded (f t : Z) :
  0 < f -> 0 < t < 2 ^ 52 ->
  exists n d m P B : Z,
    (0 < n /\ 0 < d /\ d < 2 ^ 52 /\ n * t = f * d)
    /\ (0 < P /\ 0 < B)
    /\ float.truediv f t = Qmake (m * B) (Z.to_pos P)
    /\ - (d * B) <= 2 * (m * (d * B) - n * P) <= d * B
    /\ 2 ^ 52 * (d * B) <= n * P.
Proof.
  intros Hf Ht.
  destruct (truediv_unfold f t Hf ltac:(lia)) as (n & d & Hn & Hd & Hdt & Heq & ->).
  assert (Z.log2 d - Z.log2 n <= 1020) as Hlog.
  { pose proof (Z.log2_nonneg n).
    assert (Z.log2 d < 52) by (apply Z.log2_lt_pow2; lia). lia. }
  destruct (nearest_pos_spec n d Hn Hd Hlog) as (m & P & B & HP & HB & Hv & Hr & Hb).
  exists n, d, m, P, B. repeat split; try assumption; lia.
Qed.

Lemma Qdiv_Z_eq (f t a : Z) (b : positive) :
  0 < t -> f * Zpos b = a * t -> (inject_Z f / inject_Z t == a # b)%Q.
Proof.
  intros Ht H. destruct t as [|t|t]; try lia.
  rewrite <- Qmake_Qdiv. unfold Qeq. simpl Qnum. simpl Qden. exact H.
Qed.

Lemma truediv_zero (t : Z) : 0 < t -> float.truediv 0 t = 0%Q.
Proof.
  intros Ht. unfold float.truediv.
  rewrite (nearest_proper _ 0%Q); [reflexivity|].
  apply (Qdiv_Z_eq 0 t 0 1); lia.
Qed.

(** For a divisor below [2^52] the rounded quotient is on the same side
    of the floats [0.5] and [0.2] as the exact quotient is of one half and
    one fifth. *)
Lemma truediv_gt_half (f t : Z) :
  0 < t < 2 ^ 52 -> t < 2 * f ->
  (float.nearest (5 # 10) < float.truediv f t)%Q.
Proof.
  intros Ht H.
  destruct (truediv_rounded f t ltac:(lia) Ht)
    as (n & d & m & P & B & (Hn & Hd & Hdt & Heq) & (HP & HB) & -> & Hr & Hb).
  assert (d < 2 * n) as Hq by nia.
  pose proof (above_half n d m P B) as Hgoal.
  repeat (match type of Hgoal with ?A -> _ => specialize (Hgoal ltac:(assumption)) end).
  rewrite half_literal. unfold Qlt. simpl Qnum. simpl Qden.
  rewrite Z2Pos.id by exact HP. lia.
Qed.

Lemma truediv_le_half (f t : Z) :
  0 < t < 2 ^ 52 -> 0 <= f -> 2 * f <= t ->
  (float.truediv f t <= float.nearest (5 # 10))%Q.
Proof.
  intros Ht Hf H.
  destruct (Z.eq_dec f 0) as [->|Hf0].
  { rewrite truediv_zero by lia. rewrite half_literal. unfold Qle. simpl. lia. }
  destruct (Z.eq_dec (2 * f) t) as [He|Hne].
  { unfold float.truediv. rewrite (nearest_proper _ (5 # 10)); [apply Qle_refl|].
    apply Qdiv_Z_eq; lia. }
  destruct (truediv_rounded f t ltac:(lia) Ht)
    as (n & d & m & P & B & (Hn & Hd & Hdt & Heq) & (HP & HB) & -> & Hr & Hb).
  assert (2 * n < d) as Hq by nia.
  pose proof (below_half n d m P B) as Hgoal.
  repeat (match type of Hgoal with ?A -> _ => specialize (Hgoal ltac:(assumption)) end).
  rewrite half_literal. unfold Qle. simpl Qnum. simpl Qden.
  rewrite Z2Pos.id by exact HP. lia.
Qed.

Lemma truediv_gt_fifth (f t : Z) :
  0 < t < 2 ^ 52 -> t < 5 * f ->
  (float.nearest (2 # 10) < float.truediv f t)%Q.
Proof.
  intros Ht H.
  destruct (truediv_rounded f t ltac:(lia) Ht)
    as (n & d & m & P & B & (Hn & Hd & Hdt & Heq) & (HP & HB) & -> & Hr & Hb).
  assert (d < 5 * n) as Hq by nia.
  pose proof (above_fifth n d m P B) as Hgoal.
  repeat (match type of Hgoal with ?A -> _ => specialize (Hgoal ltac:(assumption)) end).
  rewrite fifth_literal. unfold Qlt. simpl Qnum. simpl Qden.
  rewrite Z2Pos.id by exact HP. lia.
Qed.

Lemma truediv_le_fifth (f t : Z) :
  0 < t < 2 ^ 52 -> 0 <= f -> 5 * f <= t ->
  (float.truediv f t <= float.nearest (2 # 10))%Q.
Proof.
  intros Ht Hf H.
  destruct (Z.eq_dec f 0) as [->|Hf0].
  { rewrite truediv_zero by lia. rewrite fifth_literal. unfold Qle. simpl. lia. }
  destruct (Z.eq_dec (5 * f) t) as [He|Hne].
  { unfold float.truediv. rewrite (nearest_proper _ (2 # 10)); [apply Qle_refl|].
    apply Qdiv_Z_eq; lia. }
  destruct (truediv_rounded f t ltac:(lia) Ht)
    as (n & d & m & P & B & (Hn & Hd & Hdt & Heq) & (HP & HB) & -> & Hr & Hb).
  assert (5 * n < d) as Hq by nia.
  pose proof (below_fifth n d m P B) as Hgoal.
  repeat (match type of Hgoal with ?A -> _ => specialize (Hgoal ltac:(assumption)) end).
  rewrite fifth_literal. unfold Qle. simpl Qnum. simpl Qden.
  rewrite Z2Pos.id by exact HP. lia.
Qed.

End FloatRounding.

(* --------------------------------------------------------------------- *)
(** ** C7, C8: the health tag of the metrics recorder                     *)
(* --------------------------------------------------------------------- *)

Lemma Qgt_bool_true (x y : Q) : negb (Qle_bool x y) = true <-> (y < x)%Q.
Proof.
  rewrite negb_true_iff, <- not_true_iff_false, Qle_bool_iff.
  split; [apply Qnot_le_lt | apply Qlt_not_le].
Qed.

Lemma Qgt_bool_false (x y : Q) : negb (Qle_bool x y) = false <-> (x <= y)%Q.
Proof. rewrite negb_false_iff. apply Qle_bool_iff. Qed.


(** The exact quotient of two counters against a fraction. *)
Lemma ratio_le (f t : Z) (a b : positive) :
  (0 < t)%Z ->
  (inject_Z f / inject_Z t <= Zpos a # b)%Q <-> (Zpos b * f <= Zpos a * t)%Z.
Proof.
  intros Ht. destruct t as [|t|t]; try lia.
  unfold Qle, Qdiv, Qmult, Qinv, inject_Z. simpl. lia.
Qed.

Lemma ratio_gt (f t : Z) (a b : positive) :
  (0 < t)%Z ->
  (Zpos a # b < inject_Z f / inject_Z t)%Q <-> (Zpos a * t < Zpos b * f)%Z.
Proof.
  intros Ht. destruct t as [|t|t]; try lia.
  unfold Qlt, Qdiv, Qmult, Qinv, inject_Z. simpl. lia.
Qed.

(** C7, counterexample: at a failure ratio of exactly one half the code
    answers "warning" where
    the document says "critical", and at exactly one fifth it answers
    "healthy" where the document says "warning": the code compares with a
    strict [>]. *)
Lemma C7_boundary_ratios_differ :
  (monitoring._calculate_system_health (recorder_with 2 1) = "warning"
   /\ monitoring.spec_health_tag 2 1 = "critical")
  /\ (monitoring._calculate_system_health (recorder_with 5 1) = "healthy"
      /\ monitoring.spec_health_tag 5 1 = "warning").
Proof. repeat split; vm_compute; reflexivity. Qed.

(** The three thresholds on integer counters below [2^52]: for a positive
    total the tag is decided by comparing [5 * failed] and [2 * failed]
    with the total. *)
Lemma system_health_by_counts (self : monitoring.MonitoringService) :
  let total := monitoring.total_tasks (monitoring.task_stats self) in
  let failed := monitoring.failed_tasks (monitoring.task_stats self) in
  (0 < total < 2 ^ 52)%Z -> (0 <= failed)%Z ->
  monitoring._calculate_system_health self
  = if (total <? 2 * failed)%Z then "critical"
    else if (total <? 5 * failed)%Z then "warning"
    else "healthy".
Proof.
  intros total failed Ht Hf. unfold monitoring._calculate_system_health.
  fold total failed.
  destruct (total =? 0)%Z eqn:E0; [apply Z.eqb_eq in E0; lia|].
  destruct (Z.ltb_spec total (2 * failed)) as [H2|H2].
  { pose proof (truediv_gt_half failed total Ht H2) as H.
    apply Qgt_bool_true in H. by rewrite H. }
  pose proof (truediv_le_half failed total Ht Hf H2) as H.
  apply Qgt_bool_false in H. rewrite H.
  destruct (Z.ltb_spec total (5 * failed)) as [H5|H5].
  - pose proof (truediv_gt_fifth failed total Ht H5) as H'.
    apply Qgt_bool_true in H'. by rewrite H'.
  - pose proof (truediv_le_fifth failed total Ht Hf H5) as H'.
    apply Qgt_bool_false in H'. by rewrite H'.
Qed.

(** C7, as the code has it: the tag is "unknown" when [total_tasks] is
    zero.  Otherwise the code compares the float [failed / total] with the
    floats 0.5 and 0.2; for counters below [2^52], with [total_tasks]
    positive and [failed_tasks] not negative, this is the comparison of
    the exact ratio failed_tasks / total_tasks: the tag is "healthy" when
    ratio <= 0.2, "warning" when 0.2 < ratio <= 0.5 and "critical" when
    ratio > 0.5.  [get_metrics_summary] reports that tag. *)
Theorem C7_system_health_tag (self : monitoring.MonitoringService) (now : Q) :
  let total := monitoring.total_tasks (monitoring.task_stats self) in
  let failed := monitoring.failed_tasks (monitoring.task_stats self) in
  let ratio := (inject_Z failed / inject_Z total)%Q in
  let tag := monitoring._calculate_system_health self in
  monitoring.system_health (monitoring.get_metrics_summary now self) = tag
  /\ (total = 0%Z -> tag = "unknown")
  /\ ((0 < total < 2 ^ 52)%Z -> (0 <= failed < 2 ^ 52)%Z ->
      ((ratio <= 2 # 10)%Q -> tag = "healthy")
      /\ ((2 # 10 < ratio)%Q /\ (ratio <= 5 # 10)%Q -> tag = "warning")
      /\ ((5 # 10 < ratio)%Q -> tag = "critical")).
Proof.
  intros total failed ratio tag. split; [reflexivity|].
  split.
  - intros H0. unfold tag, monitoring._calculate_system_health.
    fold total. by rewrite H0.
  - intros Ht [Hf _].
    pose proof (system_health_by_counts self Ht Hf) as Htag.
    fold total failed tag in Htag. rewrite Htag.
    unfold ratio. rewrite !ratio_le, !ratio_gt by lia.
    destruct (Z.ltb_spec total (2 * failed)), (Z.ltb_spec total (5 * failed));
      repeat split; intros; try reflexivity; lia.
Qed.

(** Past the bound the rounding shows.  With 9999999999999999 tasks of
    which 2000000000000000 failed the exact ratio is above one fifth, the
    float quotient is the float 0.2, and the tag is "healthy". *)
Example rounded_quotient_at_large_counts :
  let self := recorder_with 9999999999999999 2000000000000000 in
  (2 # 10 < 2000000000000000 # 9999999999999999)%Q
  /\ float.truediv 2000000000000000 9999999999999999 = float.nearest (2 # 10)
  /\ monitoring._calculate_system_health self = "healthy".
Proof. repeat split; vm_compute; reflexivity. Qed.

(** Every state-changing method leaves [total_tasks] as it found it. *)
Lemma record_metric_task_stats now name v tg self :
  monitoring.task_stats (monitoring.record_metric now name v tg self)
  = monitoring.task_stats self.
Proof.
  unfold monitoring.record_metric. by destruct (py_endswith "_count" name).
Qed.

Lemma call_total_tasks (c : monitoring.Call) (self : monitoring.MonitoringService) :
  monitoring.total_tasks (monitoring.task_stats (monitoring.call c self))
  = monitoring.total_tasks (monitoring.task_stats self).
Proof.
  destruct c; cbn [monitoring.call].
  - by rewrite record_metric_task_stats.
  - unfold monitoring.record_error. cbv zeta.
    by destruct (opt_str_truthy task_id).
  - reflexivity.
  - unfold monitoring.stop_timer.
    destruct (monitoring.performance_timers self !! name); cbv zeta; simpl; [|done].
    by rewrite record_metric_task_stats.
  - unfold monitoring.record_task_completed. cbv zeta.
    rewrite !record_metric_task_stats. simpl.
    by destruct (deque_append 100 processing_time (monitoring.processing_times self)).
  - unfold monitoring.record_task_retry. cbv zeta.
    by rewrite record_metric_task_stats.
  - unfold monitoring.clear_old_data.
    by destruct (datetime.ago now days 0).
Qed.

Lemma calls_total_tasks (cs : list monitoring.Call) (self : monitoring.MonitoringService) :
  monitoring.total_tasks (monitoring.task_stats (monitoring.calls cs self))
  = monitoring.total_tasks (monitoring.task_stats self).
Proof.
  revert self. induction cs as [|c cs IH]; intros self; [reflexivity|].
  change (monitoring.calls (c :: cs) self)
    with (monitoring.calls cs (monitoring.call c self)).
  rewrite IH. apply call_total_tasks.
Qed.

(** C8: no method of the recorder writes [total_tasks].  After any sequence
    of calls on a new recorder it is still 0, so [_calculate_system_health]
    and the summary answer "unknown", whatever was completed or failed. *)
Theorem C8_total_tasks_never_counted
        (max_metrics max_errors : nat) (cs : list monitoring.Call) (now : Q) :
  let self := monitoring.calls cs (monitoring.__init__ max_metrics max_errors) in
  monitoring.total_tasks (monitoring.task_stats self) = 0%Z
  /\ monitoring._calculate_system_health self = "unknown"
  /\ monitoring.system_health (monitoring.get_metrics_summary now self) = "unknown".
Proof.
  intros self.
  assert (H0 : monitoring.total_tasks (monitoring.task_stats self) = 0%Z)
    by (unfold self; by rewrite calls_total_tasks).
  split; [exact H0|].
  assert (monitoring._calculate_system_health self = "unknown") as Hu
      by (unfold monitoring._calculate_system_health; by rewrite H0).
  split; [exact Hu | exact Hu].
Qed.

(* --------------------------------------------------------------------- *)
(** ** C9: the severity of a health snapshot                              *)
(* --------------------------------------------------------------------- *)

Lemma mentions_app_l (keywords : list string) (lit rest : string) :
  health.mentions keywords lit = true ->
  health.mentions keywords (lit +:+ rest) = true.
Proof.
  unfold health.mentions. rewrite !existsb_exists.
  intros (k & Hin & Hk). exists k. split; [exact Hin|]. by apply py_in_app_l.
Qed.


Lemma report_all_critical (lit rest r : string) (h : health.HealthStatus) :
  health.mentions health.critical_keywords lit = true ->
  all_critical h -> all_critical (health.report (lit +:+ rest) r h).
Proof.
  intros Hlit Hall. unfold all_critical, health.report in *.
  cbn [health.issues]. apply Forall_app. split; [exact Hall|].
  constructor; [by apply mentions_app_l | constructor].
Qed.

Lemma maybe_report_all_critical (b : bool) (lit rest r : string)
      (h : health.HealthStatus) :
  health.mentions health.critical_keywords lit = true ->
  all_critical h ->
  all_critical (if b then health.report (lit +:+ rest) r h else h).
Proof. intros Hlit Hall. destruct b; [by apply report_all_critical | exact Hall]. Qed.

Lemma check_resource_issues_all_critical fmt_1f h cpu mem used total h' :
  all_critical h ->
  health._check_resource_issues fmt_1f h cpu mem used total = Ok h' ->
  all_critical h'.
Proof.
  unfold health._check_resource_issues. cbv zeta. intros Hall.
  destruct (total =? 0)%Z; [discriminate|].
  intros [= <-].
  repeat (apply maybe_report_all_critical; [reflexivity|]).
  exact Hall.
Qed.

Lemma check_gpu_issues_all_critical fmt_1f h g :
  all_critical h -> all_critical (health._check_gpu_issues fmt_1f h g).
Proof.
  unfold health._check_gpu_issues. cbv zeta. intros Hall.
  destruct (negb (gpu.get_available g)).
  { apply (report_all_critical "GPU 不可用" "" _ h); [reflexivity | exact Hall]. }
  destruct (gpu.get_temperature g) as [t|];
    repeat (apply maybe_report_all_critical; [reflexivity|]);
    exact Hall.
Qed.

Lemma determine_overall_status_issues h :
  health.issues (health._determine_overall_status h) = health.issues h.
Proof.
  unfold health._determine_overall_status.
  by repeat match goal with |- context [if ?b then _ else _] => destruct b end.
Qed.

Lemma determine_overall_status_all_critical h :
  all_critical h ->
  health.overall_status (health._determine_overall_status h)
  = match health.issues h with [] => "healthy" | _ :: _ => "critical" end.
Proof.
  unfold all_critical, health._determine_overall_status.
  destruct (health.issues h) as [|i more]; [reflexivity|].
  intros Hall. inversion_clear Hall as [|? ? Hi _].
  cbn [existsb]. by rewrite Hi.
Qed.

(** C9: every issue a health check appends contains one of the critical
    keywords, so the snapshot of a check that completes is "critical" when
    it has an issue and "healthy" when it has none; it is never "warning". *)
Theorem C9_snapshot_is_healthy_or_critical
        (fmt_1f : Q -> string) (r : health.Readings)
        (snapshot : health.HealthStatus) (hooks : list health.Recovery) :
  health._perform_health_check fmt_1f r = Some (snapshot, hooks) ->
  Forall (fun issue => exists keyword,
              In keyword health.critical_keywords
              /\ py_in keyword issue = true) (health.issues snapshot)
  /\ health.overall_status snapshot
     = match health.issues snapshot with
       | [] => "healthy"
       | _ :: _ => "critical"
       end
  /\ health.overall_status snapshot <> "warning".
Proof.
  unfold health._perform_health_check. intros H.
  destruct (health._check_resource_issues _ _ _ _ _ _) as [h1|] eqn:E1;
    [|discriminate].
  injection H as <- _.
  assert (H1 : all_critical h1).
  { eapply check_resource_issues_all_critical; [|exact E1]. constructor. }
  pose proof (check_gpu_issues_all_critical fmt_1f h1 (health.gpu_status r) H1)
    as H2.
  unfold health._check_task_issues.
  set (h2 := health._check_gpu_issues fmt_1f h1 (health.gpu_status r)) in *.
  rewrite determine_overall_status_issues.
  rewrite (determine_overall_status_all_critical h2 H2).
  split; [|split].
  - eapply Forall_impl; [exact H2|]. intros issue Hm.
    unfold health.mentions in Hm. by apply existsb_exists in Hm.
  - reflexivity.
  - by destruct (health.issues h2).
Qed.

(** C9, witness: a cycle that meets a busy processor and a missing
    accelerator. *)
Lemma C9_witness_busy_cycle :
  exists snapshot hooks,
    health._perform_health_check (fun _ => "95.0") busy_readings
    = Some (snapshot, hooks)
    /\ health.issues snapshot = ["CPU 使用率過高: 95.0%"; "GPU 不可用"]
    /\ health.overall_status snapshot = "critical".
Proof.
  eexists. eexists. split; [reflexivity|]. split; [reflexivity|].
  exact (proj1 (proj2 (C9_snapshot_is_healthy_or_critical
                         (fun _ => "95.0") busy_readings _ _ eq_refl))).
Defined.

(* --------------------------------------------------------------------- *)
(** ** C6: a lease is given back exactly once                             *)
(* --------------------------------------------------------------------- *)



Lemma acquisitions_app task_id j1 j2 :
  acquisitions task_id (j1 ++ j2)
  = (acquisitions task_id j1 + acquisitions task_id j2)%nat.
Proof. unfold acquisitions. by rewrite omap_app, length_app. Qed.

Lemma releases_app task_id j1 j2 :
  releases task_id (j1 ++ j2) = (releases task_id j1 + releases task_id j2)%nat.
Proof. unfold releases. by rewrite omap_app, length_app. Qed.

Lemma slot_give_back_take (m : gpu.GPUResourceManager) :
  gpu.slot_give_back (gpu.slot_take m) = m.
Proof.
  destruct m. unfold gpu.slot_give_back, gpu.slot_take, gpu.set_active. simpl.
  f_equal. lia.
Qed.

(** C6: when the admission check passes, [acquire_gpu_slot] increments the
    counter once, runs the guarded body once, and decrements the counter
    once after it, whether the body returned or raised; the body's outcome
    is passed on.  When the check fails it raises with the counter and the
    journal of leases untouched, and the body does not run. *)
Theorem C6_lease_given_back_exactly_once
        {A : Type} (task_id : string) (probe : gpu.GPUStatus)
        (body : World -> Result A * World) (w : World) :
  let active w := gpu.active_tasks (gpu_manager w) in
  let outcome := acquire_gpu_slot task_id probe body w in
  if gpu.can_process (gpu.can_process_task (gpu_manager w) probe)
  then
    exists inside after_body,
      body inside = (fst outcome, after_body)
      /\ active inside = (active w + 1)%Z
      /\ acquisitions task_id (journal inside)
         = S (acquisitions task_id (journal w))
      /\ releases task_id (journal inside) = releases task_id (journal w)
      /\ active (snd outcome) = (active after_body - 1)%Z
      /\ releases task_id (journal (snd outcome))
         = S (releases task_id (journal after_body))
      /\ acquisitions task_id (journal (snd outcome))
         = acquisitions task_id (journal after_body)
  else
    (exists reason,
        fst outcome = Raise (RuntimeError ("無法取得 GPU 槽位: " +:+ reason)))
    /\ gpu_manager (snd outcome) = gpu_manager w
    /\ acquisitions task_id (journal (snd outcome))
       = acquisitions task_id (journal w)
    /\ releases task_id (journal (snd outcome)) = releases task_id (journal w).
Proof.
  intros active outcome. unfold outcome, acquire_gpu_slot.
  destruct (gpu.can_process_task (gpu_manager w) probe) as [n g|reason]; simpl.
  - set (inside := emit _ (set_gpu_manager _ w)).
    destruct (body inside) as [r after_body] eqn:Hbody. simpl.
    exists inside, after_body. unfold active, inside. simpl.
    rewrite !acquisitions_app, !releases_app. simpl.
    unfold acquisitions, releases. simpl.
    destruct (decide (task_id = task_id)); [|done]. simpl.
    repeat split; first [exact Hbody | lia].
  - rewrite acquisitions_app, releases_app.
    unfold acquisitions, releases. simpl.
    repeat split; [by exists reason | lia | lia].
Qed.

(** A body that leaves the counter alone, such as the renderer call of the
    executor, is framed by a block that leaves the counter as it found it,
    also when the body raises. *)
Corollary acquire_gpu_slot_restores_counter
          {A : Type} (task_id : string) (probe : gpu.GPUStatus)
          (body : World -> Result A * World) (w : World) :
  (forall w0, gpu_manager (snd (body w0)) = gpu_manager w0) ->
  gpu_manager (snd (acquire_gpu_slot task_id probe body w)) = gpu_manager w.
Proof.
  intros Hbody. unfold acquire_gpu_slot.
  destruct (gpu.can_process_task (gpu_manager w) probe); simpl; [|done].
  set (inside := emit _ (set_gpu_manager _ w)).
  specialize (Hbody inside). destruct (body inside) as [r w2]. simpl in *.
  rewrite Hbody. unfold inside. simpl. apply slot_give_back_take.
Qed.

(* --------------------------------------------------------------------- *)
(** ** C1: the lease counter under concurrent callers                     *)
(* --------------------------------------------------------------------- *)

(** Had a caller been suspended between its admission check and its
    increment, the lock would not have helped: with capacity 1 and two
    callers that both check before either increments, the counter reaches
    2.  The bound rests on the absence of a suspension point there. *)
Remark interleaved_sections_exceed_capacity_one :
  let p := gpu.run both_check_first (gpu.start 1 (8 # 10) 2) in
  gpu.max_concurrent_tasks (gpu.manager p) = 1%Z
  /\ gpu.active_tasks (gpu.manager p) = 2%Z
  /\ gpu.callers p = [gpu.Holding; gpu.Holding].
Proof. repeat split; reflexivity. Qed.

Lemma count_phase_insert (ph old new : gpu.Phase) (l : list gpu.Phase) (i : nat) :
  l !! i = Some old ->
  Z.of_nat (gpu.count_phase ph (<[i := new]> l))
  = (Z.of_nat (gpu.count_phase ph l)
     - (if decide (old = ph) then 1 else 0)
     + (if decide (new = ph) then 1 else 0))%Z.
Proof.
  unfold gpu.count_phase. revert i.
  induction l as [|x l IH]; intros [|i] H; simplify_eq/=.
  - rewrite !filter_cons.
    repeat case_decide; simpl; lia.
  - rewrite !filter_cons. specialize (IH i H).
    repeat case_decide; simpl in *; lia.
Qed.

Lemma step_counter_is_holders (t : gpu.Turn) (p : gpu.Pool) :
  gpu.active_tasks (gpu.manager p)
  = Z.of_nat (gpu.count_phase gpu.Holding (gpu.callers p)) ->
  gpu.active_tasks (gpu.manager (gpu.step t p))
  = Z.of_nat (gpu.count_phase gpu.Holding (gpu.callers (gpu.step t p))).
Proof.
  intros Hinv. unfold gpu.step.
  destruct (gpu.callers p !! gpu.who t) as [[]|] eqn:E; try exact Hinv.
  - destruct (gpu.can_process _); simpl;
      rewrite (count_phase_insert _ _ _ _ _ E); repeat case_decide; try done; lia.
  - simpl. rewrite (count_phase_insert _ _ _ _ _ E).
    repeat case_decide; try done; lia.
  - simpl. rewrite (count_phase_insert _ _ _ _ _ E).
    repeat case_decide; try done; lia.
Qed.

(** What does hold under every schedule of the three critical sections:
    the counter is the number of callers inside the guarded body, hence
    never negative. *)
Theorem counter_is_holders (c : Z) (threshold : Q) (n : nat)
      (schedule : list gpu.Turn) :
  let p := gpu.run schedule (gpu.start c threshold n) in
  gpu.active_tasks (gpu.manager p)
  = Z.of_nat (gpu.count_phase gpu.Holding (gpu.callers p))
  /\ (0 <= gpu.active_tasks (gpu.manager p))%Z.
Proof.
  intros p.
  assert (H : gpu.active_tasks (gpu.manager p)
              = Z.of_nat (gpu.count_phase gpu.Holding (gpu.callers p))).
  { unfold p, gpu.run.
    induction schedule as [|t schedule IH] using rev_ind.
    - simpl. unfold gpu.count_phase.
      induction n as [|n IHn]; [reflexivity|].
      simpl. rewrite filter_cons. by case_decide.
    - rewrite foldl_app. simpl. by apply step_counter_is_holders. }
  split; [exact H | lia].
Qed.

Lemma step_atomic_bounded (t : gpu.Turn) (p : gpu.Pool) :
  (0 <= gpu.max_concurrent_tasks (gpu.manager p))%Z ->
  gpu.active_tasks (gpu.manager p)
  = Z.of_nat (gpu.count_phase gpu.Holding (gpu.callers p)) ->
  (gpu.active_tasks (gpu.manager p) <= gpu.max_concurrent_tasks (gpu.manager p))%Z ->
  let p' := gpu.step_atomic t p in
  gpu.max_concurrent_tasks (gpu.manager p') = gpu.max_concurrent_tasks (gpu.manager p)
  /\ gpu.active_tasks (gpu.manager p')
     = Z.of_nat (gpu.count_phase gpu.Holding (gpu.callers p'))
  /\ (gpu.active_tasks (gpu.manager p') <= gpu.max_concurrent_tasks (gpu.manager p'))%Z.
Proof.
  intros Hc Hinv Hle. unfold gpu.step_atomic.
  destruct (gpu.callers p !! gpu.who t) as [[]|] eqn:E; try done.
  - destruct (gpu.can_process _) eqn:Hcan; simpl.
    + rewrite (count_phase_insert _ _ _ _ _ E).
      unfold gpu.can_process_task in Hcan.
      destruct (gpu.active_tasks (gpu.manager p)
                >=? gpu.max_concurrent_tasks (gpu.manager p))%Z eqn:Hge;
        [done|].
      rewrite Z.geb_leb, Z.leb_gt in Hge.
      repeat case_decide; try done. lia.
    + rewrite (count_phase_insert _ _ _ _ _ E).
      repeat case_decide; try done. lia.
  - simpl. rewrite (count_phase_insert _ _ _ _ _ E).
    repeat case_decide; try done.
    assert (0 <= Z.of_nat (gpu.count_phase gpu.Holding (gpu.callers p)))%Z by lia.
    lia.
Qed.

Lemma count_phase_lookup (ph : gpu.Phase) (l : list gpu.Phase) (i : nat) :
  l !! i = Some ph -> (1 <= Z.of_nat (gpu.count_phase ph l))%Z.
Proof.
  intros H.
  pose proof (count_phase_insert ph ph (if decide (ph = gpu.Left)
                                        then gpu.Waiting else gpu.Left) l i H)
    as Hc.
  destruct ph; repeat case_decide; try done; lia.
Qed.

(** On a pool where no caller is between check and increment, a turn of
    the event loop is [step_atomic], and no caller is there afterwards. *)
Lemma resume_closed_form (t : gpu.Turn) (p : gpu.Pool) :
  gpu.count_phase gpu.Checked (gpu.callers p) = 0 ->
  gpu.resume t p = gpu.step_atomic t p
  /\ gpu.count_phase gpu.Checked (gpu.callers (gpu.resume t p)) = 0.
Proof.
  intros H0. unfold gpu.resume, gpu.step_atomic, gpu.step. cbv zeta.
  destruct (gpu.callers p !! gpu.who t) as [ph|] eqn:E.
  2: { cbn. rewrite E. by split. }
  assert (gpu.who t < length (gpu.callers p)) as Hlen
      by (apply lookup_lt_is_Some; eauto).
  assert (forall new,
             new <> gpu.Checked -> ph <> gpu.Checked ->
             gpu.count_phase gpu.Checked (<[gpu.who t := new]> (gpu.callers p))
             = 0) as Hins.
  { intros new Hn Hp.
    pose proof (count_phase_insert gpu.Checked ph new _ _ E) as Hc.
    rewrite !decide_False in Hc by done. lia. }
  destruct ph.
  - destruct (gpu.can_process _); cbn [gpu.callers gpu.manager];
      rewrite list_lookup_insert_eq by exact Hlen.
    + rewrite list_insert_insert_eq. split; [done|].
      cbn [gpu.callers]. by apply Hins.
    + split; [done|]. cbn [gpu.callers]. by apply Hins.
  - apply count_phase_lookup in E. lia.
  - cbn [gpu.callers gpu.manager].
    rewrite list_lookup_insert_eq by exact Hlen.
    split; [done|]. cbn [gpu.callers]. by apply Hins.
  - rewrite E. by split.
Qed.

(** The invariant of the event loop. *)
Lemma run_loop_invariant (c : Z) (threshold : Q) (n : nat)
      (schedule : list gpu.Turn) :
  (0 <= c)%Z ->
  let p := gpu.run_loop schedule (gpu.start c threshold n) in
  gpu.max_concurrent_tasks (gpu.manager p) = c
  /\ gpu.active_tasks (gpu.manager p)
     = Z.of_nat (gpu.count_phase gpu.Holding (gpu.callers p))
  /\ (gpu.active_tasks (gpu.manager p) <= c)%Z
  /\ gpu.count_phase gpu.Checked (gpu.callers p) = 0.
Proof.
  intros Hc p. unfold p, gpu.run_loop.
  induction schedule as [|t schedule IH] using rev_ind.
  - simpl. repeat split; [|exact Hc|]; unfold gpu.count_phase;
      (induction n as [|n IHn]; [reflexivity|]);
      simpl; rewrite filter_cons; by case_decide.
  - rewrite foldl_app. simpl.
    set (q := foldl _ _ schedule) in *.
    destruct IH as (Hmax & Hinv & Hle & Hno).
    destruct (resume_closed_form t q Hno) as [Heq Hno'].
    split; [|split; [|split]]; [| | |exact Hno']; rewrite Heq.
    all: assert (0 <= gpu.max_concurrent_tasks (gpu.manager q))%Z as H0 by lia.
    all: assert (gpu.active_tasks (gpu.manager q)
                 <= gpu.max_concurrent_tasks (gpu.manager q))%Z as H1 by lia.
    all: destruct (step_atomic_bounded t q H0 Hinv H1) as (Hmax' & Hinv' & Hle').
    all: cbv zeta in *; try done; lia.
Qed.

(** C1: on the event loop the counter stays within the capacity.  For a
    manager of capacity [c >= 0], any number of callers and any order in
    which the loop resumes them, after every turn [active_tasks] is the
    number of callers inside the guarded body and lies between 0 and [c];
    the same bounds hold after the next critical section of any caller,
    that is also between an admission check and its increment. *)
Theorem C1_event_loop_keeps_capacity (c : Z) (threshold : Q) (n : nat)
        (schedule : list gpu.Turn) :
  (0 <= c)%Z ->
  let p := gpu.run_loop schedule (gpu.start c threshold n) in
  gpu.max_concurrent_tasks (gpu.manager p) = c
  /\ gpu.active_tasks (gpu.manager p)
     = Z.of_nat (gpu.count_phase gpu.Holding (gpu.callers p))
  /\ (0 <= gpu.active_tasks (gpu.manager p) <= c)%Z
  /\ (forall t : gpu.Turn,
        (0 <= gpu.active_tasks (gpu.manager (gpu.step t p)) <= c)%Z).
Proof.
  intros Hc p.
  destruct (run_loop_invariant c threshold n schedule Hc)
    as (Hmax & Hinv & Hle & Hno).
  fold p in Hmax, Hinv, Hle, Hno.
  split; [exact Hmax|]. split; [exact Hinv|]. split; [lia|].
  intros t. unfold gpu.step.
  destruct (gpu.callers p !! gpu.who t) as [[]|] eqn:E; try lia.
  - destruct (gpu.can_process _); cbn [gpu.manager]; lia.
  - apply count_phase_lookup in E. lia.
  - apply count_phase_lookup in E.
    cbn [gpu.manager gpu.slot_give_back gpu.set_active gpu.active_tasks]. lia.
Qed.

Lemma C1_witness_two_arrivals :
  let p := gpu.run_loop two_arrivals (gpu.start 1 (8 # 10) 2) in
  gpu.max_concurrent_tasks (gpu.manager p) = 1%Z
  /\ gpu.active_tasks (gpu.manager p)
     = Z.of_nat (gpu.count_phase gpu.Holding (gpu.callers p))
  /\ (0 <= gpu.active_tasks (gpu.manager p) <= 1)%Z
  /\ (forall t : gpu.Turn,
        (0 <= gpu.active_tasks (gpu.manager (gpu.step t p)) <= 1)%Z).
Proof.
  apply (C1_event_loop_keeps_capacity 1 (8 # 10) 2 two_arrivals). lia.
Defined.

(** Two callers and capacity 1 on the event loop: the first is admitted
    and holds the slot, the second is refused; with the turns of
    [both_check_first] the first has then released and the counter is back
    at 0. *)
Example two_callers_on_the_event_loop :
  let p := gpu.run_loop two_arrivals (gpu.start 1 (8 # 10) 2) in
  let p' := gpu.run_loop both_check_first (gpu.start 1 (8 # 10) 2) in
  (gpu.callers p = [gpu.Holding; gpu.Left]
   /\ gpu.active_tasks (gpu.manager p) = 1%Z)
  /\ (gpu.callers p' = [gpu.Left; gpu.Left]
      /\ gpu.active_tasks (gpu.manager p') = 0%Z).
Proof. repeat split; reflexivity. Qed.

(* --------------------------------------------------------------------- *)
(** ** The executor: what a step leaves alone                             *)
(* --------------------------------------------------------------------- *)

(** Unfolds the elementary writes of the process state. *)
Ltac wsimpl :=
  cbn [gpu_manager monitoring_service tasks_db clock journal
       set_gpu_manager set_monitoring_service set_tasks_db set_clock emit
       mutate_task assign_status monitor processing.update_progress
       fst snd] in *.

Lemma decisive_app (j1 j2 : list Event) :
  decisive (j1 ++ j2) = decisive j1 ++ decisive j2.
Proof. apply List.filter_app. Qed.

Lemma benign_set_status s : benign (tasks.set_status s).
Proof. by intros t. Qed.
Lemma benign_set_updated_at q : benign (tasks.set_updated_at q).
Proof. by intros t. Qed.
Lemma benign_set_progress p : benign (tasks.set_progress p).
Proof. by intros t. Qed.
Lemma benign_set_message m : benign (tasks.set_message m).
Proof. by intros t. Qed.

#[local] Hint Resolve benign_set_status benign_set_updated_at
  benign_set_progress benign_set_message : core.

Lemma core_alter (f : tasks.Task -> tasks.Task) (i j : string)
      (db : gmap string tasks.Task) :
  benign f -> core <$> alter f i db !! j = core <$> db !! j.
Proof.
  intros Hf. destruct (decide (i = j)) as [->|Hne].
  - rewrite lookup_alter_eq. destruct (db !! j); simpl; [|done].
    by rewrite Hf.
  - by rewrite lookup_alter_ne.
Qed.

(** *** The cancel endpoint *)

Lemma undisturbed_refl w : undisturbed w w.
Proof. by constructor. Qed.

Lemma undisturbed_trans w1 w2 w3 :
  undisturbed w1 w2 -> undisturbed w2 w3 -> undisturbed w1 w3.
Proof.
  intros [] []. constructor; intros; congruence.
Qed.

Lemma mutate_task_undisturbed task_id f w :
  benign f -> undisturbed w (mutate_task task_id f w).
Proof.
  intros Hf. constructor; try reflexivity.
  intros j. unfold task_core. wsimpl. by apply core_alter.
Qed.

Lemma emit_routine_undisturbed e w :
  routine e = true -> undisturbed w (emit e w).
Proof.
  intros He. constructor; try reflexivity.
  wsimpl. rewrite decisive_app. unfold decisive at 2. simpl.
  rewrite He. simpl. by rewrite app_nil_r.
Qed.

Lemma set_clock_undisturbed q w : undisturbed w (set_clock q w).
Proof. by constructor. Qed.

Lemma update_progress_undisturbed task_id p m w :
  undisturbed w (processing.update_progress task_id p m w).
Proof.
  unfold processing.update_progress.
  repeat (eapply undisturbed_trans;
          [|apply mutate_task_undisturbed; auto with core]).
  apply undisturbed_refl.
Qed.

Lemma cancel_task_undisturbed task_id w :
  undisturbed w (snd (routes.cancel_task task_id w)).
Proof.
  unfold routes.cancel_task.
  destruct (tasks_db w !! task_id) as [t|]; [|apply undisturbed_refl].
  destruct (tasks.ended (tasks.status t)); [apply undisturbed_refl|].
  cbn [snd]. unfold assign_status.
  repeat (eapply undisturbed_trans;
          [|first [apply mutate_task_undisturbed; auto with core
                  |by apply emit_routine_undisturbed]]).
  apply undisturbed_refl.
Qed.

Lemma serve_all_undisturbed rs w : undisturbed w (routes.serve_all rs w).
Proof.
  revert w. induction rs as [|[task_id] rs IH]; intros w.
  - apply undisturbed_refl.
  - cbn [routes.serve_all foldl]. eapply undisturbed_trans; [|apply IH].
    apply cancel_task_undisturbed.
Qed.

(** A task that has ended is out of reach of the cancel endpoint: this half
    of the terminal-state rule holds. *)
Lemma cancel_task_leaves_ended task_id w j t :
  tasks_db w !! j = Some t -> tasks.ended (tasks.status t) = true ->
  tasks_db (snd (routes.cancel_task task_id w)) !! j = Some t.
Proof.
  intros Hj Hended. unfold routes.cancel_task.
  destruct (tasks_db w !! task_id) as [t'|] eqn:E; [|exact Hj].
  destruct (tasks.ended (tasks.status t')) eqn:E'; [exact Hj|].
  wsimpl. assert (task_id <> j) as Hne by (intros ->; congruence).
  by rewrite !lookup_alter_ne.
Qed.

Lemma serve_all_leaves_ended rs w j t :
  tasks_db w !! j = Some t -> tasks.ended (tasks.status t) = true ->
  tasks_db (routes.serve_all rs w) !! j = Some t.
Proof.
  revert w. induction rs as [|[task_id] rs IH]; intros w Hj Hended; [exact Hj|].
  cbn [routes.serve_all foldl]. apply IH; [|exact Hended].
  by apply cancel_task_leaves_ended.
Qed.

Lemma render_steps_undisturbed task_id steps w :
  undisturbed w (foldl (processing.render_step task_id) w steps).
Proof.
  revert w. induction steps as [|s steps IH]; intros w.
  - apply undisturbed_refl.
  - cbn [foldl]. eapply undisturbed_trans; [|apply IH].
    destruct s as [p m|seconds rs]; cbn [processing.render_step].
    + apply update_progress_undisturbed.
    + eapply undisturbed_trans; [apply set_clock_undisturbed|].
      apply serve_all_undisturbed.
Qed.

Lemma gpu_work_undisturbed task_id a w :
  undisturbed w (snd (processing.gpu_work task_id a w)).
Proof.
  unfold processing.gpu_work, processing.process_image. cbn [snd].
  eapply undisturbed_trans; [|apply render_steps_undisturbed].
  eapply undisturbed_trans; [|apply update_progress_undisturbed].
  apply mutate_task_undisturbed; auto with core.
Qed.

Lemma gpu_work_result task_id a w :
  fst (processing.gpu_work task_id a w) = Ok (processing.render_success a).
Proof. reflexivity. Qed.

(** *** The admission check *)

Lemma rejection_is_retryable m p reason :
  gpu.can_process_task m p = gpu.CannotProcess reason ->
  classifier.should_retry_error
    (RuntimeError ("無法取得 GPU 槽位: " +:+ reason)) = true.
Proof.
  unfold gpu.can_process_task.
  destruct (gpu.active_tasks m >=? gpu.max_concurrent_tasks m)%Z;
    [by intros [= <-]|].
  destruct (gpu.check_gpu_memory m p) as [|st [|]]; by intros [= <-].
Qed.

(** The guarded block of the executor: it gives the counter back as it
    found it and adds routine journal entries only. *)
Lemma guarded_work_undisturbed task_id a w :
  undisturbed w (snd (acquire_gpu_slot task_id (processing.probe a)
                                       (processing.gpu_work task_id a) w)).
Proof.
  constructor.
  - apply acquire_gpu_slot_restores_counter.
    intros w0. apply (und_gpu _ _ (gpu_work_undisturbed task_id a w0)).
  - unfold acquire_gpu_slot.
    destruct (gpu.can_process_task _ _); [|reflexivity].
    set (inside := emit _ (set_gpu_manager _ w)).
    pose proof (und_mon _ _ (gpu_work_undisturbed task_id a inside)) as H.
    destruct (processing.gpu_work task_id a inside) as [r w2]. by simpl in *.
  - intros j. unfold acquire_gpu_slot.
    destruct (gpu.can_process_task _ _); [|reflexivity].
    set (inside := emit _ (set_gpu_manager _ w)).
    pose proof (und_core _ _ (gpu_work_undisturbed task_id a inside) j) as H.
    destruct (processing.gpu_work task_id a inside) as [r w2]. by simpl in *.
  - unfold acquire_gpu_slot.
    destruct (gpu.can_process_task _ _).
    + set (inside := emit _ (set_gpu_manager _ w)).
      pose proof (und_journal _ _ (gpu_work_undisturbed task_id a inside)) as H.
      destruct (processing.gpu_work task_id a inside) as [r w2].
      wsimpl. rewrite decisive_app, H. unfold inside. wsimpl.
      rewrite decisive_app. simpl. by rewrite !app_nil_r.
    + wsimpl. rewrite decisive_app. simpl. by rewrite app_nil_r.
Qed.

(** The outcome of the guarded block for a doomed attempt. *)
Lemma guarded_work_doomed task_id a w :
  negb (gpu.can_process
          (gpu.can_process_task (gpu_manager w) (processing.probe a)))
  || negb (processing.render_success a) = true ->
  let r := fst (acquire_gpu_slot task_id (processing.probe a)
                                 (processing.gpu_work task_id a) w) in
  (exists e, r = Raise e /\ classifier.should_retry_error e = true)
  \/ r = Ok false.
Proof.
  intros Hdoom. unfold acquire_gpu_slot.
  destruct (gpu.can_process_task (gpu_manager w) (processing.probe a))
    as [n g|reason] eqn:Hadm.
  - right. cbn in Hdoom. apply negb_true_iff in Hdoom.
    set (inside := emit _ (set_gpu_manager _ w)).
    pose proof (gpu_work_result task_id a inside) as H.
    destruct (processing.gpu_work task_id a inside) as [r w2].
    simpl in *. by rewrite H, Hdoom.
  - left. eexists. split; [reflexivity|].
    by apply (rejection_is_retryable _ _ _ Hadm).
Qed.

(** The outcome of the guarded block for a lucky attempt. *)
Lemma guarded_work_lucky task_id a w :
  gpu.can_process (gpu.can_process_task (gpu_manager w) (processing.probe a))
  = true ->
  fst (acquire_gpu_slot task_id (processing.probe a)
                        (processing.gpu_work task_id a) w)
  = Ok (processing.render_success a).
Proof.
  intros Hadm. unfold acquire_gpu_slot.
  destruct (gpu.can_process_task (gpu_manager w) (processing.probe a));
    [|done].
  set (inside := emit _ (set_gpu_manager _ w)).
  pose proof (gpu_work_result task_id a inside) as H.
  by destruct (processing.gpu_work task_id a inside) as [r w2].
Qed.

Lemma assign_status_undisturbed task_id s w :
  routine (EvStatus task_id s) = true ->
  undisturbed w (assign_status task_id s w).
Proof.
  intros Hs. unfold assign_status.
  eapply undisturbed_trans; [|by apply emit_routine_undisturbed].
  apply mutate_task_undisturbed; auto with core.
Qed.

(** Peels the writes of a nested state off one by one. *)
Ltac und_chain :=
  repeat first
    [ apply undisturbed_refl
    | eapply undisturbed_trans;
      [| first [ apply mutate_task_undisturbed; solve [auto with core]
               | apply update_progress_undisturbed
               | apply assign_status_undisturbed; reflexivity
               | apply emit_routine_undisturbed; reflexivity
               | apply set_clock_undisturbed
               | apply serve_all_undisturbed
               | apply render_steps_undisturbed
               | apply guarded_work_undisturbed ] ] ].

(** *** The [try] block *)

Lemma doomed_parts m a :
  doomed m a = true ->
  processing.image_valid a = true
  /\ negb (gpu.can_process (gpu.can_process_task m (processing.probe a)))
     || negb (processing.render_success a) = true.
Proof. unfold doomed. by intros [? ?]%andb_prop. Qed.

(** The outcome of the guarded block for a doomed attempt, in full: the
    RuntimeError that carries the reason of the refusal, or the renderer's
    [False]. *)
Lemma guarded_work_doomed_outcome task_id a w :
  negb (gpu.can_process
          (gpu.can_process_task (gpu_manager w) (processing.probe a)))
  || negb (processing.render_success a) = true ->
  fst (acquire_gpu_slot task_id (processing.probe a)
                        (processing.gpu_work task_id a) w)
  = match gpu.can_process_task (gpu_manager w) (processing.probe a) with
    | gpu.CannotProcess reason =>
        Raise (RuntimeError ("無法取得 GPU 槽位: " +:+ reason))
    | gpu.CanProcess _ _ => Ok false
    end.
Proof.
  intros Hdoom. unfold acquire_gpu_slot.
  destruct (gpu.can_process_task (gpu_manager w) (processing.probe a))
    as [n g|reason] eqn:Hadm; [|reflexivity].
  cbn in Hdoom. apply negb_true_iff in Hdoom.
  set (inside := emit _ (set_gpu_manager _ w)).
  pose proof (gpu_work_result task_id a inside) as H.
  destruct (processing.gpu_work task_id a inside) as [r w2].
  simpl in *. by rewrite H, Hdoom.
Qed.

(** A doomed attempt leaves the [try] block with a retryable error, and the
    block has changed nothing that counts.  The error is [error_of]: the
    one that [acquire_gpu_slot] raises on a refusal, or the executor's own
    on a failure of the renderer. *)
Lemma try_block_doomed task_id file_path parameters t0 a w :
  doomed (gpu_manager w) a = true ->
  exists e,
    fst (processing.try_block task_id file_path parameters t0 a w) = Raise e
    /\ classifier.should_retry_error e = true
    /\ undisturbed w
         (snd (processing.try_block task_id file_path parameters t0 a w))
    /\ e = error_of (gpu_manager w) a.
Proof.
  intros [Hvalid Hdoom]%doomed_parts. unfold processing.try_block.
  rewrite Hvalid. cbn [negb]. cbv zeta.
  set (wB := processing.update_progress task_id 10 _ _).
  assert (undisturbed w wB) as HB by (unfold wB; und_chain).
  unfold error_of.
  rewrite <- (und_gpu _ _ HB) in Hdoom. rewrite <- (und_gpu _ _ HB).
  pose proof (guarded_work_doomed task_id a wB Hdoom) as Hr.
  pose proof (guarded_work_doomed_outcome task_id a wB Hdoom) as Ho.
  pose proof (guarded_work_undisturbed task_id a wB) as Hw.
  destruct (acquire_gpu_slot task_id (processing.probe a)
                             (processing.gpu_work task_id a) wB) as [r w1].
  cbn [fst snd] in *.
  assert (undisturbed w w1) as H1 by (eapply undisturbed_trans; eauto).
  destruct (gpu.can_process_task (gpu_manager wB) (processing.probe a))
    as [n g|reason]; subst r.
  - eexists. cbn [fst snd].
    split; [reflexivity | split; [reflexivity | split; [assumption|reflexivity]]].
  - destruct Hr as [(e & [= <-] & He)|Hr]; [|discriminate Hr].
    eexists. cbn [fst snd].
    split; [reflexivity | split; [exact He | split; [assumption|reflexivity]]].
Qed.

(** [doomed] is exact: the attempts that leave the [try] block with a
    retryable error are the doomed ones. *)
Theorem doomed_iff_retryable_error task_id file_path parameters t0 a w :
  doomed (gpu_manager w) a = true
  <-> exists e,
      fst (processing.try_block task_id file_path parameters t0 a w) = Raise e
      /\ classifier.should_retry_error e = true.
Proof.
  split.
  { intros Hdoom.
    destruct (try_block_doomed task_id file_path parameters t0 a w Hdoom)
      as (e & He & Hretry & _).
    by exists e. }
  intros (e & He & Hretry). unfold doomed.
  unfold processing.try_block in He.
  destruct (processing.image_valid a); cbn [negb andb] in *.
  2:{ cbn in He. injection He as <-. discriminate Hretry. }
  cbv zeta in He.
  set (wB := processing.update_progress task_id 10 _ _) in He.
  assert (undisturbed w wB) as HB by (unfold wB; und_chain).
  rewrite <- (und_gpu _ _ HB).
  destruct (gpu.can_process
              (gpu.can_process_task (gpu_manager wB) (processing.probe a)))
    eqn:Hadm; [|reflexivity].
  pose proof (guarded_work_lucky task_id a wB Hadm) as Hr.
  destruct (acquire_gpu_slot task_id (processing.probe a)
                             (processing.gpu_work task_id a) wB) as [r w1].
  cbn [fst] in Hr. subst r.
  destruct (processing.render_success a); [|reflexivity].
  discriminate He.
Qed.

(** *** The counters *)

Lemma counts_of_call (c : monitoring.Call) (s : monitoring.MonitoringService) :
  counts_of (monitoring.call c s)
  = let '(done, failed, retried) := counts_of s in
    match c with
    | monitoring.RecordError _ _ task_id _ _ =>
        (done, (failed + if opt_str_truthy task_id then 1 else 0)%Z, retried)
    | monitoring.RecordTaskCompleted _ _ _ => ((done + 1)%Z, failed, retried)
    | monitoring.RecordTaskRetry _ _ _ => (done, failed, (retried + 1)%Z)
    | _ => (done, failed, retried)
    end.
Proof.
  unfold counts_of.
  destruct c; cbn [monitoring.call].
  - by rewrite record_metric_task_stats.
  - unfold monitoring.record_error. cbv zeta.
    destruct (opt_str_truthy task_id); cbn; f_equal; f_equal; lia.
  - reflexivity.
  - unfold monitoring.stop_timer.
    destruct (monitoring.performance_timers _ !! name); cbv zeta; cbn [snd];
      [|done].
    by rewrite record_metric_task_stats.
  - unfold monitoring.record_task_completed. cbv zeta.
    rewrite !record_metric_task_stats.
    cbn [monitoring.processing_times monitoring.set_processing_times].
    by destruct (deque_append 100 processing_time _).
  - unfold monitoring.record_task_retry. cbv zeta.
    by rewrite record_metric_task_stats.
  - unfold monitoring.clear_old_data.
    by destruct (datetime.ago now days 0).
Qed.

Lemma counts_monitor (c : monitoring.Call) (w : World) :
  counts (monitor c w)
  = let '(done, failed, retried) := counts w in
    match c with
    | monitoring.RecordError _ _ task_id _ _ =>
        (done, (failed + if opt_str_truthy task_id then 1 else 0)%Z, retried)
    | monitoring.RecordTaskCompleted _ _ _ => ((done + 1)%Z, failed, retried)
    | monitoring.RecordTaskRetry _ _ _ => (done, failed, (retried + 1)%Z)
    | _ => (done, failed, retried)
    end.
Proof. apply counts_of_call. Qed.

Lemma counts_undisturbed w w' : undisturbed w w' -> counts w' = counts w.
Proof. intros []. unfold counts. congruence. Qed.

Lemma monitor_exit_frame w :
  gpu_manager (processing.monitor_exit w) = gpu_manager w
  /\ tasks_db (processing.monitor_exit w) = tasks_db w
  /\ journal (processing.monitor_exit w) = journal w
  /\ counts (processing.monitor_exit w) = counts w.
Proof.
  unfold processing.monitor_exit. cbv zeta. repeat split.
  rewrite !counts_monitor. by destruct (counts w) as [[? ?] ?].
Qed.

(** *** The [except] block *)

(** What a task dictionary keeps through the blanking. *)
Lemma core_fields t t' :
  core t' = core t ->
  tasks.retry_count t' = tasks.retry_count t
  /\ tasks.max_retries t' = tasks.max_retries t
  /\ tasks.retry_history t' = tasks.retry_history t
  /\ tasks.error_message t' = tasks.error_message t
  /\ tasks.webhook_url t' = tasks.webhook_url t.
Proof.
  intros H.
  pose proof (f_equal tasks.retry_count H).
  pose proof (f_equal tasks.max_retries H).
  pose proof (f_equal tasks.retry_history H).
  pose proof (f_equal tasks.error_message H).
  pose proof (f_equal tasks.webhook_url H).
  done.
Qed.

Lemma task_core_lookup task_id w w' t :
  task_core task_id w' = task_core task_id w ->
  tasks_db w !! task_id = Some t ->
  exists t', tasks_db w' !! task_id = Some t' /\ core t' = core t.
Proof.
  unfold task_core. intros H Hw. rewrite Hw in H.
  destruct (tasks_db w' !! task_id) as [t'|]; [|done].
  exists t'. split; [done|]. simpl in H. congruence.
Qed.

(** The retry branch. *)
Lemma except_block_retry task_id file_path parameters a e w t :
  tasks_db w !! task_id = Some t ->
  (tasks.get_retry_count t < tasks.get_max_retries t)%Z ->
  classifier.should_retry_error e = true ->
  exists w1 t1,
    processing.except_block task_id file_path parameters a e w = (true, w1)
    /\ gpu_manager w1 = gpu_manager w
    /\ tasks_db w1 !! task_id = Some t1
    /\ tasks.retry_count t1 = Some (tasks.get_retry_count t + 1)%Z
    /\ tasks.max_retries t1 = tasks.max_retries t
    /\ history_view t1
       = history_view t ++ [((tasks.get_retry_count t + 1)%Z, exc_str e)]
    /\ counts w1
       = (let '(done, failed, retried) := counts w in
          (done, (failed + if str_truthy task_id then 1 else 0)%Z,
           (retried + 1)%Z))
    /\ decisive (journal w1)
       = decisive (journal w)
         ++ [EvTaskFailed task_id e; EvStatus task_id tasks.PENDING;
             EvSleep (processing.retry_delay (tasks.get_retry_count t + 1))].
Proof.
  intros Ht Hlt He. unfold processing.except_block. cbv zeta.
  cbn [tasks_db monitor emit set_monitoring_service].
  rewrite Ht. apply Z.ltb_lt in Hlt. rewrite Hlt.
  unfold processing.should_retry_error. rewrite He. cbn [andb].
  set (pre := set_clock _ _).
  pose proof (serve_all_undisturbed (processing.sleep_requests a) pre)
    as [Hg Hm Hc Hj].
  pose proof (counts_undisturbed _ _
                (serve_all_undisturbed (processing.sleep_requests a) pre))
    as Hn.
  set (w1 := routes.serve_all _ pre) in *.
  assert (Hpre : tasks_db pre !! task_id
                 = Some (tasks.set_retry_history
                           (tasks.get_retry_history t
                            ++ [tasks.mkRetry (tasks.get_retry_count t + 1)
                                              (exc_str e) (clock w)])
                           (tasks.set_updated_at (clock w)
                              (tasks.set_message
                                 ("處理失敗，準備重試 ("
                                  +:+ monitoring.str_of_int
                                        (tasks.get_retry_count t + 1)
                                  +:+ "/"
                                  +:+ monitoring.str_of_int
                                        (tasks.get_max_retries t) +:+ ")")
                                 (tasks.set_status tasks.PENDING
                                    (tasks.set_retry_count
                                       (tasks.get_retry_count t + 1) t)))))).
  { unfold pre. wsimpl. rewrite !lookup_alter_eq, Ht. reflexivity. }
  destruct (task_core_lookup task_id pre w1 _ (Hc task_id) Hpre)
    as (t1 & Ht1 & Hcore).
  apply core_fields in Hcore as (Hrc & Hmr & Hrh & _ & _).
  exists w1, t1. split; [reflexivity|].
  split; [by rewrite Hg|].
  split; [exact Ht1|].
  split; [exact Hrc|].
  split; [exact Hmr|].
  split.
  { unfold history_view, tasks.get_retry_history at 1. rewrite Hrh.
    cbn. by rewrite map_app. }
  split.
  { rewrite Hn. unfold pre, counts. wsimpl. rewrite !counts_of_call.
    by destruct (counts_of (monitoring_service w)) as [[? ?] ?]. }
  rewrite Hj. unfold pre. wsimpl.
  rewrite !decisive_app. cbn. by rewrite <- !app_assoc.
Qed.

(** The final branch: the retries are used up, or the error is fatal. *)
Lemma except_block_final task_id file_path parameters a e w t :
  tasks_db w !! task_id = Some t ->
  (tasks.get_max_retries t <= tasks.get_retry_count t)%Z
  \/ classifier.should_retry_error e = false ->
  exists w1 t1,
    processing.except_block task_id file_path parameters a e w = (false, w1)
    /\ gpu_manager w1 = gpu_manager w
    /\ tasks_db w1 !! task_id = Some t1
    /\ tasks.status t1 = tasks.FAILED
    /\ tasks.error_message t1 = Some (exc_str e)
    /\ tasks.retry_count t1 = tasks.retry_count t
    /\ tasks.max_retries t1 = tasks.max_retries t
    /\ tasks.retry_history t1 = tasks.retry_history t
    /\ counts w1
       = (let '(done, failed, retried) := counts w in
          (done, (failed + if str_truthy task_id then 1 else 0)%Z, retried))
    /\ decisive (journal w1)
       = decisive (journal w)
         ++ [EvTaskFailed task_id e; EvStatus task_id tasks.FAILED;
             EvCleanupFiles task_id].
Proof.
  intros Ht Hstop. unfold processing.except_block. cbv zeta.
  cbn [tasks_db monitor emit set_monitoring_service].
  rewrite Ht.
  assert ((tasks.get_retry_count t <? tasks.get_max_retries t)%Z
          && processing.should_retry_error e = false) as ->.
  { apply andb_false_iff. destruct Hstop as [Hge|He]; [left|by right].
    by apply Z.ltb_ge. }
  eexists. eexists. split; [reflexivity|].
  split; [reflexivity|].
  split; [wsimpl; rewrite !lookup_alter_eq, Ht; reflexivity|].
  repeat (split; [reflexivity|]).
  split.
  - unfold counts. wsimpl. rewrite !counts_of_call.
    by destruct (counts_of (monitoring_service w)) as [[? ?] ?].
  - wsimpl. rewrite !decisive_app. cbn. by rewrite <- !app_assoc.
Qed.

(** *** One invocation of the executor *)

(** The state in which the [try] block starts. *)
Lemma attempt_entry task_id w :
  let w0 := monitor (monitoring.RecordMetric (clock w) "task_started_count" 1
                                             [("task_id", task_id)])
              (emit (EvStart task_id)
                 (monitor (monitoring.StartTimer
                             (clock w) "image_processing_operation") w)) in
  gpu_manager w0 = gpu_manager w
  /\ tasks_db w0 = tasks_db w
  /\ counts w0 = counts w
  /\ decisive (journal w0) = decisive (journal w) ++ [EvStart task_id].
Proof.
  cbv zeta. split; [reflexivity|]. split; [reflexivity|]. split.
  - rewrite counts_monitor. unfold counts. wsimpl.
    by destruct (counts_of _) as [[? ?] ?].
  - wsimpl. by rewrite decisive_app.
Qed.

Lemma core_getters t t' :
  core t' = core t ->
  tasks.get_retry_count t' = tasks.get_retry_count t
  /\ tasks.get_max_retries t' = tasks.get_max_retries t
  /\ history_view t' = history_view t.
Proof.
  intros (Hrc & Hmr & Hrh & _)%core_fields.
  unfold tasks.get_retry_count, tasks.get_max_retries, history_view,
    tasks.get_retry_history.
  by rewrite Hrc, Hmr, Hrh.
Qed.

(** A doomed attempt with retries left: the executor sleeps and calls
    itself on the rest of the script. *)
Lemma attempt_retries_pinned task_id file_path parameters a script w t :
  tasks_db w !! task_id = Some t ->
  (tasks.get_retry_count t < tasks.get_max_retries t)%Z ->
  doomed (gpu_manager w) a = true ->
  exists e w1 t1,
    e = error_of (gpu_manager w) a
    /\ classifier.should_retry_error e = true
    /\ processing.process_image_task task_id file_path parameters
                                     (a :: script) w
       = processing.monitor_exit
           <$> processing.process_image_task task_id file_path parameters
                                             script w1
    /\ gpu_manager w1 = gpu_manager w
    /\ tasks_db w1 !! task_id = Some t1
    /\ tasks.get_retry_count t1 = (tasks.get_retry_count t + 1)%Z
    /\ tasks.get_max_retries t1 = tasks.get_max_retries t
    /\ history_view t1
       = history_view t ++ [((tasks.get_retry_count t + 1)%Z, exc_str e)]
    /\ counts w1
       = (let '(done, failed, retried) := counts w in
          (done, (failed + if str_truthy task_id then 1 else 0)%Z,
           (retried + 1)%Z))
    /\ decisive (journal w1)
       = decisive (journal w)
         ++ [EvStart task_id; EvTaskFailed task_id e;
             EvStatus task_id tasks.PENDING;
             EvSleep (processing.retry_delay (tasks.get_retry_count t + 1))].
Proof.
  intros Ht Hlt Hdoom. cbn [processing.process_image_task].
  destruct (attempt_entry task_id w) as (Hg0 & Hdb0 & Hn0 & Hj0).
  set (w0 := monitor (monitoring.RecordMetric _ _ _ _) _) in *.
  cbn [tasks_db emit monitor set_monitoring_service]. rewrite Ht.
  rewrite <- Hg0 in Hdoom.
  destruct (try_block_doomed task_id file_path parameters (clock w) a w0 Hdoom)
    as (e & Hr & He & Hund & Hpin).
  change (clock (emit _ _)) with (clock w).
  destruct (processing.try_block task_id file_path parameters (clock w) a w0)
    as [r wT].
  cbn [fst snd] in *. subst r.
  assert (tasks_db w0 !! task_id = Some t) as Ht0 by (by rewrite Hdb0).
  destruct (task_core_lookup task_id w0 wT t (und_core _ _ Hund task_id) Ht0)
    as (tT & HtT & HcT).
  apply core_getters in HcT as (Hrc & Hmr & Hhv).
  destruct (except_block_retry task_id file_path parameters a e wT tT HtT)
    as (w1 & t1 & Hex & Hg1 & Ht1 & Hrc1 & Hmr1 & Hhv1 & Hn1 & Hj1);
    [lia | exact He |].
  rewrite Hex.
  exists e, w1, t1. split; [by rewrite Hpin, Hg0|]. split; [exact He|].
  split.
  { by destruct (processing.process_image_task _ _ _ script w1). }
  split; [by rewrite Hg1, (und_gpu _ _ Hund)|].
  split; [exact Ht1|].
  split; [unfold tasks.get_retry_count at 1; rewrite Hrc1; simpl; lia|].
  split; [unfold tasks.get_max_retries at 1; by rewrite Hmr1|].
  split; [by rewrite Hhv1, Hhv, Hrc|].
  split; [by rewrite Hn1, (counts_undisturbed _ _ Hund), Hn0|].
  rewrite Hj1, (und_journal _ _ Hund), Hj0, Hrc.
  by rewrite <- app_assoc.
Qed.

Lemma attempt_retries task_id file_path parameters a script w t :
  tasks_db w !! task_id = Some t ->
  (tasks.get_retry_count t < tasks.get_max_retries t)%Z ->
  doomed (gpu_manager w) a = true ->
  exists e w1 t1,
    classifier.should_retry_error e = true
    /\ processing.process_image_task task_id file_path parameters
                                     (a :: script) w
       = processing.monitor_exit
           <$> processing.process_image_task task_id file_path parameters
                                             script w1
    /\ gpu_manager w1 = gpu_manager w
    /\ tasks_db w1 !! task_id = Some t1
    /\ tasks.get_retry_count t1 = (tasks.get_retry_count t + 1)%Z
    /\ tasks.get_max_retries t1 = tasks.get_max_retries t
    /\ history_view t1
       = history_view t ++ [((tasks.get_retry_count t + 1)%Z, exc_str e)]
    /\ counts w1
       = (let '(done, failed, retried) := counts w in
          (done, (failed + if str_truthy task_id then 1 else 0)%Z,
           (retried + 1)%Z))
    /\ decisive (journal w1)
       = decisive (journal w)
         ++ [EvStart task_id; EvTaskFailed task_id e;
             EvStatus task_id tasks.PENDING;
             EvSleep (processing.retry_delay (tasks.get_retry_count t + 1))].
Proof.
  intros Ht Hlt Hdoom.
  destruct (attempt_retries_pinned task_id file_path parameters a script w t
                                   Ht Hlt Hdoom)
    as (e & w1 & t1 & _ & H).
  by exists e, w1, t1.
Qed.

(** A doomed attempt without retries left: the task fails for good and the
    executor returns. *)
Lemma attempt_fails_pinned task_id file_path parameters a script w t :
  tasks_db w !! task_id = Some t ->
  (tasks.get_max_retries t <= tasks.get_retry_count t)%Z ->
  doomed (gpu_manager w) a = true ->
  exists e w1 t1,
    e = error_of (gpu_manager w) a
    /\ classifier.should_retry_error e = true
    /\ processing.process_image_task task_id file_path parameters
                                     (a :: script) w
       = Some (processing.monitor_exit w1)
    /\ gpu_manager w1 = gpu_manager w
    /\ tasks_db w1 !! task_id = Some t1
    /\ tasks.status t1 = tasks.FAILED
    /\ tasks.error_message t1 = Some (exc_str e)
    /\ tasks.get_retry_count t1 = tasks.get_retry_count t
    /\ tasks.get_max_retries t1 = tasks.get_max_retries t
    /\ history_view t1 = history_view t
    /\ counts w1
       = (let '(done, failed, retried) := counts w in
          (done, (failed + if str_truthy task_id then 1 else 0)%Z, retried))
    /\ decisive (journal w1)
       = decisive (journal w)
         ++ [EvStart task_id; EvTaskFailed task_id e;
             EvStatus task_id tasks.FAILED; EvCleanupFiles task_id].
Proof.
  intros Ht Hge Hdoom. cbn [processing.process_image_task].
  destruct (attempt_entry task_id w) as (Hg0 & Hdb0 & Hn0 & Hj0).
  set (w0 := monitor (monitoring.RecordMetric _ _ _ _) _) in *.
  cbn [tasks_db emit monitor set_monitoring_service]. rewrite Ht.
  rewrite <- Hg0 in Hdoom.
  destruct (try_block_doomed task_id file_path parameters (clock w) a w0 Hdoom)
    as (e & Hr & He & Hund & Hpin).
  change (clock (emit _ _)) with (clock w).
  destruct (processing.try_block task_id file_path parameters (clock w) a w0)
    as [r wT].
  cbn [fst snd] in *. subst r.
  assert (tasks_db w0 !! task_id = Some t) as Ht0 by (by rewrite Hdb0).
  destruct (task_core_lookup task_id w0 wT t (und_core _ _ Hund task_id) Ht0)
    as (tT & HtT & HcT).
  pose proof (core_fields _ _ HcT) as (Frc & Fmr & Frh & _).
  apply core_getters in HcT as (Hrc & Hmr & Hhv).
  destruct (except_block_final task_id file_path parameters a e wT tT HtT)
    as (w1 & t1 & Hex & Hg1 & Ht1 & Hst & Hem & Hrc1 & Hmr1 & Hrh1 & Hn1 & Hj1);
    [left; lia |].
  rewrite Hex.
  exists e, w1, t1. split; [by rewrite Hpin, Hg0|]. split; [exact He|].
  split; [reflexivity|].
  split; [by rewrite Hg1, (und_gpu _ _ Hund)|].
  split; [exact Ht1|].
  split; [exact Hst|].
  split; [exact Hem|].
  split; [unfold tasks.get_retry_count; by rewrite Hrc1, Frc|].
  split; [unfold tasks.get_max_retries; by rewrite Hmr1, Fmr|].
  split; [unfold history_view, tasks.get_retry_history; by rewrite Hrh1, Frh|].
  split; [by rewrite Hn1, (counts_undisturbed _ _ Hund), Hn0|].
  rewrite Hj1, (und_journal _ _ Hund), Hj0.
  by rewrite <- app_assoc.
Qed.

Lemma attempt_fails task_id file_path parameters a script w t :
  tasks_db w !! task_id = Some t ->
  (tasks.get_max_retries t <= tasks.get_retry_count t)%Z ->
  doomed (gpu_manager w) a = true ->
  exists e w1 t1,
    classifier.should_retry_error e = true
    /\ processing.process_image_task task_id file_path parameters
                                     (a :: script) w
       = Some (processing.monitor_exit w1)
    /\ gpu_manager w1 = gpu_manager w
    /\ tasks_db w1 !! task_id = Some t1
    /\ tasks.status t1 = tasks.FAILED
    /\ tasks.error_message t1 = Some (exc_str e)
    /\ tasks.get_retry_count t1 = tasks.get_retry_count t
    /\ tasks.get_max_retries t1 = tasks.get_max_retries t
    /\ history_view t1 = history_view t
    /\ counts w1
       = (let '(done, failed, retried) := counts w in
          (done, (failed + if str_truthy task_id then 1 else 0)%Z, retried))
    /\ decisive (journal w1)
       = decisive (journal w)
         ++ [EvStart task_id; EvTaskFailed task_id e;
             EvStatus task_id tasks.FAILED; EvCleanupFiles task_id].
Proof.
  intros Ht Hge Hdoom.
  destruct (attempt_fails_pinned task_id file_path parameters a script w t
                                 Ht Hge Hdoom)
    as (e & w1 & t1 & _ & H).
  by exists e, w1, t1.
Qed.

(** *** A successful attempt *)

Lemma lucky_parts m a :
  lucky m a = true ->
  processing.image_valid a = true
  /\ gpu.can_process (gpu.can_process_task m (processing.probe a)) = true
  /\ processing.render_success a = true.
Proof. unfold lucky. by intros [[? ?]%andb_prop ?]%andb_prop. Qed.

(** The webhook call comes after the task is completed: whatever is served
    meanwhile finds a task that has ended. *)
Lemma webhook_step_frame task_id rs w t :
  tasks_db w !! task_id = Some t ->
  tasks.ended (tasks.status t) = true ->
  let w1 := match tasks_db w !! task_id with
            | Some task =>
                if opt_str_truthy (tasks.webhook_url task)
                then routes.serve_all rs (emit (EvWebhook task_id) w)
                else w
            | None => w
            end in
  gpu_manager w1 = gpu_manager w
  /\ tasks_db w1 !! task_id = Some t
  /\ counts w1 = counts w
  /\ decisive (journal w1) = decisive (journal w).
Proof.
  intros Ht Hended. cbv zeta. rewrite Ht.
  destruct (opt_str_truthy (tasks.webhook_url t)); [|done].
  pose proof (serve_all_undisturbed rs (emit (EvWebhook task_id) w)) as Hund.
  split; [by rewrite (und_gpu _ _ Hund)|].
  split; [by apply serve_all_leaves_ended|].
  split; [by rewrite (counts_undisturbed _ _ Hund)|].
  rewrite (und_journal _ _ Hund). wsimpl. rewrite decisive_app. cbn.
  by rewrite app_nil_r.
Qed.

Lemma try_block_lucky task_id file_path parameters t0 a w t :
  tasks_db w !! task_id = Some t ->
  lucky (gpu_manager w) a = true ->
  exists w1 t1,
    processing.try_block task_id file_path parameters t0 a w = (Ok tt, w1)
    /\ gpu_manager w1 = gpu_manager w
    /\ tasks_db w1 !! task_id = Some t1
    /\ tasks.status t1 = tasks.COMPLETED
    /\ tasks.progress t1 = 100%Z
    /\ tasks.get_retry_count t1 = tasks.get_retry_count t
    /\ tasks.get_max_retries t1 = tasks.get_max_retries t
    /\ history_view t1 = history_view t
    /\ counts w1
       = (let '(done, failed, retried) := counts w in
          ((done + 1)%Z, failed, retried))
    /\ decisive (journal w1)
       = decisive (journal w) ++ [EvStatus task_id tasks.COMPLETED].
Proof.
  intros Ht (Hvalid & Hadm & Hok)%lucky_parts. unfold processing.try_block.
  rewrite Hvalid. cbn [negb]. cbv zeta.
  set (wB := processing.update_progress task_id 10 _ _).
  assert (undisturbed w wB) as HB by (unfold wB; und_chain).
  rewrite <- (und_gpu _ _ HB) in Hadm.
  pose proof (guarded_work_lucky task_id a wB Hadm) as Hr.
  pose proof (guarded_work_undisturbed task_id a wB) as Hw.
  destruct (acquire_gpu_slot task_id (processing.probe a)
                             (processing.gpu_work task_id a) wB) as [r wC].
  cbn [fst snd] in *. subst r. rewrite Hok.
  assert (undisturbed w wC) as HC by (eapply undisturbed_trans; eauto).
  destruct (task_core_lookup task_id w wC t (und_core _ _ HC task_id) Ht)
    as (tC & HtC & HcC).
  apply core_getters in HcC as (Hrc & Hmr & Hhv).
  set (wD := monitor (monitoring.RecordTaskCompleted _ _ _) _).
  set (tD0 := tasks.set_updated_at (clock wC)
                (tasks.set_result_path
                   (processing.get_output_path task_id
                      (default "mp4" (parameters !! "output_format")))
                   (tasks.set_message "處理完成"
                      (tasks.set_progress 100
                         (tasks.set_status tasks.COMPLETED tC))))).
  assert (exists tD, tasks_db wD !! task_id = Some tD
                     /\ tasks.status tD = tasks.COMPLETED
                     /\ tasks.progress tD = 100%Z
                     /\ tasks.get_retry_count tD = tasks.get_retry_count tC
                     /\ tasks.get_max_retries tD = tasks.get_max_retries tC
                     /\ history_view tD = history_view tC) as (tD & HtD & HD).
  { unfold wD. destruct (processing.output_size a) as [size|].
    - exists (tasks.set_metadata (size, (clock wC - t0)%Q) tD0).
      split; [|done]. wsimpl. by rewrite !lookup_alter_eq, HtC.
    - exists tD0. split; [|done]. wsimpl. by rewrite !lookup_alter_eq, HtC. }
  destruct HD as (Hst & Hpr & Hrc' & Hmr' & Hhv').
  assert (gpu_manager wD = gpu_manager wC) as HgD.
  { unfold wD. by destruct (processing.output_size a). }
  assert (counts wD = (let '(done, failed, retried) := counts wC in
                       ((done + 1)%Z, failed, retried))) as HnD.
  { unfold wD. rewrite counts_monitor.
    by destruct (processing.output_size a). }
  assert (decisive (journal wD)
          = decisive (journal wC) ++ [EvStatus task_id tasks.COMPLETED]) as HjD.
  { unfold wD. destruct (processing.output_size a); wsimpl;
      by rewrite decisive_app. }
  destruct (webhook_step_frame task_id (processing.webhook_requests a) wD tD HtD)
    as (Hg1 & Ht1 & Hn1 & Hj1); [by rewrite Hst|].
  eexists. exists tD. split; [reflexivity|].
  split; [by rewrite Hg1, HgD, (und_gpu _ _ HC)|].
  split; [exact Ht1|].
  split; [exact Hst|].
  split; [exact Hpr|].
  split; [by rewrite Hrc', Hrc|].
  split; [by rewrite Hmr', Hmr|].
  split; [by rewrite Hhv', Hhv|].
  split; [by rewrite Hn1, HnD, (counts_undisturbed _ _ HC)|].
  by rewrite Hj1, HjD, (und_journal _ _ HC).
Qed.

Lemma attempt_succeeds task_id file_path parameters a script w t :
  tasks_db w !! task_id = Some t ->
  lucky (gpu_manager w) a = true ->
  exists w1 t1,
    processing.process_image_task task_id file_path parameters (a :: script) w
    = Some (processing.monitor_exit w1)
    /\ gpu_manager w1 = gpu_manager w
    /\ tasks_db w1 !! task_id = Some t1
    /\ tasks.status t1 = tasks.COMPLETED
    /\ tasks.progress t1 = 100%Z
    /\ tasks.get_retry_count t1 = tasks.get_retry_count t
    /\ tasks.get_max_retries t1 = tasks.get_max_retries t
    /\ history_view t1 = history_view t
    /\ counts w1
       = (let '(done, failed, retried) := counts w in
          ((done + 1)%Z, failed, retried))
    /\ decisive (journal w1)
       = decisive (journal w)
         ++ [EvStart task_id; EvStatus task_id tasks.COMPLETED].
Proof.
  intros Ht Hlucky. cbn [processing.process_image_task].
  destruct (attempt_entry task_id w) as (Hg0 & Hdb0 & Hn0 & Hj0).
  set (w0 := monitor (monitoring.RecordMetric _ _ _ _) _) in *.
  cbn [tasks_db emit monitor set_monitoring_service]. rewrite Ht.
  change (clock (emit _ _)) with (clock w).
  assert (tasks_db w0 !! task_id = Some t) as Ht0 by (by rewrite Hdb0).
  rewrite <- Hg0 in Hlucky.
  destruct (try_block_lucky task_id file_path parameters (clock w) a w0 t
                            Ht0 Hlucky)
    as (w1 & t1 & Htry & Hg1 & Ht1 & Hst & Hpr & Hrc & Hmr & Hhv & Hn1 & Hj1).
  rewrite Htry. exists w1, t1.
  split; [reflexivity|].
  split; [by rewrite Hg1|].
  split; [exact Ht1|].
  split; [exact Hst|].
  split; [exact Hpr|].
  split; [exact Hrc|].
  split; [exact Hmr|].
  split; [exact Hhv|].
  split; [by rewrite Hn1, Hn0|].
  rewrite Hj1, Hj0. by rewrite <- app_assoc.
Qed.

(** *** Whole runs *)

(** Equality of two triples of integers, by components. *)
Ltac triple_eq :=
  apply pair_equal_spec; split; [apply pair_equal_spec; split|]; lia.

Lemma monitor_exit_lookup w task_id :
  tasks_db (processing.monitor_exit w) !! task_id = tasks_db w !! task_id.
Proof. by destruct (monitor_exit_frame w) as (_ & -> & _). Qed.

(** A task with [n] retries left that meets [n + 1] doomed attempts: it is
    retried [n] times and then fails; the rest of the script is not used. *)
Lemma doomed_run_pinned task_id file_path parameters (n : nat) :
  forall script rest w t done failed retried,
    length script = S n ->
    Forall (fun a => doomed (gpu_manager w) a = true) script ->
    tasks_db w !! task_id = Some t ->
    tasks.get_max_retries t = (tasks.get_retry_count t + Z.of_nat n)%Z ->
    counts w = (done, failed, retried) ->
    exists w' t' earlier e_last,
      processing.process_image_task task_id file_path parameters
                                    (script ++ rest) w = Some w'
      /\ length earlier = n
      /\ Forall (fun e => classifier.should_retry_error e = true)
                (earlier ++ [e_last])
      /\ gpu_manager w' = gpu_manager w
      /\ tasks_db w' !! task_id = Some t'
      /\ tasks.status t' = tasks.FAILED
      /\ tasks.error_message t' = Some (exc_str e_last)
      /\ tasks.get_retry_count t' = tasks.get_max_retries t
      /\ tasks.get_max_retries t' = tasks.get_max_retries t
      /\ history_view t'
         = history_view t ++ history_of (tasks.get_retry_count t) earlier
      /\ counts w'
         = (done,
            (failed + if str_truthy task_id then Z.of_nat (S n) else 0)%Z,
            (retried + Z.of_nat n)%Z)
      /\ decisive (journal w')
         = decisive (journal w)
           ++ retried_run task_id (tasks.get_retry_count t) earlier
           ++ [EvStart task_id; EvTaskFailed task_id e_last;
               EvStatus task_id tasks.FAILED; EvCleanupFiles task_id]
      /\ earlier ++ [e_last] = error_of (gpu_manager w) <$> script.
Proof.
  induction n as [|n IH];
    intros script rest w t done failed retried Hlen Hdoom Ht Hmax Hcounts.
  - destruct script as [|a [|? ?]]; try discriminate.
    apply Forall_inv in Hdoom. cbn [app].
    destruct (attempt_fails_pinned task_id file_path parameters a rest w t Ht)
      as (e & w1 & t1 & Hpin & He & Hrun & Hg & Ht1 & Hst & Hem & Hrc & Hmr & Hhv
          & Hn & Hj); [lia | exact Hdoom |].
    destruct (monitor_exit_frame w1) as (Hg' & Hdb' & Hj' & Hn').
    exists (processing.monitor_exit w1), t1, [], e.
    split; [exact Hrun|]. split; [reflexivity|].
    split; [by repeat constructor|].
    split; [by rewrite Hg'|].
    split; [by rewrite Hdb'|].
    split; [exact Hst|]. split; [exact Hem|].
    split; [lia|]. split; [exact Hmr|].
    split; [by rewrite Hhv, app_nil_r|].
    split.
    { rewrite Hn', Hn, Hcounts.
      destruct (str_truthy task_id); triple_eq. }
    split; [by rewrite Hj', Hj|].
    cbn. by rewrite Hpin.
  - destruct script as [|a script]; [discriminate|].
    injection Hlen as Hlen.
    apply Forall_cons in Hdoom as [Ha Hdoom]. cbn [app].
    destruct (attempt_retries_pinned task_id file_path parameters a
                                     (script ++ rest) w t Ht)
      as (e & w1 & t1 & Hpin & He & Hrun & Hg & Ht1 & Hrc & Hmr & Hhv & Hn & Hj);
      [lia | exact Ha |].
    rewrite Hcounts in Hn. rewrite <- Hg in Hdoom.
    destruct (IH script rest w1 t1 _ _ _ Hlen Hdoom Ht1 ltac:(lia) Hn)
      as (w' & t' & earlier & e_last & Hrun' & Hlen' & Hretry & Hg' & Ht'
          & Hst & Hem & Hrc' & Hmr' & Hhv' & Hn' & Hj' & Hpin').
    destruct (monitor_exit_frame w') as (Hg2 & Hdb2 & Hj2 & Hn2).
    exists (processing.monitor_exit w'), t', (e :: earlier), e_last.
    split; [by rewrite Hrun, Hrun'|].
    split; [by rewrite <- Hlen'|].
    split; [by constructor|].
    split; [by rewrite Hg2, Hg', Hg|].
    split; [by rewrite Hdb2|].
    split; [exact Hst|]. split; [exact Hem|].
    split; [lia|]. split; [lia|].
    split; [rewrite Hhv', Hhv, Hrc; cbn [history_of]; by rewrite <- app_assoc|].
    split.
    { rewrite Hn2, Hn'. destruct (str_truthy task_id); triple_eq. }
    split.
    { rewrite Hj2, Hj', Hj, Hrc. cbn [retried_run].
      by rewrite <- !app_assoc. }
    cbn [app fmap list_fmap]. rewrite Hpin', Hg, Hpin. reflexivity.
Qed.

Lemma doomed_run task_id file_path parameters (n : nat) :
  forall script rest w t done failed retried,
    length script = S n ->
    Forall (fun a => doomed (gpu_manager w) a = true) script ->
    tasks_db w !! task_id = Some t ->
    tasks.get_max_retries t = (tasks.get_retry_count t + Z.of_nat n)%Z ->
    counts w = (done, failed, retried) ->
    exists w' t' earlier e_last,
      processing.process_image_task task_id file_path parameters
                                    (script ++ rest) w = Some w'
      /\ length earlier = n
      /\ Forall (fun e => classifier.should_retry_error e = true)
                (earlier ++ [e_last])
      /\ gpu_manager w' = gpu_manager w
      /\ tasks_db w' !! task_id = Some t'
      /\ tasks.status t' = tasks.FAILED
      /\ tasks.error_message t' = Some (exc_str e_last)
      /\ tasks.get_retry_count t' = tasks.get_max_retries t
      /\ tasks.get_max_retries t' = tasks.get_max_retries t
      /\ history_view t'
         = history_view t ++ history_of (tasks.get_retry_count t) earlier
      /\ counts w'
         = (done,
            (failed + if str_truthy task_id then Z.of_nat (S n) else 0)%Z,
            (retried + Z.of_nat n)%Z)
      /\ decisive (journal w')
         = decisive (journal w)
           ++ retried_run task_id (tasks.get_retry_count t) earlier
           ++ [EvStart task_id; EvTaskFailed task_id e_last;
               EvStatus task_id tasks.FAILED; EvCleanupFiles task_id].
Proof.
  intros script rest w t done failed retried Hlen Hdoom Ht Hmax Hcounts.
  destruct (doomed_run_pinned task_id file_path parameters n script rest w t
                              done failed retried Hlen Hdoom Ht Hmax Hcounts)
    as (w' & t' & earlier & e_last & H1 & H2 & H3 & H4 & H5 & H6 & H7 & H8
        & H9 & H10 & H11 & H12 & _).
  exists w', t', earlier, e_last.
  repeat (split; [assumption|]). assumption.
Qed.

(** A task that meets [n] doomed attempts within its retries and then a
    lucky one: it is retried [n] times and completes. *)
Lemma retried_then_completed task_id file_path parameters (n : nat) :
  forall script last_attempt rest w t done failed retried,
    length script = n ->
    Forall (fun a => doomed (gpu_manager w) a = true) script ->
    lucky (gpu_manager w) last_attempt = true ->
    tasks_db w !! task_id = Some t ->
    (tasks.get_retry_count t + Z.of_nat n <= tasks.get_max_retries t)%Z ->
    counts w = (done, failed, retried) ->
    exists w' t' errors,
      processing.process_image_task task_id file_path parameters
                                    (script ++ last_attempt :: rest) w
      = Some w'
      /\ length errors = n
      /\ Forall (fun e => classifier.should_retry_error e = true) errors
      /\ gpu_manager w' = gpu_manager w
      /\ tasks_db w' !! task_id = Some t'
      /\ tasks.status t' = tasks.COMPLETED
      /\ tasks.get_retry_count t'
         = (tasks.get_retry_count t + Z.of_nat n)%Z
      /\ history_view t'
         = history_view t ++ history_of (tasks.get_retry_count t) errors
      /\ counts w'
         = ((done + 1)%Z,
            (failed + if str_truthy task_id then Z.of_nat n else 0)%Z,
            (retried + Z.of_nat n)%Z)
      /\ decisive (journal w')
         = decisive (journal w)
           ++ retried_run task_id (tasks.get_retry_count t) errors
           ++ [EvStart task_id; EvStatus task_id tasks.COMPLETED].
Proof.
  induction n as [|n IH];
    intros script last_attempt rest w t done failed retried
           Hlen Hdoom Hlucky Ht Hmax Hcounts.
  - destruct script; [|discriminate]. cbn [app].
    destruct (attempt_succeeds task_id file_path parameters last_attempt rest
                               w t Ht Hlucky)
      as (w1 & t1 & Hrun & Hg & Ht1 & Hst & _ & Hrc & Hmr & Hhv & Hn & Hj).
    destruct (monitor_exit_frame w1) as (Hg' & Hdb' & Hj' & Hn').
    exists (processing.monitor_exit w1), t1, [].
    split; [exact Hrun|]. split; [reflexivity|]. split; [constructor|].
    split; [by rewrite Hg'|].
    split; [by rewrite Hdb'|].
    split; [exact Hst|].
    split; [lia|].
    split; [by rewrite Hhv, app_nil_r|].
    split.
    { rewrite Hn', Hn, Hcounts.
      destruct (str_truthy task_id); triple_eq. }
    by rewrite Hj', Hj.
  - destruct script as [|a script]; [discriminate|].
    injection Hlen as Hlen.
    apply Forall_cons in Hdoom as [Ha Hdoom]. cbn [app].
    destruct (attempt_retries task_id file_path parameters a
                              (script ++ last_attempt :: rest) w t Ht)
      as (e & w1 & t1 & He & Hrun & Hg & Ht1 & Hrc & Hmr & Hhv & Hn & Hj);
      [lia | exact Ha |].
    rewrite Hcounts in Hn. rewrite <- Hg in Hlucky, Hdoom.
    destruct (IH script last_attempt rest w1 t1 _ _ _ Hlen Hdoom Hlucky Ht1
                 ltac:(lia) Hn)
      as (w' & t' & errors & Hrun' & Hlen' & Hretry & Hg' & Ht' & Hst & Hrc'
          & Hhv' & Hn' & Hj').
    destruct (monitor_exit_frame w') as (Hg2 & Hdb2 & Hj2 & Hn2).
    exists (processing.monitor_exit w'), t', (e :: errors).
    split; [by rewrite Hrun, Hrun'|].
    split; [by rewrite <- Hlen'|].
    split; [by constructor|].
    split; [by rewrite Hg2, Hg', Hg|].
    split; [by rewrite Hdb2|].
    split; [exact Hst|].
    split; [lia|].
    split; [rewrite Hhv', Hhv, Hrc; cbn [history_of]; by rewrite <- app_assoc|].
    split.
    { rewrite Hn2, Hn'. destruct (str_truthy task_id); triple_eq. }
    rewrite Hj2, Hj', Hj, Hrc. cbn [retried_run].
    by rewrite <- !app_assoc.
Qed.

(** *** Reading the journal *)

Lemma sleeps_app j1 j2 :
  processing.sleeps (j1 ++ j2) = processing.sleeps j1 ++ processing.sleeps j2.
Proof. apply omap_app. Qed.

Lemma invocations_app task_id j1 j2 :
  processing.invocations task_id (j1 ++ j2)
  = (processing.invocations task_id j1 + processing.invocations task_id j2)%nat.
Proof. unfold processing.invocations. by rewrite omap_app, length_app. Qed.

Lemma failed_writes_app task_id j1 j2 :
  failed_writes task_id (j1 ++ j2)
  = (failed_writes task_id j1 + failed_writes task_id j2)%nat.
Proof.
  unfold failed_writes, processing.status_writes.
  by rewrite omap_app, List.filter_app, length_app.
Qed.

(** Routine entries are neither sleeps, nor invocations, nor "failed". *)
Lemma decisive_cons e j :
  decisive (e :: j) = if routine e then decisive j else e :: decisive j.
Proof. unfold decisive. simpl. by destruct (routine e). Qed.

Lemma sleeps_decisive j : processing.sleeps (decisive j) = processing.sleeps j.
Proof.
  induction j as [|e j IH]; [reflexivity|].
  rewrite decisive_cons.
  destruct e as [| | | | |? []| | | |]; cbn [routine];
    unfold processing.sleeps in *; cbn [omap list_omap]; by rewrite ?IH.
Qed.

Lemma invocations_decisive task_id j :
  processing.invocations task_id (decisive j)
  = processing.invocations task_id j.
Proof.
  induction j as [|e j IH]; [reflexivity|].
  rewrite decisive_cons.
  destruct e as [| | | | |? []| | | |]; cbn [routine];
    unfold processing.invocations in *; cbn [omap list_omap];
    try case_decide; cbn [length]; by rewrite ?IH.
Qed.

Lemma failed_writes_decisive task_id j :
  failed_writes task_id (decisive j) = failed_writes task_id j.
Proof.
  induction j as [|e j IH]; [reflexivity|].
  rewrite decisive_cons.
  destruct e as [| | | | |? []| | | |]; cbn [routine];
    unfold failed_writes, processing.status_writes in *;
    cbn [omap list_omap]; try case_decide; cbn [List.filter length];
    try (rewrite bool_decide_eq_false_2 by done);
    try (rewrite bool_decide_eq_true_2 by done);
    cbn [length]; by rewrite ?IH.
Qed.

Lemma sleeps_retried_run task_id retry_count errors :
  processing.sleeps (retried_run task_id retry_count errors)
  = map processing.retry_delay
        (retry_numbers (retry_count + 1) (length errors)).
Proof.
  revert retry_count. induction errors as [|e errors IH]; intros rc;
    [reflexivity|].
  cbn [retried_run length retry_numbers map]. rewrite sleeps_app, IH.
  reflexivity.
Qed.

Lemma invocations_retried_run task_id retry_count errors :
  processing.invocations task_id (retried_run task_id retry_count errors)
  = length errors.
Proof.
  revert retry_count. induction errors as [|e errors IH]; intros rc;
    [reflexivity|].
  cbn [retried_run length]. rewrite invocations_app, IH.
  unfold processing.invocations. cbn [omap list_omap].
  by rewrite decide_True.
Qed.

Lemma failed_writes_retried_run task_id retry_count errors :
  failed_writes task_id (retried_run task_id retry_count errors) = 0%nat.
Proof.
  revert retry_count. induction errors as [|e errors IH]; intros rc;
    [reflexivity|].
  cbn [retried_run]. rewrite failed_writes_app, IH.
  unfold failed_writes, processing.status_writes. cbn [omap list_omap].
  by rewrite decide_True.
Qed.

(* --------------------------------------------------------------------- *)
(** ** C3: three retries, then failed for good                            *)
(* --------------------------------------------------------------------- *)

(** C3: a task with [max_retries = 3] and no retry behind it, whose next
    four attempts each end in a retryable error: attempt [i] leaves the
    [try] block with the error [e_i = error_of m a_i], the RuntimeError of
    a refused lease or the exception of a failed rendering.  The executor
    runs four times and returns; the status "failed" is written once,
    after the fourth error; the retry history has the three entries of the
    first three errors, each with the text of its error; [error_message]
    is the text of the fourth error; the rest of the script is never used,
    so nothing is submitted after the failure.  Requests served in between
    (cancellations) change none of this. *)
Theorem C3_fails_once_after_three_retries
        (task_id file_path : string) (parameters : gmap string string)
        (a1 a2 a3 a4 : processing.Attempt) (rest : list processing.Attempt)
        (w : World) (t : tasks.Task) :
  let m := gpu_manager w in
  let e1 := error_of m a1 in
  let e2 := error_of m a2 in
  let e3 := error_of m a3 in
  let e4 := error_of m a4 in
  tasks_db w !! task_id = Some t ->
  tasks.get_max_retries t = 3%Z ->
  tasks.get_retry_count t = 0%Z ->
  tasks.get_retry_history t = [] ->
  Forall (fun a => doomed m a = true) [a1; a2; a3; a4] ->
  exists w' t',
    processing.process_image_task task_id file_path parameters
                                  (a1 :: a2 :: a3 :: a4 :: rest) w = Some w'
    /\ Forall (fun a =>
                 forall (t0 : Q) (w0 : World),
                   gpu_manager w0 = m ->
                   fst (processing.try_block task_id file_path parameters
                                             t0 a w0)
                   = Raise (error_of m a))
              [a1; a2; a3; a4]
    /\ Forall (fun e => classifier.should_retry_error e = true)
              [e1; e2; e3; e4]
    /\ tasks_db w' !! task_id = Some t'
    /\ tasks.status t' = tasks.FAILED
    /\ failed_writes task_id (journal w')
       = S (failed_writes task_id (journal w))
    /\ length (tasks.get_retry_history t') = 3%nat
    /\ history_view t'
       = [(1%Z, exc_str e1); (2%Z, exc_str e2); (3%Z, exc_str e3)]
    /\ tasks.error_message t' = Some (exc_str e4)
    /\ processing.invocations task_id (journal w')
       = (processing.invocations task_id (journal w) + 4)%nat
    /\ decisive (journal w')
       = decisive (journal w)
         ++ [EvStart task_id; EvTaskFailed task_id e1;
             EvStatus task_id tasks.PENDING; EvSleep 60;
             EvStart task_id; EvTaskFailed task_id e2;
             EvStatus task_id tasks.PENDING; EvSleep 120;
             EvStart task_id; EvTaskFailed task_id e3;
             EvStatus task_id tasks.PENDING; EvSleep 240;
             EvStart task_id; EvTaskFailed task_id e4;
             EvStatus task_id tasks.FAILED; EvCleanupFiles task_id].
Proof.
  intros m e1 e2 e3 e4 Ht Hmax Hrc Hhist Hdoom.
  destruct (counts w) as [[done failed] retried] eqn:Hcounts.
  destruct (doomed_run_pinned task_id file_path parameters 3 [a1; a2; a3; a4]
                              rest w t done failed retried)
    as (w' & t' & earlier & e_last & Hrun & Hlen & Hretry & _ & Ht' & Hst
        & Hem & _ & _ & Hhv & _ & Hj & Hpin);
    [reflexivity | exact Hdoom | exact Ht | lia | exact Hcounts |].
  destruct earlier as [|x1 [|x2 [|x3 [|? ?]]]]; try discriminate.
  fold m in Hpin. cbn in Hpin. fold e1 e2 e3 e4 in Hpin.
  injection Hpin as -> -> -> ->.
  rewrite Hrc in Hhv, Hj.
  assert (history_view t = []) as Hhv0
      by (unfold history_view; by rewrite Hhist).
  rewrite Hhv0 in Hhv. cbn in Hhv. cbn in Hj.
  exists w', t'.
  split; [exact Hrun|].
  split.
  { eapply Forall_impl; [exact Hdoom|]. intros a Ha t0 w0 Hm.
    rewrite <- Hm in Ha.
    destruct (try_block_doomed task_id file_path parameters t0 a w0 Ha)
      as (e & He & _ & _ & Hpin).
    by rewrite He, Hpin, Hm. }
  split; [exact Hretry|]. split; [exact Ht'|].
  split; [exact Hst|].
  split.
  { rewrite <- (failed_writes_decisive task_id (journal w')), Hj.
    rewrite failed_writes_app, failed_writes_decisive.
    unfold failed_writes at 2, processing.status_writes.
    cbn [omap list_omap]. rewrite !decide_True by done.
    set (k := length (List.filter _ _)). vm_compute in k. lia. }
  split.
  { apply (f_equal length) in Hhv. unfold history_view in Hhv.
    by rewrite length_map in Hhv. }
  split; [exact Hhv|]. split; [exact Hem|].
  split; [|exact Hj].
  rewrite <- (invocations_decisive task_id (journal w')), Hj.
  rewrite invocations_app, invocations_decisive.
  unfold processing.invocations at 2. cbn [omap list_omap].
  rewrite !decide_True by done. reflexivity.
Qed.

(** C3, witness: the task "job-1" meets three failures of the renderer and
    one refused lease; the errors are the executor's exception and, for
    the second attempt, the RuntimeError of [acquire_gpu_slot]. *)
Lemma C3_witness_four_render_failures :
  let failure := Exception "DepthFlow 處理失敗" in
  let refusal := RuntimeError "無法取得 GPU 槽位: GPU 不可用" in
  exists w' t',
    run_job [render_fails; no_accelerator; render_fails; render_fails] one_job
    = Some w'
    /\ Forall (fun a =>
                 forall (t0 : Q) (w0 : World),
                   gpu_manager w0 = gpu_manager one_job ->
                   fst (processing.try_block
                          "job-1" "./storage/uploads/job-1_original.png" ∅
                          t0 a w0)
                   = Raise (error_of (gpu_manager one_job) a))
              [render_fails; no_accelerator; render_fails; render_fails]
    /\ Forall (fun e => classifier.should_retry_error e = true)
              [failure; refusal; failure; failure]
    /\ tasks_db w' !! "job-1" = Some t'
    /\ tasks.status t' = tasks.FAILED
    /\ failed_writes "job-1" (journal w')
       = S (failed_writes "job-1" (journal one_job))
    /\ length (tasks.get_retry_history t') = 3%nat
    /\ history_view t'
       = [(1%Z, "DepthFlow 處理失敗");
          (2%Z, "無法取得 GPU 槽位: GPU 不可用");
          (3%Z, "DepthFlow 處理失敗")]
    /\ tasks.error_message t' = Some "DepthFlow 處理失敗"
    /\ processing.invocations "job-1" (journal w')
       = (processing.invocations "job-1" (journal one_job) + 4)%nat
    /\ decisive (journal w')
       = decisive (journal one_job)
         ++ [EvStart "job-1"; EvTaskFailed "job-1" failure;
             EvStatus "job-1" tasks.PENDING; EvSleep 60;
             EvStart "job-1"; EvTaskFailed "job-1" refusal;
             EvStatus "job-1" tasks.PENDING; EvSleep 120;
             EvStart "job-1"; EvTaskFailed "job-1" failure;
             EvStatus "job-1" tasks.PENDING; EvSleep 240;
             EvStart "job-1"; EvTaskFailed "job-1" failure;
             EvStatus "job-1" tasks.FAILED; EvCleanupFiles "job-1"].
Proof.
  exact (C3_fails_once_after_three_retries
           "job-1" "./storage/uploads/job-1_original.png" ∅
           render_fails no_accelerator render_fails render_fails [] one_job
           (tasks.new_task "job-1" 0 ∅ "./storage/uploads/job-1_original.png"
                           None)
           eq_refl eq_refl eq_refl eq_refl
           ltac:(repeat constructor)).
Defined.

(** The run of that witness, evaluated: the errors are three renderer
    failures and one refused lease. *)
Example four_render_failures_evaluated :
  (fun w => (processing.status_of "job-1" w,
             processing.status_writes "job-1" (journal w),
             processing.sleeps (journal w),
             tasks.error_message <$> tasks_db w !! "job-1",
             history_view <$> tasks_db w !! "job-1"))
    <$> run_job [render_fails; no_accelerator; render_fails; render_fails]
                one_job
  = Some (Some tasks.FAILED,
          [tasks.PROCESSING; tasks.PENDING; tasks.PROCESSING; tasks.PENDING;
           tasks.PROCESSING; tasks.PENDING; tasks.PROCESSING; tasks.FAILED],
          [60%Z; 120%Z; 240%Z],
          Some (Some "DepthFlow 處理失敗"),
          Some [(1%Z, "DepthFlow 處理失敗");
                (2%Z, "無法取得 GPU 槽位: GPU 不可用");
                (3%Z, "DepthFlow 處理失敗")]).
Proof. vm_compute. reflexivity. Qed.

(* --------------------------------------------------------------------- *)
(** ** C5: the backoff delays                                             *)
(* --------------------------------------------------------------------- *)

Lemma retry_delay_values :
  map processing.retry_delay [1; 2; 3; 4; 5; 6; 7]%Z
  = [60; 120; 240; 300; 300; 300; 300]%Z.
Proof. reflexivity. Qed.

(** From the fourth retry on the delay is the cap. *)
Lemma retry_delay_capped (n : Z) :
  (4 <= n)%Z -> processing.retry_delay n = 300%Z.
Proof.
  intros Hn. unfold processing.retry_delay.
  assert (2 ^ 3 <= 2 ^ (n - 1))%Z by (apply Z.pow_le_mono_r; lia).
  lia.
Qed.

(** C5: a task with no retry behind it and [max_retries = n] that meets
    [n + 1] retryable failures sleeps [n] times before it is resubmitted,
    the [k]-th time for [min(60 * 2^(k-1), 300)] seconds; for retries 1 to 5
    these delays are 60, 120, 240, 300, 300. *)
Theorem C5_backoff_delays
        (task_id file_path : string) (parameters : gmap string string)
        (n : nat) (script rest : list processing.Attempt)
        (w : World) (t : tasks.Task) :
  tasks_db w !! task_id = Some t ->
  tasks.get_retry_count t = 0%Z ->
  tasks.get_max_retries t = Z.of_nat n ->
  length script = S n ->
  Forall (fun a => doomed (gpu_manager w) a = true) script ->
  exists w',
    processing.process_image_task task_id file_path parameters
                                  (script ++ rest) w = Some w'
    /\ processing.sleeps (journal w')
       = processing.sleeps (journal w)
         ++ map (fun k => Z.min (60 * 2 ^ (k - 1)) 300) (retry_numbers 1 n)
    /\ map (fun k => Z.min (60 * 2 ^ (k - 1)) 300) (retry_numbers 1 5)
       = [60; 120; 240; 300; 300]%Z.
Proof.
  intros Ht Hrc Hmax Hlen Hdoom.
  destruct (counts w) as [[done failed] retried] eqn:Hcounts.
  destruct (doomed_run task_id file_path parameters n script rest
                       w t done failed retried Hlen Hdoom Ht ltac:(lia) Hcounts)
    as (w' & t' & earlier & e_last & Hrun & Hlen' & _ & _ & _ & _ & _ & _ & _
        & _ & _ & Hj).
  exists w'. split; [exact Hrun|]. split; [|reflexivity].
  change (map _ (retry_numbers 1 n))
    with (map processing.retry_delay (retry_numbers 1 n)).
  rewrite <- (sleeps_decisive (journal w')), Hj.
  rewrite !sleeps_app, sleeps_decisive, sleeps_retried_run, Hrc, Hlen'.
  cbn. by rewrite app_nil_r.
Qed.

(** C5, witness: six failures of the renderer in a row for a task that
    allows five retries. *)
Lemma C5_witness_five_retries :
  exists w',
    processing.process_image_task
      "job-5" "./storage/uploads/job-5_original.png" ∅
      ([render_fails; render_fails; render_fails; render_fails; render_fails;
        render_fails] ++ []) five_retries_job = Some w'
    /\ processing.sleeps (journal w')
       = processing.sleeps (journal five_retries_job)
         ++ map (fun k => Z.min (60 * 2 ^ (k - 1)) 300) (retry_numbers 1 5)
    /\ map (fun k => Z.min (60 * 2 ^ (k - 1)) 300) (retry_numbers 1 5)
       = [60; 120; 240; 300; 300]%Z.
Proof.
  apply (C5_backoff_delays
           "job-5" "./storage/uploads/job-5_original.png" ∅ 5
           [render_fails; render_fails; render_fails; render_fails;
            render_fails; render_fails] [] five_retries_job
           (tasks.mkTask "job-5" tasks.PENDING 0 0 0 "任務已建立，等待處理"
                         ∅ "./storage/uploads/job-5_original.png" None None
                         (Some 5%Z) None None None None)).
  - reflexivity.
  - reflexivity.
  - reflexivity.
  - reflexivity.
  - repeat constructor.
Defined.

(* --------------------------------------------------------------------- *)
(** ** C10: what [failed_tasks] counts                                    *)
(* --------------------------------------------------------------------- *)

(** C10, counterexample: a call of [record_error] with the task id [""],
    which is not [None],
    leaves [failed_tasks] where it was: the counter moves under
    [if task_id:], and the empty string is falsy. *)
Lemma C10_empty_task_id_not_counted :
  monitoring.failed_tasks
    (monitoring.task_stats
       (monitoring.record_error 0 (Exception "DepthFlow 處理失敗") (Some "")
                                [] "" monitoring.monitoring_service))
  = 0%Z
  /\ monitoring.failed_tasks
       (monitoring.task_stats monitoring.monitoring_service) = 0%Z.
Proof. split; reflexivity. Qed.

Lemma record_error_failed_tasks now e task_id ctx stack self :
  monitoring.failed_tasks
    (monitoring.task_stats
       (monitoring.record_error now e task_id ctx stack self))
  = (monitoring.failed_tasks (monitoring.task_stats self)
     + if opt_str_truthy task_id then 1 else 0)%Z.
Proof.
  unfold monitoring.record_error. cbv zeta.
  destruct (opt_str_truthy task_id); cbn; lia.
Qed.

(** C10, as the code has it: every call of [record_error] with a task id
    that is neither [None] nor empty adds exactly 1 to [failed_tasks],
    retried or not.  So a task with such an id that meets [n] retryable
    failures within its retries and then succeeds ends "completed" with
    [failed_tasks] grown by [n] and [completed_tasks] by 1. *)
Theorem C10_failed_tasks_counts_attempts
        (task_id file_path : string) (parameters : gmap string string)
        (script : list processing.Attempt) (last_attempt : processing.Attempt)
        (rest : list processing.Attempt) (w : World) (t : tasks.Task) :
  str_truthy task_id = true ->
  tasks_db w !! task_id = Some t ->
  (tasks.get_retry_count t + Z.of_nat (length script)
   <= tasks.get_max_retries t)%Z ->
  Forall (fun a => doomed (gpu_manager w) a = true) script ->
  lucky (gpu_manager w) last_attempt = true ->
  (forall now e ctx stack self,
      monitoring.failed_tasks
        (monitoring.task_stats
           (monitoring.record_error now e (Some task_id) ctx stack self))
      = (monitoring.failed_tasks (monitoring.task_stats self) + 1)%Z)
  /\ exists w',
      processing.process_image_task task_id file_path parameters
                                    (script ++ last_attempt :: rest) w
      = Some w'
      /\ processing.status_of task_id w' = Some tasks.COMPLETED
      /\ monitoring.failed_tasks (monitoring.task_stats (monitoring_service w'))
         = (monitoring.failed_tasks
              (monitoring.task_stats (monitoring_service w))
            + Z.of_nat (length script))%Z
      /\ monitoring.completed_tasks
           (monitoring.task_stats (monitoring_service w'))
         = (monitoring.completed_tasks
              (monitoring.task_stats (monitoring_service w)) + 1)%Z.
Proof.
  intros Hid Ht Hmax Hdoom Hlucky. split.
  { intros now e ctx stack self. rewrite record_error_failed_tasks.
    cbn [opt_str_truthy]. by rewrite Hid. }
  destruct (counts w) as [[done failed] retried] eqn:Hcounts.
  destruct (retried_then_completed task_id file_path parameters
              (length script) script last_attempt rest w t done failed retried
              eq_refl Hdoom Hlucky Ht Hmax Hcounts)
    as (w' & t' & errors & Hrun & _ & _ & _ & Ht' & Hst & _ & _ & Hn & _).
  exists w'. split; [exact Hrun|].
  split; [unfold processing.status_of; by rewrite Ht', <- Hst|].
  rewrite Hid in Hn. unfold counts, counts_of in Hn, Hcounts.
  injection Hn as Hc Hf _. injection Hcounts as Hc0 Hf0 _.
  split; lia.
Qed.

(** C10, witness: the task "job-1" fails twice (renderer, then a missing
    accelerator) and
    succeeds at the third attempt: two failed "tasks" are counted although
    no task of the table is failed. *)
Lemma C10_witness_two_failures_then_success :
  (forall now e ctx stack self,
      monitoring.failed_tasks
        (monitoring.task_stats
           (monitoring.record_error now e (Some "job-1") ctx stack self))
      = (monitoring.failed_tasks (monitoring.task_stats self) + 1)%Z)
  /\ exists w',
      run_job ([render_fails; no_accelerator] ++ render_succeeds :: []) one_job
      = Some w'
      /\ processing.status_of "job-1" w' = Some tasks.COMPLETED
      /\ monitoring.failed_tasks (monitoring.task_stats (monitoring_service w'))
         = (monitoring.failed_tasks
              (monitoring.task_stats (monitoring_service one_job))
            + Z.of_nat (length [render_fails; no_accelerator]))%Z
      /\ monitoring.completed_tasks
           (monitoring.task_stats (monitoring_service w'))
         = (monitoring.completed_tasks
              (monitoring.task_stats (monitoring_service one_job)) + 1)%Z.
Proof.
  apply (C10_failed_tasks_counts_attempts
           "job-1" "./storage/uploads/job-1_original.png" ∅
           [render_fails; no_accelerator] render_succeeds [] one_job
           (tasks.new_task "job-1" 0 ∅ "./storage/uploads/job-1_original.png"
                           None)).
  - reflexivity.
  - reflexivity.
  - cbn. lia.
  - repeat constructor.
  - reflexivity.
Defined.

Example two_failures_then_success_evaluated :
  (fun w => (processing.status_of "job-1" w, failed_in_table w,
             monitoring.task_stats (monitoring_service w)))
    <$> run_job [render_fails; no_accelerator; render_succeeds] one_job
  = Some (Some tasks.COMPLETED, 0%nat, monitoring.mkStats 0 1 2 2 0).
Proof. vm_compute. reflexivity. Qed.

(* --------------------------------------------------------------------- *)
(** ** C2: a cancelled task and the executor                              *)
(* --------------------------------------------------------------------- *)

(** C2, as the code runs: the cancel endpoint respects the terminal states
    (see
    [cancel_task_leaves_ended]); the executor does not look at the status
    before it writes one.  A task cancelled while its renderer waits for
    the subprocess is then written "completed"; a task cancelled during the
    backoff sleep is run again, written "processing" and, its image being
    refused, "failed". *)
Theorem C2_cancelled_task_is_overwritten :
  (fun w => (processing.status_writes "job-1" (journal w),
             processing.status_of "job-1" w))
    <$> run_job [cancelled_while_rendering] one_job
  = Some ([tasks.PROCESSING; tasks.CANCELLED; tasks.COMPLETED],
          Some tasks.COMPLETED)
  /\ (fun w => (processing.status_writes "job-1" (journal w),
                processing.status_of "job-1" w))
       <$> run_job [cancelled_while_sleeping; invalid_image] one_job
     = Some ([tasks.PROCESSING; tasks.PENDING; tasks.CANCELLED;
              tasks.PROCESSING; tasks.FAILED],
             Some tasks.FAILED).
Proof. split; vm_compute; reflexivity. Qed.

(** The cancel request itself was accepted in both runs: the task was
    "processing", respectively "pending", when it arrived. *)
Example cancel_accepted_while_processing :
  let w := assign_status "job-1" tasks.PROCESSING one_job in
  fst (routes.cancel_task "job-1" w) = Ok "任務已成功取消"
  /\ processing.status_of "job-1" (snd (routes.cancel_task "job-1" w))
     = Some tasks.CANCELLED.
Proof. split; vm_compute; reflexivity. Qed.

(** Without requests in between, the statuses the executor writes for a
    task follow pending -> processing -> completed | pending | failed. *)
Example uninterrupted_status_writes :
  (fun w => processing.status_writes "job-1" (journal w))
    <$> run_job [render_fails; render_succeeds] one_job
  = Some [tasks.PROCESSING; tasks.PENDING; tasks.PROCESSING; tasks.COMPLETED].
Proof. vm_compute. reflexivity. Qed.

(* --------------------------------------------------------------------- *)
(** ** Further properties of the design document                          *)
(* --------------------------------------------------------------------- *)

(** *** The ring buffers *)

Lemma deque_append_length {A} (maxlen : nat) (x : A) (d : list A) :
  length (deque_append maxlen x d) = Nat.min (S (length d)) maxlen.
Proof.
  unfold deque_append. rewrite length_drop, length_app.
  cbn [length]. lia.
Qed.

Lemma deque_of_length {A} (maxlen : nat) (items : list A) :
  length (deque_of maxlen items) = Nat.min (length items) maxlen.
Proof. unfold deque_of. rewrite length_drop. lia. Qed.

(** On overflow the entries that fall out are the oldest ones: what is kept
    is the end of the old content followed by the new entry. *)
Lemma deque_append_keeps_newest {A} (maxlen : nat) (x : A) (d : list A) :
  deque_append maxlen x d `suffix_of` (d ++ [x])
  /\ (0 < maxlen -> last (deque_append maxlen x d) = Some x).
Proof.
  unfold deque_append. split; [apply suffix_drop|].
  intros Hpos.
  assert (length (d ++ [x]) - maxlen <= length d) as Hk
      by (rewrite length_app; simpl; lia).
  rewrite drop_app_le by exact Hk. by rewrite last_snoc.
Qed.

Ltac buf_simpl :=
  cbn [monitoring.max_metrics_history monitoring.max_error_history
       monitoring.metrics_history monitoring.error_history
       monitoring.processing_times monitoring.performance_timers
       monitoring.set_metrics_history monitoring.set_error_history
       monitoring.set_counters monitoring.set_gauges
       monitoring.set_performance_timers monitoring.set_error_counts
       monitoring.set_error_rates monitoring.set_task_stats
       monitoring.set_processing_times].

Lemma record_metric_ring M E now name v tg self :
  ring_inv M E self -> ring_inv M E (monitoring.record_metric now name v tg self).
Proof.
  intros (HM & HE & Hm & He). unfold ring_inv, monitoring.record_metric.
  destruct (py_endswith "_count" name); buf_simpl;
    rewrite deque_append_length; repeat split; lia.
Qed.

Lemma call_ring M E (c : monitoring.Call) self :
  ring_inv M E self -> ring_inv M E (monitoring.call c self).
Proof.
  intros H. destruct c; cbn [monitoring.call].
  - by apply record_metric_ring.
  - destruct H as (HM & HE & Hm & He).
    unfold ring_inv, monitoring.record_error. cbv zeta.
    destruct (opt_str_truthy task_id); buf_simpl;
      rewrite deque_append_length; repeat split; lia.
  - exact H.
  - unfold monitoring.stop_timer.
    destruct (monitoring.performance_timers self !! name); cbn [snd];
      [|exact H].
    by apply record_metric_ring.
  - unfold monitoring.record_task_completed. cbv zeta.
    do 2 apply record_metric_ring. buf_simpl.
    by destruct (deque_append 100 processing_time _).
  - unfold monitoring.record_task_retry. cbv zeta.
    by apply record_metric_ring.
  - unfold monitoring.clear_old_data.
    destruct (datetime.ago now days 0) as [cutoff_time|]; [|exact H].
    destruct H as (HM & HE & Hm & He).
    unfold ring_inv. cbv zeta. buf_simpl.
    rewrite !deque_of_length. repeat split; lia.
Qed.

(** The histories of samples and of errors never hold more entries than
    the capacities the recorder was made with, whatever is recorded. *)
Theorem ring_buffers_never_exceed_capacity
        (max_metrics max_errors : nat) (cs : list monitoring.Call) :
  let self := monitoring.calls cs (monitoring.__init__ max_metrics max_errors) in
  length (monitoring.metrics_history self) <= max_metrics
  /\ length (monitoring.error_history self) <= max_errors.
Proof.
  intros self.
  assert (ring_inv max_metrics max_errors self) as (_ & _ & Hm & He).
  { unfold self, monitoring.calls.
    induction cs as [|c cs IH] using rev_ind.
    - repeat split; simpl; lia.
    - rewrite foldl_app. cbn [foldl]. by apply call_ring. }
  by split.
Qed.

(** *** Scenarios of the design document *)

(** Scenario D: [stop_timer] for a timer that was never started answers 0
    and changes nothing. *)
Theorem stop_timer_without_start (t now : Q) (name : string)
        (self : monitoring.MonitoringService) :
  monitoring.performance_timers self !! name = None ->
  monitoring.stop_timer t now name self = (0%Q, self).
Proof. intros H. unfold monitoring.stop_timer. by rewrite H. Qed.

Lemma stop_timer_without_start_witness :
  monitoring.stop_timer 7 7 "x" monitoring.monitoring_service
  = (0%Q, monitoring.monitoring_service).
Proof.
  apply (stop_timer_without_start 7 7 "x" monitoring.monitoring_service).
  reflexivity.
Defined.

(** Scenario B: with a free slot and the accelerator present, the admission
    check refuses when the used share of the accelerator memory has reached
    the threshold, and the reason names the memory. *)
Theorem admission_refused_on_memory (m : gpu.GPUResourceManager)
        (p : gpu.GPUStatus) :
  (gpu.active_tasks m < gpu.max_concurrent_tasks m)%Z ->
  gpu.available p = true ->
  (gpu.memory_threshold m <= gpu.memory_percent p / 100)%Q ->
  gpu.can_process_task m p = gpu.CannotProcess "GPU 記憶體不足".
Proof.
  intros Hfree Hav Hfull. unfold gpu.can_process_task, gpu.check_gpu_memory.
  rewrite Z.geb_leb. rewrite (proj2 (Z.leb_gt _ _) Hfree).
  rewrite Hav. cbn [negb].
  apply Qle_bool_iff in Hfull. by rewrite Hfull.
Qed.

Lemma admission_refused_on_memory_witness :
  gpu.can_process_task gpu.gpu_manager
                       (gpu.mkGPUStatus true 1000 900 50 95 None None)
  = gpu.CannotProcess "GPU 記憶體不足".
Proof.
  apply (admission_refused_on_memory
           gpu.gpu_manager (gpu.mkGPUStatus true 1000 900 50 95 None None)).
  - reflexivity.
  - reflexivity.
  - unfold Qle. cbn. lia.
Defined.

(** The cancel endpoint answers a request for a completed, failed or
    cancelled task with an error and changes nothing. *)
Theorem cancel_refuses_ended_task (task_id : string) (w : World)
        (t : tasks.Task) :
  tasks_db w !! task_id = Some t ->
  tasks.ended (tasks.status t) = true ->
  routes.cancel_task task_id w
  = (Raise (routes.HTTPException 400 "task_not_cancellable"), w).
Proof. intros Ht Hended. unfold routes.cancel_task. by rewrite Ht, Hended. Qed.

Lemma cancel_refuses_ended_task_witness :
  let w := assign_status "job-1" tasks.COMPLETED one_job in
  routes.cancel_task "job-1" w
  = (Raise (routes.HTTPException 400 "task_not_cancellable"), w).
Proof.
  apply (cancel_refuses_ended_task
           "job-1" (assign_status "job-1" tasks.COMPLETED one_job)
           (tasks.set_status tasks.COMPLETED
              (tasks.new_task "job-1" 0 ∅
                              "./storage/uploads/job-1_original.png" None))).
  - reflexivity.
  - reflexivity.
Defined.

Lemma try_block_invalid task_id file_path parameters t0 a w :
  processing.image_valid a = false ->
  processing.try_block task_id file_path parameters t0 a w
  = (Raise (Exception "無效的圖片檔案"),
     mutate_task task_id (tasks.set_message "正在處理圖片...")
       (mutate_task task_id (tasks.set_updated_at (clock w))
          (assign_status task_id tasks.PROCESSING w))).
Proof. intros H. unfold processing.try_block. by rewrite H. Qed.

Lemma except_block_final_journal task_id file_path parameters a e w t :
  tasks_db w !! task_id = Some t ->
  (tasks.get_max_retries t <= tasks.get_retry_count t)%Z
  \/ classifier.should_retry_error e = false ->
  journal (snd (processing.except_block task_id file_path parameters a e w))
  = journal w ++ [EvTaskFailed task_id e; EvStatus task_id tasks.FAILED;
                  EvCleanupFiles task_id].
Proof.
  intros Ht Hstop. unfold processing.except_block. cbv zeta.
  cbn [tasks_db monitor emit set_monitoring_service].
  rewrite Ht.
  assert ((tasks.get_retry_count t <? tasks.get_max_retries t)%Z
          && processing.should_retry_error e = false) as ->.
  { apply andb_false_iff. destruct Hstop as [Hge|He]; [left|by right].
    by apply Z.ltb_ge. }
  wsimpl. by rewrite <- !app_assoc.
Qed.

(** An image that does not validate: the task fails at once, with the
    validator's message, without retry and without asking for a lease. *)
Theorem invalid_image_fails_at_once
        (task_id file_path : string) (parameters : gmap string string)
        (a : processing.Attempt) (rest : list processing.Attempt)
        (w : World) (t : tasks.Task) :
  tasks_db w !! task_id = Some t ->
  processing.image_valid a = false ->
  exists w' t',
    processing.process_image_task task_id file_path parameters (a :: rest) w
    = Some w'
    /\ tasks_db w' !! task_id = Some t'
    /\ tasks.status t' = tasks.FAILED
    /\ tasks.error_message t' = Some "無效的圖片檔案"
    /\ tasks.retry_count t' = tasks.retry_count t
    /\ gpu_manager w' = gpu_manager w
    /\ journal w'
       = journal w
         ++ [EvStart task_id; EvStatus task_id tasks.PROCESSING;
             EvTaskFailed task_id (Exception "無效的圖片檔案");
             EvStatus task_id tasks.FAILED; EvCleanupFiles task_id].
Proof.
  intros Ht Hinvalid. cbn [processing.process_image_task].
  cbn [tasks_db emit monitor set_monitoring_service]. rewrite Ht.
  rewrite (try_block_invalid _ _ _ _ _ _ Hinvalid).
  set (wT := mutate_task task_id (tasks.set_message "正在處理圖片...") _).
  assert (HtT : tasks_db wT !! task_id
                = Some (tasks.set_message "正在處理圖片..."
                          (tasks.set_updated_at (clock w)
                             (tasks.set_status tasks.PROCESSING t)))).
  { unfold wT. wsimpl. by rewrite !lookup_alter_eq, Ht. }
  assert (HjT : journal wT
                = journal w ++ [EvStart task_id;
                                EvStatus task_id tasks.PROCESSING]).
  { unfold wT. wsimpl. by rewrite <- app_assoc. }
  assert (HgT : gpu_manager wT = gpu_manager w) by reflexivity.
  pose proof (except_block_final_journal task_id file_path parameters a
                (Exception "無效的圖片檔案") wT _ HtT (or_intror eq_refl)) as Hj.
  destruct (except_block_final task_id file_path parameters a
              (Exception "無效的圖片檔案") wT _ HtT (or_intror eq_refl))
    as (w1 & t1 & Hex & Hg1 & Ht1 & Hst & Hem & Hrc & _).
  rewrite Hex in Hj |- *. cbn [snd] in Hj.
  destruct (monitor_exit_frame w1) as (Hg' & Hdb' & Hj' & _).
  exists (processing.monitor_exit w1), t1.
  split; [reflexivity|].
  split; [by rewrite Hdb'|].
  split; [exact Hst|]. split; [exact Hem|]. split; [exact Hrc|].
  split; [by rewrite Hg', Hg1|].
  rewrite Hj', Hj, HjT. by rewrite <- app_assoc.
Qed.

Lemma invalid_image_fails_at_once_witness :
  exists w' t',
    run_job (invalid_image :: []) one_job = Some w'
    /\ tasks_db w' !! "job-1" = Some t'
    /\ tasks.status t' = tasks.FAILED
    /\ tasks.error_message t' = Some "無效的圖片檔案"
    /\ tasks.retry_count t'
       = tasks.retry_count
           (tasks.new_task "job-1" 0 ∅ "./storage/uploads/job-1_original.png"
                           None)
    /\ gpu_manager w' = gpu_manager one_job
    /\ journal w'
       = journal one_job
         ++ [EvStart "job-1"; EvStatus "job-1" tasks.PROCESSING;
             EvTaskFailed "job-1" (Exception "無效的圖片檔案");
             EvStatus "job-1" tasks.FAILED; EvCleanupFiles "job-1"].
Proof.
  apply (invalid_image_fails_at_once
           "job-1" "./storage/uploads/job-1_original.png" ∅ invalid_image []
           one_job
           (tasks.new_task "job-1" 0 ∅ "./storage/uploads/job-1_original.png"
                           None)).
  - reflexivity.
  - reflexivity.
Defined.

(* ===================================================================== *)
(** * Part III: further properties of the code                            *)
(* ===================================================================== *)

(* --------------------------------------------------------------------- *)
(** ** Python strings, continued *)
(* --------------------------------------------------------------------- *)

Lemma substring_skip (c : ascii) (s : string) (k n : nat) :
  String.substring (S k) n (String c s) = String.substring k n s.
Proof. reflexivity. Qed.

Lemma string_length_app (s1 s2 : string) :
  String.length (s1 +:+ s2) = String.length s1 + String.length s2.
Proof. induction s1 as [|c s1 IH]; simpl; [reflexivity|]. by rewrite IH. Qed.

Lemma append_cons a s x : String a s +:+ x = String a (s +:+ x).
Proof. reflexivity. Qed.

Lemma append_snoc s c rest : (s +:+ String c "") +:+ rest = s +:+ String c rest.
Proof.
  induction s as [|a s IH]; [reflexivity|].
  by rewrite !append_cons, IH.
Qed.

(** [endswith] looks at the end only: a suffix that fits in the second part of
    a concatenation is a suffix of the whole exactly when it is one of that
    part. *)
Lemma py_endswith_app (suffix s1 s2 : string) :
  String.length suffix <= String.length s2 ->
  py_endswith suffix (s1 +:+ s2) = py_endswith suffix s2.
Proof.
  intros Hle. unfold py_endswith.
  assert (forall s1, String.substring
            (String.length (s1 +:+ s2) - String.length suffix)
            (String.length suffix) (s1 +:+ s2)
          = String.substring (String.length s2 - String.length suffix)
                             (String.length suffix) s2) as Hsub.
  { clear s1. induction s1 as [|c s1 IH]; [reflexivity|].
    change (String c s1 +:+ s2) with (String c (s1 +:+ s2)).
    cbn [String.length].
    replace (S (String.length (s1 +:+ s2)) - String.length suffix)
      with (S (String.length (s1 +:+ s2) - String.length suffix))
      by (rewrite string_length_app; lia).
    rewrite substring_skip. exact IH. }
  rewrite Hsub, string_length_app.
  destruct (Nat.leb_spec (String.length suffix) (String.length s2)); [|lia].
  destruct (Nat.leb_spec (String.length suffix)
                         (String.length s1 + String.length s2)); [|lia].
  reflexivity.
Qed.

Lemma py_rfind_app_some c s1 s2 i :
  py_rfind c s2 = Some i ->
  py_rfind c (s1 +:+ s2) = Some (String.length s1 + i).
Proof.
  intros H. induction s1 as [|a s1 IH]; [exact H|].
  change (String a s1 +:+ s2) with (String a (s1 +:+ s2)).
  cbn [py_rfind String.length]. by rewrite IH.
Qed.

Lemma py_rfind_app_none c s1 s2 :
  py_rfind c s2 = None -> py_rfind c (s1 +:+ s2) = py_rfind c s1.
Proof.
  intros H. induction s1 as [|a s1 IH]; [exact H|].
  change (String a s1 +:+ s2) with (String a (s1 +:+ s2)).
  cbn [py_rfind]. by rewrite IH.
Qed.

Lemma py_rfind_lt c s i : py_rfind c s = Some i -> i < String.length s.
Proof.
  revert i. induction s as [|a s IH]; intros i; cbn [py_rfind String.length];
    [discriminate|].
  destruct (py_rfind c s) as [j|].
  - intros [= <-]. specialize (IH j eq_refl). lia.
  - destruct (Ascii.eqb a c); [|discriminate]. intros [= <-]. lia.
Qed.

Lemma py_rfind_none_head c a s :
  py_rfind c (String a s) = None -> a <> c /\ py_rfind c s = None.
Proof.
  cbn [py_rfind]. destruct (py_rfind c s); [discriminate|].
  destruct (Ascii.eqb_spec a c); [discriminate|]. by split.
Qed.

Lemma substring_whole s : String.substring 0 (String.length s) s = s.
Proof. induction s as [|a s IH]; cbn; [reflexivity|]. by rewrite IH. Qed.

Lemma substring_after s1 s2 n :
  String.substring (String.length s1) n (s1 +:+ s2) = String.substring 0 n s2.
Proof. induction s1 as [|a s1 IH]; [reflexivity|]. exact IH. Qed.

Lemma substring_0_0 s : String.substring 0 0 s = "".
Proof. by destruct s. Qed.

(** Lower-casing makes no dot. *)
Lemma lower_byte_dot c : c <> "."%char -> lower_byte c <> "."%char.
Proof.
  intros Hc. unfold lower_byte.
  destruct ((65 <=? nat_of_ascii c)%nat && (nat_of_ascii c <=? 90)%nat) eqn:E;
    [|exact Hc].
  apply andb_true_iff in E as [H1 H2].
  apply Nat.leb_le in H1, H2.
  intros Heq. apply (f_equal nat_of_ascii) in Heq.
  revert H1 H2 Heq. generalize (nat_of_ascii c). intros n H1 H2 Heq.
  rewrite nat_ascii_embedding in Heq by lia.
  change (nat_of_ascii ".") with 46 in Heq. lia.
Qed.

(* --------------------------------------------------------------------- *)
(** ** The recorder: timers, counters and windows *)
(* --------------------------------------------------------------------- *)

Ltac rec_simpl :=
  cbn [monitoring.max_metrics_history monitoring.max_error_history
       monitoring.metrics_history monitoring.error_history
       monitoring.counters monitoring.gauges
       monitoring.processing_times monitoring.performance_timers
       monitoring.error_counts monitoring.error_rates monitoring.task_stats
       monitoring.set_metrics_history monitoring.set_error_history
       monitoring.set_counters monitoring.set_gauges
       monitoring.set_performance_timers monitoring.set_error_counts
       monitoring.set_error_rates monitoring.set_task_stats
       monitoring.set_processing_times
       monitoring.total_tasks monitoring.completed_tasks
       monitoring.failed_tasks monitoring.retried_tasks
       monitoring.average_processing_time].

Lemma calls_snoc cs c self :
  monitoring.calls (cs ++ [c]) self = monitoring.call c (monitoring.calls cs self).
Proof. unfold monitoring.calls. by rewrite foldl_app. Qed.

(** Induction on the calls made so far. *)
Lemma calls_ind (P : monitoring.MonitoringService -> Prop) self :
  P self ->
  (forall c s, P s -> P (monitoring.call c s)) ->
  forall cs, P (monitoring.calls cs self).
Proof.
  intros H0 Hstep cs. induction cs as [|c cs IH] using rev_ind; [exact H0|].
  rewrite calls_snoc. by apply Hstep.
Qed.

(** *** Timers *)

(** The name under which a timer records its duration never ends in
    "_count". *)
Lemma duration_is_a_gauge (name : string) :
  py_endswith "_count" (name +:+ "_duration") = false.
Proof. rewrite py_endswith_app; [reflexivity | cbn; lia]. Qed.

Lemma stop_after_start (t0 t now : Q) (name : string)
      (self : monitoring.MonitoringService) :
  monitoring.stop_timer t now name (monitoring.start_timer t0 name self)
  = ((t - t0)%Q,
     monitoring.record_metric now (name +:+ "_duration") (t - t0)%Q []
       (monitoring.set_performance_timers
          (delete name (monitoring.performance_timers self)) self)).
Proof.
  unfold monitoring.stop_timer, monitoring.start_timer.
  cbn [monitoring.performance_timers monitoring.set_performance_timers].
  rewrite lookup_insert_eq. cbv zeta.
  cbn [monitoring.performance_timers monitoring.set_performance_timers].
  by rewrite delete_insert_eq.
Qed.

(** [start_timer] followed by [stop_timer] of the same name: the answer is
    the time between the two readings of [time.time()], the timer is gone
    (also when it had been running before the start), the duration is the
    gauge "<name>_duration", no counter moves, and a second [stop_timer]
    answers 0.0 and changes nothing. *)
Theorem timer_round_trip (t0 t now : Q) (name : string)
        (self : monitoring.MonitoringService) :
  let started := monitoring.start_timer t0 name self in
  let stopped := snd (monitoring.stop_timer t now name started) in
  fst (monitoring.stop_timer t now name started) = (t - t0)%Q
  /\ monitoring.performance_timers stopped
     = delete name (monitoring.performance_timers self)
  /\ monitoring.gauges stopped !! (name +:+ "_duration") = Some (t - t0)%Q
  /\ monitoring.counters stopped = monitoring.counters self
  /\ monitoring.stop_timer t now name stopped = (0%Q, stopped).
Proof.
  cbv zeta. rewrite stop_after_start. cbn [fst snd].
  unfold monitoring.record_metric. rewrite duration_is_a_gauge.
  cbn [monitoring.performance_timers monitoring.set_performance_timers
       monitoring.set_metrics_history monitoring.set_gauges monitoring.gauges
       monitoring.counters].
  split; [reflexivity|]. split; [reflexivity|].
  split; [by rewrite lookup_insert_eq|]. split; [reflexivity|].
  unfold monitoring.stop_timer.
  cbn [monitoring.performance_timers monitoring.set_performance_timers
       monitoring.set_metrics_history monitoring.set_gauges].
  by rewrite lookup_delete_eq.
Qed.

(** *** Counters and gauges *)

Lemma record_metric_kinds now name v tg self :
  metric_kinds self -> metric_kinds (monitoring.record_metric now name v tg self).
Proof.
  intros [Hc Hg]. unfold monitoring.record_metric.
  destruct (py_endswith "_count" name) eqn:E; split; rec_simpl; intros k Hk.
  - destruct (decide (k = name)) as [->|Hne]; [exact E|].
    rewrite lookup_insert_ne in Hk by done. by apply Hc.
  - by apply Hg.
  - by apply Hc.
  - destruct (decide (k = name)) as [->|Hne]; [exact E|].
    rewrite lookup_insert_ne in Hk by done. by apply Hg.
Qed.

Lemma call_kinds c self : metric_kinds self -> metric_kinds (monitoring.call c self).
Proof.
  intros H. destruct c; cbn [monitoring.call].
  - by apply record_metric_kinds.
  - unfold monitoring.record_error. cbv zeta.
    by destruct (opt_str_truthy task_id).
  - exact H.
  - unfold monitoring.stop_timer.
    destruct (monitoring.performance_timers self !! name); cbn [snd]; [|exact H].
    by apply record_metric_kinds.
  - unfold monitoring.record_task_completed. cbv zeta.
    do 2 apply record_metric_kinds. rec_simpl.
    by destruct (deque_append 100 processing_time _).
  - unfold monitoring.record_task_retry. cbv zeta. by apply record_metric_kinds.
  - unfold monitoring.clear_old_data.
    by destruct (datetime.ago now days 0).
Qed.

(** Whatever is recorded on a new recorder, a metric name is a key of
    [counters] only if it ends in "_count" and a key of [gauges] only if it
    does not: no name is ever both. *)
Theorem counters_and_gauges_by_suffix
        (max_metrics max_errors : nat) (cs : list monitoring.Call)
        (name : string) :
  let self := monitoring.calls cs (monitoring.__init__ max_metrics max_errors) in
  (is_Some (monitoring.counters self !! name) ->
   py_endswith "_count" name = true)
  /\ (is_Some (monitoring.gauges self !! name) ->
      py_endswith "_count" name = false).
Proof.
  intros self.
  assert (metric_kinds self) as [Hc Hg].
  { apply calls_ind; [|intros; by apply call_kinds].
    split; intros k [x Hx]; cbn in Hx; by rewrite lookup_empty in Hx. }
  split; [apply Hc | apply Hg].
Qed.

(** *** The task statistics and the error counts *)

Lemma how_many_snoc p cs c :
  how_many p (cs ++ [c]) = (how_many p cs + if p c then 1 else 0)%Z.
Proof.
  unfold how_many. rewrite List.filter_app, length_app. cbn [List.filter].
  destruct (p c); cbn [length]; lia.
Qed.

(** After any sequence of calls on a new recorder, [completed_tasks] is the
    number of calls of [record_task_completed], [retried_tasks] the number
    of calls of [record_task_retry], and [failed_tasks] the number of calls
    of [record_error] with a task id that is neither [None] nor empty;
    [clear_old_data] resets none of them. *)
Theorem task_stats_count_the_calls
        (max_metrics max_errors : nat) (cs : list monitoring.Call) :
  let st := monitoring.task_stats
              (monitoring.calls cs (monitoring.__init__ max_metrics max_errors)) in
  monitoring.completed_tasks st = how_many is_completion cs
  /\ monitoring.failed_tasks st = how_many is_task_error cs
  /\ monitoring.retried_tasks st = how_many is_retry cs.
Proof.
  cbv zeta.
  assert (counts_of (monitoring.calls cs (monitoring.__init__ max_metrics max_errors))
          = (how_many is_completion cs, how_many is_task_error cs,
             how_many is_retry cs)) as H.
  { induction cs as [|c cs IH] using rev_ind; [reflexivity|].
    rewrite calls_snoc, counts_of_call, IH, !how_many_snoc.
    destruct c; cbn [is_completion is_task_error is_retry];
      try destruct (opt_str_truthy task_id);
      repeat (apply pair_equal_spec; split); lia. }
  unfold counts_of in H. by inversion H.
Qed.

Lemma record_metric_error_counts now name v tg self :
  monitoring.error_counts (monitoring.record_metric now name v tg self)
  = monitoring.error_counts self.
Proof. unfold monitoring.record_metric. by destruct (py_endswith _ _). Qed.

Lemma call_error_counts c self ty :
  default 0%Z (monitoring.error_counts (monitoring.call c self) !! ty)
  = (default 0%Z (monitoring.error_counts self !! ty)
     + if is_error_of ty c then 1 else 0)%Z.
Proof.
  destruct c; cbn [monitoring.call is_error_of];
    rewrite ?record_metric_error_counts, ?Z.add_0_r; try reflexivity;
    try (unfold monitoring.clear_old_data;
         by destruct (datetime.ago now days 0)).
  - unfold monitoring.record_error. cbv zeta.
    assert (forall s, monitoring.error_counts
              (if opt_str_truthy task_id
               then monitoring.set_task_stats
                      (monitoring.mkStats
                         (monitoring.total_tasks (monitoring.task_stats s))
                         (monitoring.completed_tasks (monitoring.task_stats s))
                         (monitoring.failed_tasks (monitoring.task_stats s) + 1)
                         (monitoring.retried_tasks (monitoring.task_stats s))
                         (monitoring.average_processing_time
                            (monitoring.task_stats s))) s
               else s) = monitoring.error_counts s) as ->
        by (intros s; by destruct (opt_str_truthy task_id)).
    rec_simpl. cbn [monitoring.error_type].
    case_bool_decide as Hty.
    + subst ty. by rewrite lookup_insert_eq.
    + rewrite lookup_insert_ne by done. lia.
  - unfold monitoring.stop_timer.
    destruct (monitoring.performance_timers self !! name); cbn [snd];
      by rewrite ?record_metric_error_counts.
  - unfold monitoring.record_task_completed. cbv zeta.
    rewrite !record_metric_error_counts. rec_simpl.
    by destruct (deque_append 100 processing_time _).
Qed.

(** After any sequence of calls on a new recorder, [error_counts[ty]] is the
    number of errors of type [ty] recorded so far, whether or not they are
    still in the history. *)
Theorem error_counts_by_type
        (max_metrics max_errors : nat) (cs : list monitoring.Call)
        (ty : string) :
  let self := monitoring.calls cs (monitoring.__init__ max_metrics max_errors) in
  default 0%Z (monitoring.error_counts self !! ty) = how_many (is_error_of ty) cs.
Proof.
  cbv zeta. induction cs as [|c cs IH] using rev_ind; [reflexivity|].
  by rewrite calls_snoc, call_error_counts, IH, how_many_snoc.
Qed.

(** *** The windows of 100 entries *)

Lemma deque_append_le {A} (maxlen : nat) (x : A) (d : list A) :
  length (deque_append maxlen x d) <= maxlen.
Proof. rewrite deque_append_length. lia. Qed.

Lemma deque_of_le {A} (maxlen : nat) (items : list A) :
  length (deque_of maxlen items) <= maxlen.
Proof. rewrite deque_of_length. lia. Qed.

Lemma record_metric_windows now name v tg self :
  windows_inv self -> windows_inv (monitoring.record_metric now name v tg self).
Proof.
  intros H. unfold monitoring.record_metric.
  by destruct (py_endswith "_count" name).
Qed.

Lemma call_windows c self : windows_inv self -> windows_inv (monitoring.call c self).
Proof.
  intros H. destruct c; cbn [monitoring.call].
  - by apply record_metric_windows.
  - destruct H as [Hr Hp]. unfold monitoring.record_error. cbv zeta.
    cbn [monitoring.error_type].
    destruct (opt_str_truthy task_id); (split; rec_simpl; [|exact Hp]);
      intros ty l Hl;
      (destruct (decide (ty = exc_type error)) as [->|Hne];
       [rewrite lookup_insert_eq in Hl; injection Hl as <-;
        apply deque_append_le
       |rewrite lookup_insert_ne in Hl by done; by eapply Hr]).
  - exact H.
  - unfold monitoring.stop_timer.
    destruct (monitoring.performance_timers self !! name); cbn [snd]; [|exact H].
    by apply record_metric_windows.
  - unfold monitoring.record_task_completed. cbv zeta.
    do 2 apply record_metric_windows. rec_simpl.
    destruct H as [Hr Hp].
    pose proof (deque_append_le 100 processing_time
                  (monitoring.processing_times self)) as Hle.
    destruct (deque_append 100 processing_time _) eqn:E; split; rec_simpl;
      try exact Hr; exact Hle.
  - unfold monitoring.record_task_retry. cbv zeta.
    apply record_metric_windows. exact H.
  - unfold monitoring.clear_old_data.
    destruct (datetime.ago now days 0) as [cutoff_time|]; [|exact H].
    destruct H as [Hr Hp]. cbv zeta.
    split; rec_simpl; [|exact Hp].
    intros ty l Hl. rewrite lookup_fmap in Hl.
    destruct (monitoring.error_rates self !! ty); [|discriminate].
    injection Hl as <-. apply deque_of_le.
Qed.

(** The window of processing times never holds more than 100 entries, and
    the number of errors of a type that the summary reports for the last
    five minutes never exceeds 100, however many were recorded. *)
Theorem sliding_windows_hold_at_most_100
        (max_metrics max_errors : nat) (cs : list monitoring.Call)
        (now : Q) (ty : string) (n : nat) :
  let self := monitoring.calls cs (monitoring.__init__ max_metrics max_errors) in
  length (monitoring.processing_times self) <= 100
  /\ (monitoring.s_error_rates_5min (monitoring.get_metrics_summary now self)
        !! ty = Some n -> n <= 100).
Proof.
  intros self.
  assert (windows_inv self) as [Hr Hp].
  { apply calls_ind; [|intros; by apply call_windows].
    split; [|cbn; lia]. intros k l Hl. cbn in Hl.
    by rewrite lookup_empty in Hl. }
  split; [exact Hp|].
  unfold monitoring.get_metrics_summary. cbv zeta.
  cbn [monitoring.s_error_rates_5min]. rewrite lookup_fmap.
  destruct (monitoring.error_rates self !! ty) as [l|] eqn:El; [|discriminate].
  intros [= <-]. specialize (Hr ty l El).
  etrans; [apply List.filter_length_le|exact Hr].
Qed.

(** *** Clearing old data *)

Lemma deque_of_fits {A} (maxlen : nat) (items : list A) :
  length items <= maxlen -> deque_of maxlen items = items.
Proof.
  intros H. unfold deque_of.
  by replace (length items - maxlen) with 0 by lia.
Qed.

Lemma calls_ring M E cs : ring_inv M E (monitoring.calls cs (monitoring.__init__ M E)).
Proof.
  apply calls_ind; [|intros; by apply call_ring].
  repeat split; cbn; lia.
Qed.

(** The cutoff of [clear_old_data] and of [get_error_report], where
    Python computes it: the [timedelta] holds fewer than 10^9 days and the
    cutoff is a [datetime] of the years 1 to 9999. *)
Lemma ago_days (now : Q) (days : Z) :
  (-999999999 <= days <= 999999999)%Z ->
  (0 <= now - inject_Z (days * 86400))%Q ->
  (now - inject_Z (days * 86400) < 315537897600)%Q ->
  datetime.ago now days 0 = Some (now - inject_Z (days * 86400))%Q.
Proof.
  intros Hd H0 H1. unfold datetime.ago, datetime.timedelta. cbv zeta.
  rewrite Z.mul_0_l, Z.add_0_r, Z.div_mul by lia.
  destruct (Z.leb_spec (-999999999) days); [|lia].
  destruct (Z.leb_spec days 999999999); [|lia].
  cbn [andb]. unfold datetime.sub. cbv zeta.
  apply Qle_bool_iff in H0. rewrite H0.
  change (inject_Z datetime.span) with 315537897600%Q.
  apply Qgt_bool_true in H1. by rewrite H1.
Qed.

Lemma ago_hours (now : Q) (hours : Z) :
  (-23999999976 <= hours < 24000000000)%Z ->
  (0 <= now - inject_Z (hours * 3600))%Q ->
  (now - inject_Z (hours * 3600) < 315537897600)%Q ->
  datetime.ago now 0 hours = Some (now - inject_Z (hours * 3600))%Q.
Proof.
  intros Hh H0 H1. unfold datetime.ago, datetime.timedelta. cbv zeta.
  rewrite Z.mul_0_l, Z.add_0_l.
  assert (hours * 3600 / 86400 = hours / 24)%Z as ->.
  { change 86400%Z with (24 * 3600)%Z. apply Z.div_mul_cancel_r; lia. }
  assert (-999999999 <= hours / 24 <= 999999999)%Z as [Hlo Hhi].
  { split; [apply Z.div_le_lower_bound; lia|].
    apply Z.lt_succ_r, Z.div_lt_upper_bound; lia. }
  destruct (Z.leb_spec (-999999999) (hours / 24)); [|lia].
  destruct (Z.leb_spec (hours / 24) 999999999); [|lia].
  cbn [andb]. unfold datetime.sub. cbv zeta.
  apply Qle_bool_iff in H0. rewrite H0.
  change (inject_Z datetime.span) with 315537897600%Q.
  apply Qgt_bool_true in H1. by rewrite H1.
Qed.

(** [clear_old_data] on a recorder reached by calls from a new one, for a
    number of days that [timedelta] takes (fewer than 10^9 either way) and
    a cutoff that is a [datetime] (0 <= cutoff < 315537897600 seconds from
    0001-01-01, the years 1 to 9999): both histories lose exactly the
    entries older than the cutoff and keep the others in order; the task
    statistics, the error counts, the counters, the gauges and the
    processing times are as before. *)
Theorem clear_old_data_drops_only_old_entries
        (max_metrics max_errors : nat) (cs : list monitoring.Call)
        (now : Q) (days : Z) :
  let self := monitoring.calls cs (monitoring.__init__ max_metrics max_errors) in
  let cutoff_time := (now - inject_Z (days * 86400))%Q in
  let cleared := monitoring.clear_old_data now days self in
  (-999999999 <= days <= 999999999)%Z ->
  (0 <= cutoff_time)%Q ->
  (cutoff_time < 315537897600)%Q ->
  monitoring.metrics_history cleared
  = List.filter (fun m => Qle_bool cutoff_time (monitoring.timestamp m))
                (monitoring.metrics_history self)
  /\ monitoring.error_history cleared
     = List.filter (fun e => Qle_bool cutoff_time (monitoring.e_timestamp e))
                   (monitoring.error_history self)
  /\ monitoring.task_stats cleared = monitoring.task_stats self
  /\ monitoring.error_counts cleared = monitoring.error_counts self
  /\ monitoring.counters cleared = monitoring.counters self
  /\ monitoring.gauges cleared = monitoring.gauges self
  /\ monitoring.processing_times cleared = monitoring.processing_times self.
Proof.
  intros self cutoff_time cleared Hdays Hlow Hhigh.
  destruct (calls_ring max_metrics max_errors cs) as (HM & HE & Hm & He).
  fold self in HM, HE, Hm, He.
  unfold cleared, monitoring.clear_old_data.
  rewrite (ago_days now days Hdays Hlow Hhigh). cbv zeta. rec_simpl.
  fold cutoff_time.
  split.
  { apply deque_of_fits. rewrite HM.
    etrans; [apply List.filter_length_le|exact Hm]. }
  split.
  { apply deque_of_fits. rewrite HE.
    etrans; [apply List.filter_length_le|exact He]. }
  repeat split.
Qed.

Lemma clear_old_data_drops_only_old_entries_witness :
  let self := monitoring.calls ten_days_of_calls (monitoring.__init__ 1000 500) in
  let cutoff_time := (63900000000 - inject_Z (7 * 86400))%Q in
  let cleared := monitoring.clear_old_data 63900000000 7 self in
  monitoring.metrics_history cleared
  = List.filter (fun m => Qle_bool cutoff_time (monitoring.timestamp m))
                (monitoring.metrics_history self)
  /\ monitoring.error_history cleared
     = List.filter (fun e => Qle_bool cutoff_time (monitoring.e_timestamp e))
                   (monitoring.error_history self)
  /\ monitoring.task_stats cleared = monitoring.task_stats self
  /\ monitoring.error_counts cleared = monitoring.error_counts self
  /\ monitoring.counters cleared = monitoring.counters self
  /\ monitoring.gauges cleared = monitoring.gauges self
  /\ monitoring.processing_times cleared = monitoring.processing_times self.
Proof.
  apply (clear_old_data_drops_only_old_entries
           1000 500 ten_days_of_calls 63900000000 7).
  - lia.
  - unfold Qle. cbn. lia.
  - unfold Qlt. cbn. lia.
Defined.

(** Where the cutoff is out of range the call raises at its first line,
    and the recorder is as it was. *)
Lemma clear_old_data_out_of_range (now : Q) (days : Z)
      (self : monitoring.MonitoringService) :
  datetime.ago now days 0 = None ->
  monitoring.clear_old_data now days self = self.
Proof. intros H. unfold monitoring.clear_old_data. by rewrite H. Qed.

(** Ten days back from the year 2025 the two old entries go and the three
    of the last hour stay; three million days ahead of it the cutoff is
    past the year 9999 and nothing changes. *)
Example clear_old_data_evaluated :
  let self := monitoring.calls ten_days_of_calls (monitoring.__init__ 1000 500) in
  (length (monitoring.metrics_history self) = 2
   /\ length (monitoring.error_history self) = 3)
  /\ (length (monitoring.metrics_history
                (monitoring.clear_old_data 63900000000 7 self)) = 1
      /\ length (monitoring.error_history
                   (monitoring.clear_old_data 63900000000 7 self)) = 2)
  /\ datetime.ago 63900000000 (-3000000) 0 = None
  /\ monitoring.clear_old_data 63900000000 (-3000000) self = self.
Proof. repeat split; vm_compute; reflexivity. Qed.

(** *** The summary *)

Lemma newest_step seen acc m :
  newest_ok seen acc -> newest_ok (seen ++ [m]) (monitoring.newest acc m).
Proof.
  intros H name. specialize (H name). unfold monitoring.newest.
  destruct (decide (monitoring.metric_name m = name)) as [<-|Hne].
  - destruct (acc !! monitoring.metric_name m) as [[v ts]|] eqn:E.
    + destruct H as [(m0 & Hin & Hn & Hv & Ht) Hmax].
      destruct (Qle_bool (monitoring.timestamp m) ts) eqn:Hle; cbn [negb].
      * rewrite E. split.
        -- exists m0. rewrite elem_of_app. tauto.
        -- intros m' [Hin' | ->%list_elem_of_singleton]%elem_of_app Hn'.
           ++ by apply Hmax.
           ++ by apply Qle_bool_iff.
      * rewrite lookup_insert_eq. split.
        -- exists m. rewrite elem_of_app, list_elem_of_singleton. tauto.
        -- intros m' [Hin' | ->%list_elem_of_singleton]%elem_of_app Hn'.
           ++ apply Qle_trans with ts; [by apply Hmax|].
              apply Qlt_le_weak, Qnot_le_lt. intros Hc.
              apply Qle_bool_iff in Hc. congruence.
           ++ apply Qle_refl.
    + rewrite lookup_insert_eq. split.
      * exists m. rewrite elem_of_app, list_elem_of_singleton. tauto.
      * intros m' [Hin' | ->%list_elem_of_singleton]%elem_of_app Hn'.
        -- by destruct (H m' Hin').
        -- apply Qle_refl.
  - assert (monitoring.newest acc m !! name = acc !! name) as Hsame.
    { unfold monitoring.newest.
      destruct (acc !! monitoring.metric_name m) as [[v ts]|];
        [destruct (negb _)|]; by rewrite ?lookup_insert_ne. }
    unfold monitoring.newest in Hsame. rewrite Hsame.
    destruct (acc !! name) as [[v ts]|].
    + destruct H as [(m0 & Hin & Hn & Hv & Ht) Hmax]. split.
      * exists m0. rewrite elem_of_app. tauto.
      * intros m' [Hin' | ->%list_elem_of_singleton]%elem_of_app Hn';
          [by apply Hmax | done].
    + intros m' [Hin' | ->%list_elem_of_singleton]%elem_of_app;
        [by apply H | done].
Qed.

Lemma newest_fold l : newest_ok l (foldl monitoring.newest ∅ l).
Proof.
  induction l as [|m l IH] using rev_ind.
  - intros name. cbn [foldl]. rewrite lookup_empty.
    intros m Hm. by apply elem_of_nil in Hm.
  - rewrite foldl_app. cbn [foldl]. by apply newest_step.
Qed.

(** [recent_metrics] of the summary has a name exactly when one of the last
    50 samples has it, and its value is the value of such a sample than
    which no sample of that name among the 50 is newer. *)
Theorem summary_reports_the_newest_of_the_last_50
        (now : Q) (self : monitoring.MonitoringService) (name : string) :
  match monitoring.s_recent_metrics (monitoring.get_metrics_summary now self)
          !! name with
  | None => forall m, m ∈ window_50 self -> monitoring.metric_name m <> name
  | Some v =>
      exists m, m ∈ window_50 self
                /\ monitoring.metric_name m = name
                /\ monitoring.value m = v
                /\ forall m', m' ∈ window_50 self ->
                              monitoring.metric_name m' = name ->
                              (monitoring.timestamp m' <= monitoring.timestamp m)%Q
  end.
Proof.
  unfold monitoring.get_metrics_summary. cbv zeta.
  cbn [monitoring.s_recent_metrics]. rewrite lookup_fmap.
  pose proof (newest_fold (window_50 self) name) as H.
  unfold window_50 in *.
  destruct (foldl monitoring.newest ∅ _ !! name) as [[v ts]|]; cbn.
  - destruct H as [(m & Hin & Hn & Hv & Ht) Hmax].
    exists m. repeat split; try done. intros m' Hin' Hn'. rewrite Ht.
    by apply Hmax.
  - exact H.
Qed.

(** *** The error report *)

Lemma group_by_type_lookup ty l :
  forall acc,
    foldl monitoring.group_by_type acc l !! ty
    = match of_type ty l with
      | [] => acc !! ty
      | _ :: _ => Some (default [] (acc !! ty) ++ of_type ty l)
      end.
Proof.
  induction l as [|x l IH]; intros acc; [reflexivity|].
  cbn [foldl]. rewrite IH. unfold of_type. cbn [List.filter].
  unfold monitoring.group_by_type.
  case_bool_decide as Hty.
  - rewrite Hty, lookup_insert_eq. cbn [default].
    destruct (List.filter _ l) as [|y f].
    + reflexivity.
    + unfold id. by rewrite <- app_assoc.
  - rewrite lookup_insert_ne by done. reflexivity.
Qed.

(** [get_error_report], for a number of hours that [timedelta] takes and
    a cutoff that is a [datetime] (the years 1 to 9999), returns a report.
    Its [total_errors] is the number of errors of the last [hours] hours
    that are still in the history; a type is a key of [error_types]
    exactly when one of them has it, with their number, the float
    [(count / total) * 100] and the message of the last of them. *)
Theorem error_report_counts_by_type
        (now : Q) (hours : Z) (self : monitoring.MonitoringService)
        (ty : string) :
  let cutoff_time := (now - inject_Z (hours * 3600))%Q in
  let recent := recent_errors_of now hours self in
  (-23999999976 <= hours < 24000000000)%Z ->
  (0 <= cutoff_time)%Q ->
  (cutoff_time < 315537897600)%Q ->
  exists report,
    monitoring.get_error_report now hours self = Some report
    /\ monitoring.total_errors report = length recent
    /\ monitoring.error_types report !! ty
       = match of_type ty recent with
         | [] => None
         | _ :: _ =>
             Some (monitoring.mkTypeReport
                     (length (of_type ty recent))
                     (float.mul
                        (float.truediv (Z.of_nat (length (of_type ty recent)))
                                       (Z.of_nat (length recent)))
                        100)
                     (monitoring.error_message <$> last (of_type ty recent)))
         end.
Proof.
  intros cutoff_time recent Hhours Hlow Hhigh.
  unfold monitoring.get_error_report.
  rewrite (ago_hours now hours Hhours Hlow Hhigh). cbv zeta.
  fold (recent_errors_of now hours self). fold recent.
  eexists. split; [reflexivity|].
  cbn [monitoring.total_errors monitoring.error_types].
  split; [reflexivity|].
  rewrite lookup_fmap, group_by_type_lookup, lookup_empty.
  destruct (of_type ty recent) as [|e es] eqn:E; [reflexivity|].
  cbn [default app fmap option_fmap option_map].
  destruct recent as [|r rs]; [discriminate E|].
  reflexivity.
Qed.

Lemma error_report_counts_by_type_witness :
  let self := monitoring.calls ten_days_of_calls (monitoring.__init__ 1000 500) in
  let recent := recent_errors_of 63900000000 24 self in
  exists report,
    monitoring.get_error_report 63900000000 24 self = Some report
    /\ monitoring.total_errors report = length recent
    /\ monitoring.error_types report !! "RuntimeError"
       = match of_type "RuntimeError" recent with
         | [] => None
         | _ :: _ =>
             Some (monitoring.mkTypeReport
                     (length (of_type "RuntimeError" recent))
                     (float.mul
                        (float.truediv
                           (Z.of_nat (length (of_type "RuntimeError" recent)))
                           (Z.of_nat (length recent)))
                        100)
                     (monitoring.error_message
                        <$> last (of_type "RuntimeError" recent)))
         end.
Proof.
  apply (error_report_counts_by_type
           63900000000 24
           (monitoring.calls ten_days_of_calls (monitoring.__init__ 1000 500))
           "RuntimeError").
  - lia.
  - unfold Qle. cbn. lia.
  - unfold Qlt. cbn. lia.
Defined.

(** On that recorder the report of the last 24 hours counts two errors,
    one of them a RuntimeError: its share is the float 50.0.  A hundred
    million hours back the cutoff is before the year 1, and there is no
    report. *)
Example error_report_evaluated :
  let self := monitoring.calls ten_days_of_calls (monitoring.__init__ 1000 500) in
  (monitoring.total_errors <$> monitoring.get_error_report 63900000000 24 self)
  = Some 2
  /\ ((fun report =>
         monitoring.percentage
           <$> monitoring.error_types report !! "RuntimeError")
        <$> monitoring.get_error_report 63900000000 24 self)
     = Some (Some (float.nearest 50))
  /\ monitoring.get_error_report 63900000000 100000000 self = None.
Proof. repeat split; vm_compute; reflexivity. Qed.

Lemma insert_newest_first_perm x l :
  monitoring.insert_newest_first x l ≡ₚ x :: l.
Proof.
  induction l as [|y l IH]; cbn [monitoring.insert_newest_first]; [done|].
  destruct (negb _); [done|]. rewrite IH. apply Permutation_swap.
Qed.

Lemma insert_newest_first_sorted x l :
  StronglySorted not_older l ->
  StronglySorted not_older (monitoring.insert_newest_first x l).
Proof.
  induction 1 as [|y l Hs IH Hall]; cbn [monitoring.insert_newest_first].
  - repeat constructor.
  - destruct (Qle_bool (monitoring.e_timestamp x) (monitoring.e_timestamp y))
      eqn:Hle; cbn [negb].
    + constructor; [exact IH|].
      rewrite insert_newest_first_perm. constructor; [|exact Hall].
      by apply Qle_bool_iff.
    + assert (not_older x y) as Hxy.
      { unfold not_older. apply Qlt_le_weak, Qnot_le_lt. intros Hc.
        apply Qle_bool_iff in Hc. congruence. }
      constructor; [by constructor|].
      constructor; [exact Hxy|].
      eapply Forall_impl; [exact Hall|]. intros z Hz. unfold not_older in *.
      by apply Qle_trans with (monitoring.e_timestamp y).
Qed.

Lemma sorted_newest_first_spec l :
  monitoring.sorted_newest_first l ≡ₚ l
  /\ StronglySorted not_older (monitoring.sorted_newest_first l).
Proof.
  unfold monitoring.sorted_newest_first.
  induction l as [|x l [IHp IHs]] using rev_ind.
  - split; [done|constructor].
  - rewrite foldl_app. cbn [foldl]. split.
    + rewrite insert_newest_first_perm, IHp. by rewrite Permutation_cons_append.
    + by apply insert_newest_first_sorted.
Qed.

(** For a number of hours that [timedelta] takes and a cutoff that is a
    [datetime], [recent_errors] of the report lists [min(10, total_errors)]
    of the recent errors, newest first, and no recent error that is left
    out is newer than a listed one. *)
Theorem error_report_lists_the_ten_newest
        (now : Q) (hours : Z) (self : monitoring.MonitoringService) :
  let cutoff_time := (now - inject_Z (hours * 3600))%Q in
  let recent := recent_errors_of now hours self in
  (-23999999976 <= hours < 24000000000)%Z ->
  (0 <= cutoff_time)%Q ->
  (cutoff_time < 315537897600)%Q ->
  exists report,
    monitoring.get_error_report now hours self = Some report
    /\ let listed := monitoring.recent_errors report in
       length listed = Nat.min 10 (length recent)
       /\ StronglySorted listed_before listed
       /\ (forall r, r ∈ listed ->
                     exists e, e ∈ recent /\ r = monitoring.recent_view e)
       /\ (forall e r, e ∈ recent -> monitoring.recent_view e ∉ listed ->
                       r ∈ listed ->
                       (monitoring.e_timestamp e <= monitoring.re_timestamp r)%Q).
Proof.
  intros cutoff_time recent Hhours Hlow Hhigh.
  unfold monitoring.get_error_report.
  rewrite (ago_hours now hours Hhours Hlow Hhigh). cbv zeta.
  fold (recent_errors_of now hours self). fold recent.
  eexists. split; [reflexivity|].
  cbn [monitoring.recent_errors].
  destruct (sorted_newest_first_spec recent) as [Hp Hs].
  set (sorted := monitoring.sorted_newest_first recent) in *.
  split.
  { rewrite length_fmap, length_take, (Permutation_length Hp). lia. }
  rewrite <- (take_drop 10 sorted) in Hs.
  apply StronglySorted_app in Hs as (Hcross & Hfront & _).
  assert (forall e, e ∈ take 10 sorted -> e ∈ recent) as Hin.
  { intros e He. rewrite <- Hp, <- (take_drop 10 sorted), elem_of_app.
    by left. }
  split.
  { eapply StronglySorted_fmap; [|exact Hfront]. by intros x y Hxy. }
  split.
  { intros r (e & -> & He)%list_elem_of_fmap. exists e. by split; [apply Hin|]. }
  intros e r He Hnot (e' & -> & He')%list_elem_of_fmap.
  cbn [monitoring.recent_view monitoring.re_timestamp].
  rewrite <- Hp, <- (take_drop 10 sorted), elem_of_app in He.
  destruct He as [He|He].
  { exfalso. apply Hnot. apply list_elem_of_fmap. by exists e. }
  exact (Hcross e' e He' He).
Qed.

Lemma error_report_lists_the_ten_newest_witness :
  let self := monitoring.calls ten_days_of_calls (monitoring.__init__ 1000 500) in
  let recent := recent_errors_of 63900000000 24 self in
  exists report,
    monitoring.get_error_report 63900000000 24 self = Some report
    /\ let listed := monitoring.recent_errors report in
       length listed = Nat.min 10 (length recent)
       /\ StronglySorted listed_before listed
       /\ (forall r, r ∈ listed ->
                     exists e, e ∈ recent /\ r = monitoring.recent_view e)
       /\ (forall e r, e ∈ recent -> monitoring.recent_view e ∉ listed ->
                       r ∈ listed ->
                       (monitoring.e_timestamp e <= monitoring.re_timestamp r)%Q).
Proof.
  apply (error_report_lists_the_ten_newest
           63900000000 24
           (monitoring.calls ten_days_of_calls (monitoring.__init__ 1000 500))).
  - lia.
  - unfold Qle. cbn. lia.
  - unfold Qlt. cbn. lia.
Defined.

(* --------------------------------------------------------------------- *)
(** ** The accelerator manager *)
(* --------------------------------------------------------------------- *)

(** [is_gpu_available] when the cached answer is absent or older than 30
    seconds: it answers with the probe's reading; a second call within 30
    seconds answers the same without looking at the probe and changes
    nothing, and a later one reads the probe again. *)
Theorem gpu_availability_is_cached_for_30_seconds
        (t0 t1 : Q) (p0 p1 : gpu.GPUStatus) (self : gpu.GPUResourceManager) :
  check_is_due t0 self ->
  let first := gpu.is_gpu_available t0 p0 self in
  let second := gpu.is_gpu_available t1 p1 (snd first) in
  fst first = gpu.available p0
  /\ ((t1 - t0 <= 30)%Q -> second = (gpu.available p0, snd first))
  /\ ((30 < t1 - t0)%Q -> fst second = gpu.available p1).
Proof.
  intros Hdue. cbv zeta.
  assert (gpu.is_gpu_available t0 p0 self
          = (gpu.available p0,
             gpu.mkManager (gpu.max_concurrent_tasks self)
                           (gpu.memory_threshold self) (gpu.active_tasks self)
                           (Some (gpu.available p0)) (Some t0))) as ->.
  { unfold gpu.is_gpu_available, check_is_due in *.
    destruct (gpu._last_gpu_check self) as [t|]; [|reflexivity].
    apply Qgt_bool_true in Hdue. by rewrite Hdue. }
  cbn [fst snd]. split; [reflexivity|].
  unfold gpu.is_gpu_available. cbn [gpu._last_gpu_check gpu._gpu_available].
  split; intros H.
  - apply Qgt_bool_false in H. by rewrite H.
  - apply Qgt_bool_true in H. by rewrite H.
Qed.

Lemma gpu_availability_is_cached_for_30_seconds_witness :
  let first := gpu.is_gpu_available 100 idle_probe gpu.gpu_manager in
  let second :=
    gpu.is_gpu_available 120 (gpu.mkGPUStatus false 0 0 0 0 None None)
                         (snd first) in
  fst first = true
  /\ ((120 - 100 <= 30)%Q -> second = (true, snd first))
  /\ ((30 < 120 - 100)%Q -> fst second = false).
Proof.
  apply (gpu_availability_is_cached_for_30_seconds
           100 120 idle_probe (gpu.mkGPUStatus false 0 0 0 0 None None)
           gpu.gpu_manager).
  exact I.
Defined.

(** [can_process_task] grants admission only when a slot is free, the
    accelerator is present and the used share of its memory is below the
    threshold, and it then reports the number of active tasks.  At
    capacity the reason names the limit whatever the accelerator reads;
    with a free slot and no accelerator it names the accelerator. *)
Theorem admission_needs_slot_accelerator_and_memory
        (m : gpu.GPUResourceManager) (p : gpu.GPUStatus) :
  (gpu.can_process (gpu.can_process_task m p) = true ->
   (gpu.active_tasks m < gpu.max_concurrent_tasks m)%Z
   /\ gpu.available p = true
   /\ (gpu.memory_percent p / 100 < gpu.memory_threshold m)%Q
   /\ exists gpu_status,
        gpu.can_process_task m p = gpu.CanProcess (gpu.active_tasks m) gpu_status)
  /\ ((gpu.max_concurrent_tasks m <= gpu.active_tasks m)%Z ->
      gpu.can_process_task m p = gpu.CannotProcess "達到最大併發任務限制")
  /\ ((gpu.active_tasks m < gpu.max_concurrent_tasks m)%Z ->
      gpu.available p = false ->
      gpu.can_process_task m p = gpu.CannotProcess "GPU 不可用").
Proof.
  unfold gpu.can_process_task, gpu.check_gpu_memory.
  rewrite Z.geb_leb.
  destruct (Z.leb_spec (gpu.max_concurrent_tasks m) (gpu.active_tasks m))
    as [Hfull|Hfree].
  { split; [|split]; [discriminate|done|lia]. }
  split; [|split]; [|lia|by intros _ ->].
  destruct (gpu.available p); cbn [negb]; [|discriminate].
  destruct (Qle_bool (gpu.memory_threshold m) (gpu.memory_percent p / 100))
    eqn:Hq; cbn [negb gpu.can_process]; [discriminate|].
  intros _. repeat split; [done| |by eexists].
  apply Qnot_le_lt. intros Hc. apply Qle_bool_iff in Hc. congruence.
Qed.

(* --------------------------------------------------------------------- *)
(** ** The health cycle *)
(* --------------------------------------------------------------------- *)

Lemma paired_report i r h n : paired h n -> paired (health.report i r h) (S n).
Proof.
  intros [He Hle]. unfold paired, health.report.
  cbn [health.issues health.recommendations]. rewrite !length_app.
  cbn [length]. lia.
Qed.

Lemma paired_mono h n m : n <= m -> paired h n -> paired h m.
Proof. intros Hnm [He Hle]. split; [exact He|lia]. Qed.

Lemma paired_maybe_report (b : bool) i r h n :
  paired h n -> paired (if b then health.report i r h else h) (S n).
Proof.
  intros H. destruct b; [by apply paired_report|].
  destruct H as [He Hle]. split; [exact He|lia].
Qed.

Lemma paired_determine h n :
  paired h n -> paired (health._determine_overall_status h) n.
Proof.
  unfold paired, health._determine_overall_status.
  by repeat match goal with |- context [if ?b then _ else _] => destruct b end.
Qed.

Lemma check_resource_issues_paired fmt_1f h cpu mem used total h' n :
  paired h n ->
  health._check_resource_issues fmt_1f h cpu mem used total = Ok h' ->
  paired h' (S (S (S n))).
Proof.
  unfold health._check_resource_issues. cbv zeta. intros Hp.
  destruct (total =? 0)%Z; [discriminate|]. intros [= <-].
  by do 3 apply paired_maybe_report.
Qed.

Lemma check_gpu_issues_paired fmt_1f h g n :
  paired h n -> paired (health._check_gpu_issues fmt_1f h g) (S (S n)).
Proof.
  unfold health._check_gpu_issues. cbv zeta. intros Hp.
  destruct (negb (gpu.get_available g)).
  { apply (paired_mono _ (S n)); [lia|]. by apply paired_report. }
  destruct (gpu.get_temperature g) as [t|].
  - by do 2 apply paired_maybe_report.
  - apply (paired_mono _ (S n)); [lia|]. by apply paired_maybe_report.
Qed.

(** A cycle ends without a snapshot exactly when the disk reports a total
    size of zero (the division raises and the error is swallowed).
    Otherwise the snapshot has one recommendation for each issue, and at
    most five issues. *)
Theorem health_check_outcome (fmt_1f : Q -> string) (r : health.Readings) :
  (health._perform_health_check fmt_1f r = None <-> health.disk_total r = 0%Z)
  /\ (forall snapshot hooks,
         health._perform_health_check fmt_1f r = Some (snapshot, hooks) ->
         length (health.issues snapshot)
         = length (health.recommendations snapshot)
         /\ length (health.issues snapshot) <= 5).
Proof.
  unfold health._perform_health_check. split.
  - unfold health._check_resource_issues. cbv zeta.
    destruct (Z.eqb_spec (health.disk_total r) 0) as [H0|Hne].
    + by split.
    + split; [discriminate|done].
  - intros snapshot hooks H.
    destruct (health._check_resource_issues _ _ _ _ _ _) as [h1|] eqn:E1;
      [|discriminate].
    injection H as <- _.
    apply paired_determine. unfold health._check_task_issues.
    apply check_gpu_issues_paired.
    eapply check_resource_issues_paired; [|exact E1].
    split; [reflexivity|cbn; lia].
Qed.

Lemma issues_report i r h : health.issues (health.report i r h) = health.issues h ++ [i].
Proof. reflexivity. Qed.

(** When the accelerator is present and more than 90 % of its memory is in
    use, the cycle reports the issue, is critical, and [_auto_recovery]
    calls [_cleanup_gpu_memory]. *)
Theorem gpu_memory_pressure_calls_the_cleanup
        (fmt_1f : Q -> string) (r : health.Readings)
        (status : gpu.GPUStatus) (memory_available : bool) :
  health.disk_total r <> 0%Z ->
  health.gpu_status r = gpu.GpuReading status memory_available ->
  (90 < gpu.memory_percent status)%Q ->
  exists snapshot hooks,
    health._perform_health_check fmt_1f r = Some (snapshot, hooks)
    /\ ("GPU 記憶體使用率過高: " +:+ fmt_1f (gpu.memory_percent status) +:+ "%")
       ∈ health.issues snapshot
    /\ health.CleanupGpuMemory ∈ hooks
    /\ health.overall_status snapshot = "critical".
Proof.
  intros Hdisk Hgpu Hmem. unfold health._perform_health_check.
  destruct (health._check_resource_issues _ _ _ _ _ _) as [h1|e] eqn:E1.
  2:{ unfold health._check_resource_issues in E1. cbv zeta in E1.
      destruct (Z.eqb_spec (health.disk_total r) 0); [done|discriminate]. }
  eexists _, _. split; [reflexivity|].
  assert (H1 : all_critical h1).
  { eapply check_resource_issues_all_critical; [|exact E1]. constructor. }
  pose proof (check_gpu_issues_all_critical fmt_1f h1 (health.gpu_status r) H1)
    as H2.
  unfold health._check_task_issues.
  set (h2 := health._check_gpu_issues fmt_1f h1 (health.gpu_status r)) in *.
  set (issue := "GPU 記憶體使用率過高: "
                +:+ fmt_1f (gpu.memory_percent status) +:+ "%").
  assert (issue ∈ health.issues h2) as Hin.
  { unfold h2, health._check_gpu_issues. rewrite Hgpu. cbv zeta.
    cbn [gpu.get_available gpu.get_memory_percent gpu.get_temperature negb].
    apply Qgt_bool_true in Hmem. rewrite Hmem.
    destruct (gpu.temperature status) as [t|];
      [destruct (_ && _)|]; rewrite ?issues_report, ?elem_of_app,
        ?list_elem_of_singleton; tauto. }
  rewrite determine_overall_status_issues.
  split; [exact Hin|]. split.
  - unfold health._auto_recovery. rewrite determine_overall_status_issues.
    assert (existsb (py_in "GPU 記憶體") (health.issues h2) = true) as ->.
    { apply existsb_exists. exists issue. split; [by apply list_elem_of_In|].
      apply (py_in_here "GPU 記憶體"). }
    rewrite elem_of_app, list_elem_of_singleton. by left.
  - rewrite (determine_overall_status_all_critical h2 H2).
    destruct (health.issues h2); [by apply elem_of_nil in Hin|reflexivity].
Qed.

Lemma gpu_memory_pressure_calls_the_cleanup_witness :
  exists snapshot hooks,
    health._perform_health_check (fun _ => "96.0") hot_card_readings
    = Some (snapshot, hooks)
    /\ ("GPU 記憶體使用率過高: " +:+ "96.0" +:+ "%") ∈ health.issues snapshot
    /\ health.CleanupGpuMemory ∈ hooks
    /\ health.overall_status snapshot = "critical".
Proof.
  apply (gpu_memory_pressure_calls_the_cleanup
           (fun _ => "96.0") hot_card_readings
           (gpu.mkGPUStatus true 1000 960 40 96 None None) false).
  - cbn. lia.
  - reflexivity.
  - reflexivity.
Defined.

Lemma maybe_report_extends (b : bool) i r h :
  exists more,
    health.issues (if b then health.report i r h else h)
    = health.issues h ++ more.
Proof.
  destruct b; [by exists [i] | exists []; by rewrite app_nil_r].
Qed.

Lemma check_gpu_issues_extends fmt_1f h g :
  exists more,
    health.issues (health._check_gpu_issues fmt_1f h g) = health.issues h ++ more.
Proof.
  unfold health._check_gpu_issues. cbv zeta.
  destruct (negb (gpu.get_available g)); [by exists ["GPU 不可用"]|].
  match goal with
  | |- context [if ?b then health.report ?i ?r h else h] =>
      destruct (maybe_report_extends b i r h) as [m1 H1];
      set (h1 := if b then health.report i r h else h) in *
  end.
  destruct (gpu.get_temperature g) as [t|].
  - match goal with
    | |- context [if ?b then health.report ?i ?r h1 else h1] =>
        destruct (maybe_report_extends b i r h1) as [m2 H2]
    end.
    exists (m1 ++ m2). by rewrite H2, H1, app_assoc.
  - by exists m1.
Qed.

Lemma busy_processor_is_reported fmt_1f h cpu mem used total h' :
  (90 < cpu)%Q ->
  health._check_resource_issues fmt_1f h cpu mem used total = Ok h' ->
  exists more,
    health.issues h'
    = health.issues h ++ ("CPU 使用率過高: " +:+ fmt_1f cpu +:+ "%") :: more.
Proof.
  intros Hcpu. unfold health._check_resource_issues. cbv zeta.
  apply Qgt_bool_true in Hcpu. rewrite Hcpu.
  destruct (total =? 0)%Z; [discriminate|]. intros [= <-].
  repeat match goal with
         | |- context [if ?b then _ else _] => destruct b
         end;
    cbn [health.issues health.report]; eexists;
    rewrite <- ?app_assoc; cbn [app]; reflexivity.
Qed.

(** [get_health_status] runs a cycle and then answers with a new
    [HealthStatus], whose status and issues are the defaults: with a
    processor above 90 % the cycle's own snapshot is critical, and the
    answer is still "healthy" with no issue. *)
Theorem get_health_status_always_answers_healthy
        (fmt_1f : Q -> string) (first second : health.Readings) :
  (90 < health.cpu_percent first)%Q ->
  health.disk_total first <> 0%Z ->
  (exists snapshot hooks,
      health._perform_health_check fmt_1f first = Some (snapshot, hooks)
      /\ health.overall_status snapshot = "critical")
  /\ health.overall_status (health.get_health_status fmt_1f first second)
     = "healthy"
  /\ health.issues (health.get_health_status fmt_1f first second) = [].
Proof.
  intros Hcpu Hdisk. split; [|by split].
  unfold health._perform_health_check.
  destruct (health._check_resource_issues _ _ _ _ _ _) as [h1|e] eqn:E1.
  2:{ unfold health._check_resource_issues in E1. cbv zeta in E1.
      destruct (Z.eqb_spec (health.disk_total first) 0); [done|discriminate]. }
  eexists _, _. split; [reflexivity|].
  assert (H1 : all_critical h1).
  { eapply check_resource_issues_all_critical; [|exact E1]. constructor. }
  pose proof (check_gpu_issues_all_critical fmt_1f h1 (health.gpu_status first) H1)
    as H2.
  unfold health._check_task_issues.
  set (h2 := health._check_gpu_issues fmt_1f h1 (health.gpu_status first)) in *.
  rewrite (determine_overall_status_all_critical h2 H2).
  destruct (busy_processor_is_reported _ _ _ _ _ _ _ Hcpu E1) as [m1 Hm1].
  destruct (check_gpu_issues_extends fmt_1f h1 (health.gpu_status first))
    as [m2 Hm2].
  fold h2 in Hm2. rewrite Hm2, Hm1. reflexivity.
Qed.

Lemma get_health_status_always_answers_healthy_witness :
  (exists snapshot hooks,
      health._perform_health_check (fun _ => "95.0") busy_readings
      = Some (snapshot, hooks)
      /\ health.overall_status snapshot = "critical")
  /\ health.overall_status
       (health.get_health_status (fun _ => "95.0") busy_readings busy_readings)
     = "healthy"
  /\ health.issues
       (health.get_health_status (fun _ => "95.0") busy_readings busy_readings)
     = [].
Proof.
  apply (get_health_status_always_answers_healthy
           (fun _ => "95.0") busy_readings busy_readings).
  - reflexivity.
  - cbn. lia.
Defined.

(* --------------------------------------------------------------------- *)
(** ** The executor on any script *)
(* --------------------------------------------------------------------- *)

(** An attempt is refused at validation, or doomed, or lucky. *)
Lemma attempt_cases m a :
  processing.image_valid a = false \/ doomed m a = true \/ lucky m a = true.
Proof.
  unfold doomed, lucky.
  destruct (processing.image_valid a); [|by left]. right.
  destruct (gpu.can_process _), (processing.render_success a); cbn; tauto.
Qed.

(** An attempt whose image does not validate: the task fails for good. *)
Lemma attempt_refused task_id file_path parameters a script w t :
  tasks_db w !! task_id = Some t ->
  processing.image_valid a = false ->
  exists w1 t1,
    processing.process_image_task task_id file_path parameters (a :: script) w
    = Some (processing.monitor_exit w1)
    /\ gpu_manager w1 = gpu_manager w
    /\ tasks_db w1 !! task_id = Some t1
    /\ tasks.status t1 = tasks.FAILED
    /\ tasks.get_retry_count t1 = tasks.get_retry_count t
    /\ tasks.get_max_retries t1 = tasks.get_max_retries t
    /\ history_view t1 = history_view t
    /\ counts w1
       = (let '(done, failed, retried) := counts w in
          (done, (failed + if str_truthy task_id then 1 else 0)%Z, retried))
    /\ decisive (journal w1)
       = decisive (journal w)
         ++ [EvStart task_id;
             EvTaskFailed task_id (Exception "無效的圖片檔案");
             EvStatus task_id tasks.FAILED; EvCleanupFiles task_id].
Proof.
  intros Ht Hinvalid. cbn [processing.process_image_task].
  destruct (attempt_entry task_id w) as (Hg0 & Hdb0 & Hn0 & Hj0).
  set (w0 := monitor (monitoring.RecordMetric _ _ _ _) _) in *.
  cbn [tasks_db emit monitor set_monitoring_service]. rewrite Ht.
  change (clock (emit _ _)) with (clock w).
  rewrite (try_block_invalid _ _ _ _ _ _ Hinvalid).
  set (wT := mutate_task task_id (tasks.set_message "正在處理圖片...") _).
  assert (HtT : tasks_db wT !! task_id
                = Some (tasks.set_message "正在處理圖片..."
                          (tasks.set_updated_at (clock w0)
                             (tasks.set_status tasks.PROCESSING t)))).
  { unfold wT. wsimpl. rewrite !lookup_alter_eq.
    change (tasks_db w !! task_id) with (tasks_db w0 !! task_id).
    by rewrite Hdb0, Ht. }
  assert (HjT : decisive (journal wT) = decisive (journal w0)).
  { unfold wT. wsimpl. by rewrite decisive_app, app_nil_r. }
  destruct (except_block_final task_id file_path parameters a
              (Exception "無效的圖片檔案") wT _ HtT (or_intror eq_refl))
    as (w1 & t1 & Hex & Hg1 & Ht1 & Hst & Hem & Hrc & Hmr & Hrh & Hn1 & Hj1).
  rewrite Hex. exists w1, t1.
  split; [reflexivity|]. split; [by rewrite Hg1|].
  split; [exact Ht1|]. split; [exact Hst|].
  split; [unfold tasks.get_retry_count; by rewrite Hrc|].
  split; [unfold tasks.get_max_retries; by rewrite Hmr|].
  split; [unfold history_view, tasks.get_retry_history; by rewrite Hrh|].
  split; [rewrite Hn1; change (counts wT) with (counts w0); by rewrite Hn0|].
  rewrite Hj1, HjT, Hj0. by rewrite <- app_assoc.
Qed.

(** Every run: some retries, each after a retryable error, and then one
    invocation that completes the task or fails it. *)
Lemma run_shape task_id file_path parameters :
  forall script w t,
    tasks_db w !! task_id = Some t ->
    (budget t < Z.of_nat (length script))%Z ->
    exists w' t' errors v,
      processing.process_image_task task_id file_path parameters script w
      = Some w'
      /\ gpu_manager w' = gpu_manager w
      /\ tasks_db w' !! task_id = Some t'
      /\ tasks.status t' = final_status v
      /\ (Z.of_nat (length errors) <= budget t)%Z
      /\ tasks.get_retry_count t'
         = (tasks.get_retry_count t + Z.of_nat (length errors))%Z
      /\ tasks.get_max_retries t' = tasks.get_max_retries t
      /\ history_view t'
         = history_view t ++ history_of (tasks.get_retry_count t) errors
      /\ counts w'
         = (let '(done, failed, retried) := counts w in
            ((done + completions_of v)%Z,
             (failed + if str_truthy task_id
                       then Z.of_nat (length errors) + failures_of v
                       else 0)%Z,
             (retried + Z.of_nat (length errors))%Z))
      /\ decisive (journal w')
         = decisive (journal w)
           ++ retried_run task_id (tasks.get_retry_count t) errors
           ++ closing task_id v.
Proof.
  unfold budget.
  induction script as [|a script IH]; intros w t Ht Hlen;
    [cbn [length] in Hlen; lia|].
  destruct (counts w) as [[done failed] retried] eqn:Hcounts.
  destruct (attempt_cases (gpu_manager w) a) as [Hinv|[Hdoom|Hlucky]].
  - destruct (attempt_refused task_id file_path parameters a script w t Ht Hinv)
      as (w1 & t1 & Hrun & Hg & Ht1 & Hst & Hrc & Hmr & Hhv & Hn & Hj).
    destruct (monitor_exit_frame w1) as (Hg' & Hdb' & Hj' & Hn').
    exists (processing.monitor_exit w1), t1, [],
           (Failed (Exception "無效的圖片檔案")).
    split; [exact Hrun|]. split; [by rewrite Hg'|].
    split; [by rewrite Hdb'|]. split; [exact Hst|].
    split; [cbn [length]; lia|]. split; [cbn [length]; lia|].
    split; [exact Hmr|]. split; [by rewrite Hhv, app_nil_r|].
    split.
    { rewrite Hn', Hn, Hcounts. cbn [length completions_of failures_of].
      destruct (str_truthy task_id); triple_eq. }
    by rewrite Hj', Hj.
  - destruct (Z.lt_ge_cases (tasks.get_retry_count t) (tasks.get_max_retries t))
      as [Hlt|Hge].
    + destruct (attempt_retries task_id file_path parameters a script w t
                                Ht Hlt Hdoom)
        as (e & w1 & t1 & He & Hrun & Hg & Ht1 & Hrc & Hmr & Hhv & Hn & Hj).
      destruct (IH w1 t1 Ht1) as (w' & t' & errors & v & Hrun' & Hg' & Ht'
                                  & Hst & Hle & Hrc' & Hmr' & Hhv' & Hn' & Hj').
      { cbn [length] in Hlen. lia. }
      destruct (monitor_exit_frame w') as (Hg2 & Hdb2 & Hj2 & Hn2).
      exists (processing.monitor_exit w'), t', (e :: errors), v.
      split; [by rewrite Hrun, Hrun'|].
      split; [by rewrite Hg2, Hg', Hg|].
      split; [by rewrite Hdb2|]. split; [exact Hst|].
      split; [cbn [length]; lia|]. split; [cbn [length]; lia|].
      split; [lia|].
      split; [rewrite Hhv', Hhv, Hrc; cbn [history_of];
              by rewrite <- app_assoc|].
      split.
      { rewrite Hn2, Hn', Hn, Hcounts. cbn [length].
        destruct (str_truthy task_id); triple_eq. }
      rewrite Hj2, Hj', Hj, Hrc. cbn [retried_run].
      by rewrite <- !app_assoc.
    + destruct (attempt_fails task_id file_path parameters a script w t
                              Ht Hge Hdoom)
        as (e & w1 & t1 & He & Hrun & Hg & Ht1 & Hst & Hem & Hrc & Hmr & Hhv
            & Hn & Hj).
      destruct (monitor_exit_frame w1) as (Hg' & Hdb' & Hj' & Hn').
      exists (processing.monitor_exit w1), t1, [], (Failed e).
      split; [exact Hrun|]. split; [by rewrite Hg'|].
      split; [by rewrite Hdb'|]. split; [exact Hst|].
      split; [cbn [length]; lia|]. split; [cbn [length]; lia|].
      split; [exact Hmr|]. split; [by rewrite Hhv, app_nil_r|].
      split.
      { rewrite Hn', Hn, Hcounts. cbn [length completions_of failures_of].
        destruct (str_truthy task_id); triple_eq. }
      by rewrite Hj', Hj.
  - destruct (attempt_succeeds task_id file_path parameters a script w t
                               Ht Hlucky)
      as (w1 & t1 & Hrun & Hg & Ht1 & Hst & Hpr & Hrc & Hmr & Hhv & Hn & Hj).
    destruct (monitor_exit_frame w1) as (Hg' & Hdb' & Hj' & Hn').
    exists (processing.monitor_exit w1), t1, [], Completed.
    split; [exact Hrun|]. split; [by rewrite Hg'|].
    split; [by rewrite Hdb'|]. split; [exact Hst|].
    split; [cbn [length]; lia|]. split; [cbn [length]; lia|].
    split; [exact Hmr|]. split; [by rewrite Hhv, app_nil_r|].
    split.
    { rewrite Hn', Hn, Hcounts. cbn [length completions_of failures_of].
      destruct (str_truthy task_id); triple_eq. }
    by rewrite Hj', Hj.
Qed.

(** Whatever the attempts are and whatever is cancelled in between, an
    executor that finds its task returns after at most one invocation more
    than the task has retries left; the task is then completed or failed,
    the manager of the accelerator is as before, and [retry_count] has not
    gone beyond [max_retries]. *)
Theorem executor_settles_every_task
        (task_id file_path : string) (parameters : gmap string string)
        (script : list processing.Attempt) (w : World) (t : tasks.Task) :
  tasks_db w !! task_id = Some t ->
  (budget t < Z.of_nat (length script))%Z ->
  exists w' t',
    processing.process_image_task task_id file_path parameters script w
    = Some w'
    /\ tasks_db w' !! task_id = Some t'
    /\ (tasks.status t' = tasks.COMPLETED \/ tasks.status t' = tasks.FAILED)
    /\ gpu_manager w' = gpu_manager w
    /\ (tasks.get_retry_count t <= tasks.get_retry_count t'
        <= Z.max (tasks.get_retry_count t) (tasks.get_max_retries t))%Z.
Proof.
  intros Ht Hlen.
  destruct (run_shape task_id file_path parameters script w t Ht Hlen)
    as (w' & t' & errors & v & Hrun & Hg & Ht' & Hst & Hle & Hrc & _).
  exists w', t'. split; [exact Hrun|]. split; [exact Ht'|].
  split; [destruct v; [by left | by right]|].
  split; [exact Hg|]. unfold budget in Hle. lia.
Qed.

Lemma executor_settles_every_task_witness :
  exists w' t',
    processing.process_image_task
      "job-1" "./storage/uploads/job-1_original.png" ∅ mixed_script one_job
    = Some w'
    /\ tasks_db w' !! "job-1" = Some t'
    /\ (tasks.status t' = tasks.COMPLETED \/ tasks.status t' = tasks.FAILED)
    /\ gpu_manager w' = gpu_manager one_job
    /\ (tasks.get_retry_count job_1 <= tasks.get_retry_count t'
        <= Z.max (tasks.get_retry_count job_1) (tasks.get_max_retries job_1))%Z.
Proof.
  apply (executor_settles_every_task
           "job-1" "./storage/uploads/job-1_original.png" ∅ mixed_script
           one_job job_1).
  - reflexivity.
  - reflexivity.
Defined.

Lemma completed_writes_app task_id j1 j2 :
  completed_writes task_id (j1 ++ j2)
  = (completed_writes task_id j1 + completed_writes task_id j2)%nat.
Proof.
  unfold completed_writes, processing.status_writes.
  by rewrite omap_app, List.filter_app, length_app.
Qed.

Lemma cleanups_app task_id j1 j2 :
  cleanups task_id (j1 ++ j2)
  = (cleanups task_id j1 + cleanups task_id j2)%nat.
Proof. unfold cleanups. by rewrite omap_app, length_app. Qed.

Lemma completed_writes_decisive task_id j :
  completed_writes task_id (decisive j) = completed_writes task_id j.
Proof.
  induction j as [|e j IH]; [reflexivity|].
  rewrite decisive_cons.
  destruct e as [| | | | |? []| | | |]; cbn [routine];
    unfold completed_writes, processing.status_writes in *;
    cbn [omap list_omap]; try case_decide; cbn [List.filter length];
    try (rewrite bool_decide_eq_false_2 by done);
    try (rewrite bool_decide_eq_true_2 by done);
    cbn [length]; by rewrite ?IH.
Qed.

Lemma cleanups_decisive task_id j :
  cleanups task_id (decisive j) = cleanups task_id j.
Proof.
  induction j as [|e j IH]; [reflexivity|].
  rewrite decisive_cons.
  destruct e as [| | | | |? []| | | |]; cbn [routine];
    unfold cleanups in *; cbn [omap list_omap];
    try case_decide; cbn [length]; by rewrite ?IH.
Qed.

Lemma completed_writes_retried_run task_id retry_count errors :
  completed_writes task_id (retried_run task_id retry_count errors) = 0%nat.
Proof.
  revert retry_count. induction errors as [|e errors IH]; intros rc;
    [reflexivity|].
  cbn [retried_run]. rewrite completed_writes_app, IH.
  unfold completed_writes, processing.status_writes. cbn [omap list_omap].
  by rewrite decide_True.
Qed.

Lemma cleanups_retried_run task_id retry_count errors :
  cleanups task_id (retried_run task_id retry_count errors) = 0%nat.
Proof.
  revert retry_count. induction errors as [|e errors IH]; intros rc;
    [reflexivity|].
  cbn [retried_run]. by rewrite cleanups_app, IH.
Qed.

Lemma closing_counts task_id v :
  (completed_writes task_id (closing task_id v)
   + failed_writes task_id (closing task_id v) = 1)%nat
  /\ cleanups task_id (closing task_id v)
     = failed_writes task_id (closing task_id v)
  /\ processing.invocations task_id (closing task_id v) = 1%nat
  /\ processing.sleeps (closing task_id v) = [].
Proof.
  unfold completed_writes, failed_writes, cleanups, processing.invocations,
    processing.status_writes, processing.sleeps.
  destruct v; cbn [closing omap list_omap]; rewrite !decide_True by done;
    cbn; done.
Qed.

(** A run writes exactly one of the statuses "completed" and "failed", and
    calls [cleanup_task_files] exactly when it writes "failed". *)
Theorem each_run_writes_one_verdict
        (task_id file_path : string) (parameters : gmap string string)
        (script : list processing.Attempt) (w : World) (t : tasks.Task) :
  tasks_db w !! task_id = Some t ->
  (budget t < Z.of_nat (length script))%Z ->
  exists w',
    processing.process_image_task task_id file_path parameters script w
    = Some w'
    /\ (completed_writes task_id (journal w')
        + failed_writes task_id (journal w')
        = completed_writes task_id (journal w)
          + failed_writes task_id (journal w) + 1)%nat
    /\ (cleanups task_id (journal w') + failed_writes task_id (journal w)
        = cleanups task_id (journal w) + failed_writes task_id (journal w'))%nat.
Proof.
  intros Ht Hlen.
  destruct (run_shape task_id file_path parameters script w t Ht Hlen)
    as (w' & t' & errors & v & Hrun & _ & _ & _ & _ & _ & _ & _ & _ & Hj).
  exists w'. split; [exact Hrun|].
  destruct (closing_counts task_id v) as (Hone & Hclean & _).
  rewrite <- (completed_writes_decisive task_id (journal w')),
          <- (failed_writes_decisive task_id (journal w')),
          <- (cleanups_decisive task_id (journal w')), Hj.
  rewrite !completed_writes_app, !failed_writes_app, !cleanups_app.
  rewrite completed_writes_retried_run, failed_writes_retried_run,
    cleanups_retried_run.
  rewrite completed_writes_decisive, failed_writes_decisive, cleanups_decisive.
  lia.
Qed.

Lemma each_run_writes_one_verdict_witness :
  exists w',
    processing.process_image_task
      "job-1" "./storage/uploads/job-1_original.png" ∅ mixed_script one_job
    = Some w'
    /\ (completed_writes "job-1" (journal w')
        + failed_writes "job-1" (journal w')
        = completed_writes "job-1" (journal one_job)
          + failed_writes "job-1" (journal one_job) + 1)%nat
    /\ (cleanups "job-1" (journal w') + failed_writes "job-1" (journal one_job)
        = cleanups "job-1" (journal one_job)
          + failed_writes "job-1" (journal w'))%nat.
Proof.
  apply (each_run_writes_one_verdict
           "job-1" "./storage/uploads/job-1_original.png" ∅ mixed_script
           one_job job_1).
  - reflexivity.
  - reflexivity.
Defined.

Lemma retry_numbers_from from n k :
  In k (retry_numbers from n) -> (from <= k)%Z.
Proof.
  revert from. induction n as [|n IH]; intros from; cbn [retry_numbers In];
    [done|].
  intros [<-|Hin]; [lia|]. specialize (IH _ Hin). lia.
Qed.

(** From the first retry on, a delay lies between 60 and 300 seconds. *)
Lemma retry_delay_bounds k :
  (1 <= k)%Z -> (60 <= processing.retry_delay k <= 300)%Z.
Proof.
  intros Hk. unfold processing.retry_delay.
  assert (2 ^ 0 <= 2 ^ (k - 1))%Z by (apply Z.pow_le_mono_r; lia).
  change (2 ^ 0)%Z with 1%Z in *. lia.
Qed.

(** A run of a task whose [retry_count] is not negative makes [n + 1]
    invocations, where [n] is at most the number of retries the task had
    left; it sleeps [n] times, before retry [k] for
    [min(60 * 2 ** (k - 1), 300)] seconds, which is between 60 and 300. *)
Theorem retries_stay_within_budget
        (task_id file_path : string) (parameters : gmap string string)
        (script : list processing.Attempt) (w : World) (t : tasks.Task) :
  tasks_db w !! task_id = Some t ->
  (0 <= tasks.get_retry_count t)%Z ->
  (budget t < Z.of_nat (length script))%Z ->
  exists w' (n : nat),
    processing.process_image_task task_id file_path parameters script w
    = Some w'
    /\ (Z.of_nat n <= budget t)%Z
    /\ processing.invocations task_id (journal w')
       = (processing.invocations task_id (journal w) + n + 1)%nat
    /\ processing.sleeps (journal w')
       = processing.sleeps (journal w)
         ++ map (fun k => Z.min (60 * 2 ^ (k - 1)) 300)
                (retry_numbers (tasks.get_retry_count t + 1) n)
    /\ Forall (fun delay => (60 <= delay <= 300)%Z)
              (map (fun k => Z.min (60 * 2 ^ (k - 1)) 300)
                   (retry_numbers (tasks.get_retry_count t + 1) n)).
Proof.
  intros Ht Hrc0 Hlen.
  destruct (run_shape task_id file_path parameters script w t Ht Hlen)
    as (w' & t' & errors & v & Hrun & _ & _ & _ & Hle & _ & _ & _ & _ & Hj).
  exists w', (length errors). split; [exact Hrun|]. split; [exact Hle|].
  destruct (closing_counts task_id v) as (_ & _ & Hinv & Hsl).
  change (map _ (retry_numbers (tasks.get_retry_count t + 1) (length errors)))
    with (map processing.retry_delay
              (retry_numbers (tasks.get_retry_count t + 1) (length errors))).
  split.
  { rewrite <- (invocations_decisive task_id (journal w')), Hj.
    rewrite !invocations_app, invocations_retried_run, Hinv,
      invocations_decisive. lia. }
  split.
  { rewrite <- (sleeps_decisive (journal w')), Hj.
    rewrite !sleeps_app, sleeps_retried_run, Hsl, sleeps_decisive.
    by rewrite app_nil_r. }
  apply Forall_forall. intros d Hd.
  apply list_elem_of_In, in_map_iff in Hd as (k & <- & Hk).
  apply retry_numbers_from in Hk. apply retry_delay_bounds. lia.
Qed.

Lemma retries_stay_within_budget_witness :
  exists w' (n : nat),
    processing.process_image_task
      "job-1" "./storage/uploads/job-1_original.png" ∅ mixed_script one_job
    = Some w'
    /\ (Z.of_nat n <= budget job_1)%Z
    /\ processing.invocations "job-1" (journal w')
       = (processing.invocations "job-1" (journal one_job) + n + 1)%nat
    /\ processing.sleeps (journal w')
       = processing.sleeps (journal one_job)
         ++ map (fun k => Z.min (60 * 2 ^ (k - 1)) 300)
                (retry_numbers (tasks.get_retry_count job_1 + 1) n)
    /\ Forall (fun delay => (60 <= delay <= 300)%Z)
              (map (fun k => Z.min (60 * 2 ^ (k - 1)) 300)
                   (retry_numbers (tasks.get_retry_count job_1 + 1) n)).
Proof.
  apply (retries_stay_within_budget
           "job-1" "./storage/uploads/job-1_original.png" ∅ mixed_script
           one_job job_1).
  - reflexivity.
  - cbn. lia.
  - reflexivity.
Defined.

Lemma history_of_numbers retry_count errors :
  map fst (history_of retry_count errors)
  = retry_numbers (retry_count + 1) (length errors).
Proof.
  revert retry_count. induction errors as [|e errors IH]; intros rc;
    [reflexivity|].
  cbn [history_of map fst length retry_numbers]. by rewrite IH.
Qed.

(** A run adds one entry to the retry history for each retry, numbered
    from the old [retry_count] on, and [retry_count] grows by as many. *)
Theorem retry_history_keeps_step_with_retry_count
        (task_id file_path : string) (parameters : gmap string string)
        (script : list processing.Attempt) (w : World) (t : tasks.Task) :
  tasks_db w !! task_id = Some t ->
  (budget t < Z.of_nat (length script))%Z ->
  exists w' t' (n : nat),
    processing.process_image_task task_id file_path parameters script w
    = Some w'
    /\ tasks_db w' !! task_id = Some t'
    /\ tasks.get_retry_count t' = (tasks.get_retry_count t + Z.of_nat n)%Z
    /\ map tasks.attempt (tasks.get_retry_history t')
       = map tasks.attempt (tasks.get_retry_history t)
         ++ retry_numbers (tasks.get_retry_count t + 1) n.
Proof.
  intros Ht Hlen.
  destruct (run_shape task_id file_path parameters script w t Ht Hlen)
    as (w' & t' & errors & v & Hrun & _ & Ht' & _ & _ & Hrc & _ & Hhv & _).
  exists w', t', (length errors).
  split; [exact Hrun|]. split; [exact Ht'|]. split; [exact Hrc|].
  apply (f_equal (map fst)) in Hhv.
  rewrite map_app, history_of_numbers in Hhv.
  unfold history_view in Hhv. rewrite !map_map in Hhv. exact Hhv.
Qed.

Lemma retry_history_keeps_step_with_retry_count_witness :
  exists w' t' (n : nat),
    processing.process_image_task
      "job-1" "./storage/uploads/job-1_original.png" ∅ mixed_script one_job
    = Some w'
    /\ tasks_db w' !! "job-1" = Some t'
    /\ tasks.get_retry_count t' = (tasks.get_retry_count job_1 + Z.of_nat n)%Z
    /\ map tasks.attempt (tasks.get_retry_history t')
       = map tasks.attempt (tasks.get_retry_history job_1)
         ++ retry_numbers (tasks.get_retry_count job_1 + 1) n.
Proof.
  apply (retry_history_keeps_step_with_retry_count
           "job-1" "./storage/uploads/job-1_original.png" ∅ mixed_script
           one_job job_1).
  - reflexivity.
  - reflexivity.
Defined.

(** What a run of a task with a non-empty id adds to the statistics of the
    recorder: [retried_tasks] grows by the number of retries,
    [completed_tasks] by one if the task completed, and [failed_tasks] by
    the number of retries, plus one if the task failed for good. *)
Theorem recorder_counts_follow_the_run
        (task_id file_path : string) (parameters : gmap string string)
        (script : list processing.Attempt) (w : World) (t : tasks.Task) :
  tasks_db w !! task_id = Some t ->
  (budget t < Z.of_nat (length script))%Z ->
  str_truthy task_id = true ->
  exists w' t',
    processing.process_image_task task_id file_path parameters script w
    = Some w'
    /\ tasks_db w' !! task_id = Some t'
    /\ let before := monitoring.task_stats (monitoring_service w) in
       let after := monitoring.task_stats (monitoring_service w') in
       let retries := (tasks.get_retry_count t' - tasks.get_retry_count t)%Z in
       monitoring.retried_tasks after
       = (monitoring.retried_tasks before + retries)%Z
       /\ monitoring.completed_tasks after
          = (monitoring.completed_tasks before
             + if bool_decide (tasks.status t' = tasks.COMPLETED) then 1 else 0)%Z
       /\ monitoring.failed_tasks after
          = (monitoring.failed_tasks before + retries
             + if bool_decide (tasks.status t' = tasks.FAILED) then 1 else 0)%Z.
Proof.
  intros Ht Hlen Htruthy.
  destruct (run_shape task_id file_path parameters script w t Ht Hlen)
    as (w' & t' & errors & v & Hrun & _ & Ht' & Hst & _ & Hrc & _ & _ & Hn & _).
  exists w', t'. split; [exact Hrun|]. split; [exact Ht'|].
  cbv zeta. rewrite Htruthy in Hn. unfold counts, counts_of in Hn.
  injection Hn as Hd Hf Hr. rewrite Hd, Hf, Hr, Hrc, Hst.
  destruct v; cbn [final_status completions_of failures_of];
    repeat case_bool_decide; try done; repeat split; lia.
Qed.

Lemma recorder_counts_follow_the_run_witness :
  exists w' t',
    processing.process_image_task
      "job-1" "./storage/uploads/job-1_original.png" ∅ mixed_script one_job
    = Some w'
    /\ tasks_db w' !! "job-1" = Some t'
    /\ let before := monitoring.task_stats (monitoring_service one_job) in
       let after := monitoring.task_stats (monitoring_service w') in
       let retries :=
         (tasks.get_retry_count t' - tasks.get_retry_count job_1)%Z in
       monitoring.retried_tasks after
       = (monitoring.retried_tasks before + retries)%Z
       /\ monitoring.completed_tasks after
          = (monitoring.completed_tasks before
             + if bool_decide (tasks.status t' = tasks.COMPLETED) then 1 else 0)%Z
       /\ monitoring.failed_tasks after
          = (monitoring.failed_tasks before + retries
             + if bool_decide (tasks.status t' = tasks.FAILED) then 1 else 0)%Z.
Proof.
  apply (recorder_counts_follow_the_run
           "job-1" "./storage/uploads/job-1_original.png" ∅ mixed_script
           one_job job_1).
  - reflexivity.
  - reflexivity.
  - reflexivity.
Defined.

(** The run of [mixed_script], evaluated: two retries, after 60 and 120
    seconds, and the third attempt completes the task. *)
Example mixed_script_evaluated :
  (fun w' => (processing.status_of "job-1" w',
              processing.sleeps (journal w'),
              processing.invocations "job-1" (journal w')))
    <$> run_job mixed_script one_job
  = Some (Some tasks.COMPLETED, [60; 120]%Z, 3%nat).
Proof. vm_compute. reflexivity. Qed.

Lemma not_found_run task_id file_path parameters a script w :
  tasks_db w !! task_id = None ->
  exists w',
    processing.process_image_task task_id file_path parameters (a :: script) w
    = Some w'
    /\ tasks_db w' = tasks_db w
    /\ gpu_manager w' = gpu_manager w
    /\ counts w' = counts w
    /\ journal w' = journal w ++ [EvStart task_id; EvNotFound task_id].
Proof.
  intros Hnone. cbn [processing.process_image_task].
  cbn [tasks_db emit monitor set_monitoring_service]. rewrite Hnone.
  eexists. split; [reflexivity|].
  match goal with
  | |- context [processing.monitor_exit ?x] =>
      destruct (monitor_exit_frame x) as (Hg & Hdb & Hj & Hn)
  end.
  split; [by rewrite Hdb|]. split; [by rewrite Hg|].
  split.
  - rewrite Hn. unfold counts. wsimpl. rewrite counts_of_call.
    by destruct (counts_of _) as [[? ?] ?].
  - rewrite Hj. wsimpl. by rewrite <- app_assoc.
Qed.

(** An executor that does not find its task in the table logs it and
    returns: the table, the manager and the task statistics are as before.
    The Celery wrapper passes an empty table, so it always ends this way. *)
Theorem unknown_task_is_left_alone
        (task_id file_path : string) (parameters : gmap string string)
        (a : processing.Attempt) (script : list processing.Attempt)
        (w : World) :
  (tasks_db w !! task_id = None ->
   exists w',
     processing.process_image_task task_id file_path parameters (a :: script) w
     = Some w'
     /\ tasks_db w' = tasks_db w
     /\ gpu_manager w' = gpu_manager w
     /\ counts w' = counts w
     /\ journal w' = journal w ++ [EvStart task_id; EvNotFound task_id])
  /\ (exists w',
         processing.celery_process_image_task task_id file_path parameters
                                              (a :: script) w = Some w'
         /\ tasks_db w' = tasks_db w
         /\ gpu_manager w' = gpu_manager w
         /\ counts w' = counts w
         /\ journal w' = journal w ++ [EvStart task_id; EvNotFound task_id]).
Proof.
  split; [apply not_found_run|].
  unfold processing.celery_process_image_task.
  destruct (not_found_run task_id file_path parameters a script
                          (set_tasks_db ∅ w))
    as (w' & -> & Hdb & Hg & Hn & Hj); [apply lookup_empty|].
  eexists. split; [reflexivity|].
  split; [reflexivity|]. split; [exact Hg|]. split; [exact Hn|]. exact Hj.
Qed.

(* --------------------------------------------------------------------- *)
(** ** The request checks *)
(* --------------------------------------------------------------------- *)

(** [verify_api_key]: with the check disabled every request passes and the
    answer is [None]; with the check enabled a request passes exactly when
    its key is the configured one and that key is not empty. *)
Theorem api_key_is_checked_only_when_enabled
        (settings : config.Settings) (x_api_key : option string) :
  (config.api_key_enabled settings = false ->
   dependencies.verify_api_key settings x_api_key = Ok None)
  /\ (config.api_key_enabled settings = true ->
      forall answer,
        dependencies.verify_api_key settings x_api_key = Ok answer
        <-> answer = x_api_key
            /\ x_api_key = Some (config.api_key settings)
            /\ config.api_key settings <> "").
Proof.
  unfold dependencies.verify_api_key. split; intros ->; cbn [negb];
    [reflexivity|].
  intros answer.
  destruct x_api_key as [k|]; cbn [opt_str_truthy negb].
  2:{ split; [discriminate|]. by intros (_ & ? & _). }
  destruct k as [|c k]; cbn [str_truthy negb].
  { split; [discriminate|]. intros (_ & [= H] & Hne). by rewrite <- H in Hne. }
  case_bool_decide as Hk; cbn [negb].
  - split.
    + intros [= <-]. split; [done|]. split; [done|].
      injection Hk as <-. discriminate.
    + by intros (-> & _).
  - split; [discriminate|]. by intros (_ & ? & _).
Qed.

Lemma has_non_dot_from_start s1 c rest :
  c <> "."%char ->
  os_path.has_non_dot
    (String.substring 0 (String.length s1 + 1) (s1 +:+ String c rest))
  = true.
Proof.
  intros Hc. induction s1 as [|a s1 IH].
  - change ("" +:+ String c rest) with (String c rest).
    cbn [String.length Nat.add String.substring os_path.has_non_dot].
    apply Ascii.eqb_neq in Hc. by rewrite Hc.
  - change (String a s1 +:+ String c rest)
      with (String a (s1 +:+ String c rest)).
    cbn [String.length Nat.add String.substring os_path.has_non_dot].
    rewrite IH. apply orb_true_r.
Qed.

Lemma has_non_dot_through s1 c rest k :
  c <> "."%char -> k <= String.length s1 ->
  os_path.has_non_dot
    (String.substring k (String.length s1 + 1 - k) (s1 +:+ String c rest))
  = true.
Proof.
  intros Hc. revert k. induction s1 as [|a s1 IH]; intros k Hk.
  - cbn [String.length] in Hk. replace k with 0 by lia.
    rewrite Nat.sub_0_r. by apply has_non_dot_from_start.
  - destruct k as [|k].
    + rewrite Nat.sub_0_r. by apply has_non_dot_from_start.
    + change (String a s1 +:+ String c rest)
        with (String a (s1 +:+ String c rest)).
      cbn [String.length] in *. cbn [String.substring].
      replace (S (String.length s1) + 1 - S k)
        with (String.length s1 + 1 - k) by lia.
      apply IH. lia.
Qed.

Lemma lstrip_no_dot ext :
  py_rfind "." ext = None -> py_lstrip ["."%char] (lower ext) = lower ext.
Proof.
  destruct ext as [|a ext]; [reflexivity|].
  intros [Ha _]%py_rfind_none_head.
  cbn [lower py_lstrip existsb].
  apply lower_byte_dot, Ascii.eqb_neq in Ha. by rewrite Ha.
Qed.

(** A file name that ends in a character other than a dot or a slash, a
    dot, and an ASCII extension without dot or slash (on ASCII, [lower] is
    Python's) is accepted when the lower-cased extension is listed,
    whatever stands before. *)
Theorem listed_extension_is_accepted
        (settings : config.Settings) (stem : string) (c : ascii)
        (ext : string) :
  Ascii.eqb c "." = false -> Ascii.eqb c "/" = false ->
  py_isascii ext = true ->
  py_rfind "." ext = None -> py_rfind "/" ext = None ->
  py_in_list (lower ext) (config.allowed_extensions settings) = true ->
  dependencies.validate_file_extension
    settings (Some (stem +:+ String c ("." +:+ ext))) = true.
Proof.
  intros Hdot Hsep _ Hext_dot Hext_sep Hallowed.
  apply Ascii.eqb_neq in Hdot, Hsep.
  remember (stem +:+ String c ("." +:+ ext)) as p eqn:Hp.
  assert (str_truthy p = true) as Htruthy.
  { subst p. by destruct stem. }
  unfold dependencies.validate_file_extension.
  cbn [opt_str_truthy default]. rewrite Htruthy. cbn [negb].
  assert (py_rfind "." p = Some (String.length stem + 1)) as Hd.
  { subst p. apply py_rfind_app_some.
    change ("." +:+ ext) with (String "." ext).
    cbn [py_rfind]. rewrite Hext_dot. reflexivity. }
  assert (py_rfind "/" p = py_rfind "/" stem) as Hs.
  { subst p. apply py_rfind_app_none.
    change ("." +:+ ext) with (String "." ext).
    cbn [py_rfind]. rewrite Hext_sep. cbn.
    apply Ascii.eqb_neq in Hsep. by rewrite Hsep. }
  unfold os_path.splitext, id. rewrite Hd, Hs.
  set (filenameIndex := match py_rfind "/" stem with
                        | Some sepIndex => S sepIndex | None => 0 end).
  assert (filenameIndex <= String.length stem) as Hf.
  { unfold filenameIndex. destruct (py_rfind "/" stem) as [i|] eqn:E; [|lia].
    apply py_rfind_lt in E. lia. }
  destruct (Nat.leb_spec filenameIndex (String.length stem + 1)); [|lia].
  rewrite Hp at 1. rewrite has_non_dot_through by done.
  cbn [andb snd].
  assert (String.substring (String.length stem + 1)
            (String.length p - (String.length stem + 1)) p
          = String "." ext) as ->.
  { subst p. rewrite <- (append_snoc stem c).
    replace (String.length stem + 1)
      with (String.length (stem +:+ String c ""))
      by (rewrite string_length_app; reflexivity).
    rewrite substring_after, string_length_app.
    replace (String.length (stem +:+ String c "")
             + String.length ("." +:+ ext)
             - String.length (stem +:+ String c ""))
      with (String.length ("." +:+ ext)) by lia.
    apply substring_whole. }
  cbn [lower]. change (lower_byte ".") with "."%char.
  cbn [py_lstrip existsb Ascii.eqb]. cbn.
  rewrite lstrip_no_dot by done. exact Hallowed.
Qed.

Lemma listed_extension_is_accepted_witness :
  dependencies.validate_file_extension
    config.settings (Some ("holiday.2024/sea" +:+ String "1" ("." +:+ "JPEG")))
  = true.
Proof.
  apply (listed_extension_is_accepted config.settings "holiday.2024/sea" "1"
                                      "JPEG").
  - reflexivity.
  - reflexivity.
  - reflexivity.
  - reflexivity.
  - reflexivity.
  - reflexivity.
Defined.

(** Unless the empty extension is listed: no name, a name without a dot,
    and a name that is a dot followed by letters (".png") are refused. *)
Theorem name_without_extension_is_refused
        (settings : config.Settings) :
  py_in_list "" (config.allowed_extensions settings) = false ->
  dependencies.validate_file_extension settings None = false
  /\ (forall name, py_rfind "." name = None ->
         dependencies.validate_file_extension settings (Some name) = false)
  /\ (forall ext, py_rfind "." ext = None -> py_rfind "/" ext = None ->
         dependencies.validate_file_extension settings (Some ("." +:+ ext))
         = false).
Proof.
  intros Hempty. split; [reflexivity|]. split.
  - intros name Hnone. unfold dependencies.validate_file_extension.
    cbn [opt_str_truthy default]. unfold id.
    destruct (str_truthy name); [|reflexivity]. cbn [negb].
    unfold os_path.splitext. rewrite Hnone. exact Hempty.
  - intros ext Hdot Hsep. unfold dependencies.validate_file_extension.
    change ("." +:+ ext) with (String "." ext).
    cbn [opt_str_truthy str_truthy negb default]. unfold id.
    unfold os_path.splitext. cbn [py_rfind]. rewrite Hdot, Hsep.
    change (Ascii.eqb "." ".") with true. change (Ascii.eqb "." "/") with false.
    cbn [Nat.leb Nat.sub]. rewrite substring_0_0.
    cbn [os_path.has_non_dot andb snd]. exact Hempty.
Qed.

Lemma name_without_extension_is_refused_witness :
  dependencies.validate_file_extension config.settings None = false
  /\ (forall name, py_rfind "." name = None ->
         dependencies.validate_file_extension config.settings (Some name)
         = false)
  /\ (forall ext, py_rfind "." ext = None -> py_rfind "/" ext = None ->
         dependencies.validate_file_extension config.settings
                                              (Some ("." +:+ ext))
         = false).
Proof.
  apply (name_without_extension_is_refused config.settings). reflexivity.
Defined.

(** The cases of [test_file_validation] in [tests/test_api.py]. *)
Example test_file_validation :
  dependencies.validate_file_extension config.settings (Some "image.jpg") = true
  /\ dependencies.validate_file_extension config.settings (Some "image.JPEG")
     = true
  /\ dependencies.validate_file_extension config.settings (Some "image.png")
     = true
  /\ dependencies.validate_file_extension config.settings (Some "image.gif")
     = false
  /\ dependencies.validate_file_extension config.settings (Some "document.pdf")
     = false
  /\ dependencies.validate_file_extension config.settings None = false.
Proof. vm_compute. repeat split. Qed.
